(** * Cloud-Hypervisor process controller (src/ch/ch_process.c)

    A shallow embedding of the lifecycle controller of the Cloud-Hypervisor
    driver: the control-socket receive path, the [vm.add-net] client, the
    per-thread resource placement, and the Start / Stop orchestrators.

    The C functions are translated one by one into a state monad whose state
    is the domain object together with the part of the kernel the code can
    observe (open descriptors, pending answers to [poll] and [recv]).  Every
    call into a collaborator that has an effect is appended to an event log,
    with its arguments and its result; what a collaborator answers is read
    from an environment record, one field per call.

    Conventions.  A pointer that may be NULL is an [option]; C integers are
    in [Z], and a status is negative on failure as in the source.  Early
    [return]s and [goto cleanup] become nested conditionals in the order of
    the source.  [virReportError] and [virReportSystemError] are events;
    [VIR_WARN] is an event; [VIR_DEBUG] and [VIR_INFO] messages are left
    out.  Format strings are kept as written, their arguments are not
    expanded. *)

From Stdlib Require Import ZArith NArith List String Ascii Bool Lia.
From Stdlib Require Import DecimalString.
Import ListNotations.

#[local] Open Scope string_scope.
#[local] Open Scope list_scope.
#[local] Open Scope Z_scope.

(* ================================================================== *)
(** ** Data model *)
(* ================================================================== *)

(** A [virBitmap] is a bit array; two bitmaps of different allocated size
    are equal when they have the same bits set, so the array is identified
    with the number whose binary digits it holds. *)
Definition virBitmap := N.

Definition pid_t := Z.

Inductive virErrorNumber :=
| VIR_ERR_INTERNAL_ERROR
| VIR_ERR_OPERATION_INVALID
| VIR_ERR_CONFIG_UNSUPPORTED.

Inductive virDomainVirtType :=
| VIR_DOMAIN_VIRT_NONE
| VIR_DOMAIN_VIRT_QEMU
| VIR_DOMAIN_VIRT_KVM
| VIR_DOMAIN_VIRT_XEN
| VIR_DOMAIN_VIRT_HYPERV.

Inductive virDomainCpuPlacementMode :=
| VIR_DOMAIN_CPU_PLACEMENT_MODE_STATIC
| VIR_DOMAIN_CPU_PLACEMENT_MODE_AUTO.

Inductive virDomainNumatuneMemMode :=
| VIR_DOMAIN_NUMATUNE_MEM_STRICT
| VIR_DOMAIN_NUMATUNE_MEM_PREFERRED
| VIR_DOMAIN_NUMATUNE_MEM_INTERLEAVE
| VIR_DOMAIN_NUMATUNE_MEM_RESTRICTIVE.

Inductive virCgroupThreadName :=
| VIR_CGROUP_THREAD_VCPU
| VIR_CGROUP_THREAD_EMULATOR
| VIR_CGROUP_THREAD_IOTHREAD.

Inductive virCgroupController :=
| VIR_CGROUP_CONTROLLER_CPU
| VIR_CGROUP_CONTROLLER_CPUACCT
| VIR_CGROUP_CONTROLLER_CPUSET
| VIR_CGROUP_CONTROLLER_MEMORY
| VIR_CGROUP_CONTROLLER_DEVICES.

Inductive virDomainChrType :=
| VIR_DOMAIN_CHR_TYPE_NULL
| VIR_DOMAIN_CHR_TYPE_PTY
| VIR_DOMAIN_CHR_TYPE_FILE
| VIR_DOMAIN_CHR_TYPE_UNIX.

Inductive virDomainRunningReason :=
| VIR_DOMAIN_RUNNING_UNKNOWN
| VIR_DOMAIN_RUNNING_BOOTED
| VIR_DOMAIN_RUNNING_MIGRATED
| VIR_DOMAIN_RUNNING_RESTORED
| VIR_DOMAIN_RUNNING_FROM_SNAPSHOT
| VIR_DOMAIN_RUNNING_UNPAUSED.

Inductive virDomainShutoffReason :=
| VIR_DOMAIN_SHUTOFF_UNKNOWN
| VIR_DOMAIN_SHUTOFF_SHUTDOWN
| VIR_DOMAIN_SHUTOFF_DESTROYED
| VIR_DOMAIN_SHUTOFF_CRASHED
| VIR_DOMAIN_SHUTOFF_MIGRATED
| VIR_DOMAIN_SHUTOFF_SAVED
| VIR_DOMAIN_SHUTOFF_FAILED
| VIR_DOMAIN_SHUTOFF_FROM_SNAPSHOT
| VIR_DOMAIN_SHUTOFF_DAEMON.

(** The pair (state, reason) of a domain object; the reason is kept with
    the state it qualifies. *)
Inductive virDomainState :=
| VIR_DOMAIN_NOSTATE
| VIR_DOMAIN_RUNNING (reason : virDomainRunningReason)
| VIR_DOMAIN_PAUSED
| VIR_DOMAIN_SHUTOFF (reason : virDomainShutoffReason)
| VIR_DOMAIN_CRASHED.

Record virDomainThreadSchedParam := mkSched {
  sched_policy : Z;
  sched_priority : Z
}.

Record virDomainVcpuDef := mkVcpu {
  vcpu_online : bool;
  vcpu_cpumask : option virBitmap;
  vcpu_sched : virDomainThreadSchedParam;
  vcpu_tid : pid_t            (* CH_DOMAIN_VCPU_PRIVATE(vcpu)->tid *)
}.

Record virDomainNetDef := mkNet {
  net_ifname : string;
  net_queues : Z              (* driver.virtio.queues, queue pairs *)
}.

Record virDomainChrSourceDef := mkChrSource {
  chr_type : virDomainChrType;
  chr_path : option string    (* data.file.path *)
}.

Record virDomainChrDef := mkChr {
  chr_source : option virDomainChrSourceDef
}.

Record virDomainCputune := mkCputune {
  ct_period : Z;              (* unsigned long long *)
  ct_quota : Z;               (* long long *)
  ct_emulator_period : Z;
  ct_emulator_quota : Z;
  ct_iothread_period : Z;
  ct_iothread_quota : Z;
  ct_emulatorpin : option virBitmap;
  ct_emulatorsched : option virDomainThreadSchedParam
}.

Record virDomainDef := mkDef {
  def_name : string;
  def_id : Z;
  def_virtType : virDomainVirtType;
  def_placement_mode : virDomainCpuPlacementMode;
  def_cpumask : option virBitmap;
  def_cputune : virDomainCputune;
  def_vcpus : list virDomainVcpuDef;
  def_nets : list virDomainNetDef;
  def_consoles : list virDomainChrDef;
  def_serials : list virDomainChrDef
}.

(** One entry of the monitor's thread table: a tagged union in C. *)
Inductive virCHMonitorThreadInfo :=
| virCHThreadTypeEmulator (tid : pid_t) (thrName : string)
| virCHThreadTypeVcpu (cpuid : nat) (tid : pid_t)
| virCHThreadTypeIO (tid : pid_t)
| virCHThreadTypeUnknown.

Record virDomainIOThreadInfo := mkIOThread {
  iothread_id : Z             (* unsigned int *)
}.

Record virCHMonitor := mkMonitor {
  mon_pid : pid_t;
  mon_socketpath : string;
  mon_threads : list virCHMonitorThreadInfo
}.

Record virCgroup := mkCgroup {
  cg_path : string;
  cg_controllers : list virCgroupController
}.

(** The domain object with the driver's private data. *)
Record virDomainObj := mkVm {
  vm_pid : pid_t;
  vm_def : virDomainDef;
  vm_state : virDomainState;
  priv_monitor : option virCHMonitor;
  priv_cgroup : option virCgroup;
  priv_machineName : option string;
  priv_autoCpuset : option virBitmap;
  priv_autoNodeset : option virBitmap
}.

Record virCHDriver := mkDriver {
  drv_chCaps : virBitmap;
  drv_privileged : bool;
  drv_stateDir : string
}.

(** The document returned by the monitor's info query. *)
#[warnings="-register-all"]
Inductive virJSONValue :=
| VIR_JSON_TYPE_OBJECT (pairs : list (string * virJSONValue))
| VIR_JSON_TYPE_STRING (s : string)
| VIR_JSON_TYPE_NUMBER (n : Z)
| VIR_JSON_TYPE_NULL.

(* ================================================================== *)
(** ** Events, kernel state and the environment *)
(* ================================================================== *)

(** What the kernel answers to one [recv]: an error, or the bytes that are
    queued on the socket at that moment. *)
Inductive recv_outcome :=
| RecvErr (errno : Z)
| RecvData (pending : list ascii).

Inductive Event :=
(* error reporting and logging *)
| EvReportError (code : virErrorNumber) (msg : string)
| EvReportSystemError (errno : Z) (msg : string)
| EvWarn (msg : string)
(* system calls *)
| EvSocket (ret : Z)
| EvConnect (fd : Z) (path : string) (ret : Z)
| EvPoll (fd : Z) (timeout_ms : Z) (ret : Z) (errno : Z)
| EvRecv (fd : Z) (len : nat) (out : recv_outcome)
| EvSendMsgWithFDs (fd : Z) (payload : string) (fds : list Z) (ret : Z)
| EvClose (fd : Z)
| EvUsleep (usec : Z)
| EvSetAffinity (pid : pid_t) (map : virBitmap) (ret : Z)
| EvSetScheduler (pid : pid_t) (policy priority : Z) (ret : Z)
(* monitor *)
| EvMonitorNew (ok : bool)
| EvMonitorCreateVM (ret : Z)
| EvMonitorBootVM (ret : Z)
| EvMonitorClose
| EvMonitorGetInfo (ok : bool)
| EvMonitorGetIOThreads (ok : bool)
| EvRefreshThreadInfo
(* network set-up *)
| EvConnectNetworkInterfaces (net : virDomainNetDef) (ok : bool)
| EvInterfaceStartDevices (ret : Z)
| EvInterfaceStopDevices (ret : Z)
| EvInterfaceDeleteDevice (net : virDomainNetDef)
(* cgroups *)
| EvCgroupSetupCgroup (nicindexes : list Z) (ret : Z)
| EvCgroupNewThread (name : virCgroupThreadName) (id : Z) (ok : bool)
| EvCgroupAddThread (cg : virCgroup) (pid : pid_t) (ret : Z)
| EvCgroupSetupCpusetCpus (cg : virCgroup) (map : virBitmap) (ret : Z)
| EvCgroupSetCpusetMems (cg : virCgroup) (mems : string) (ret : Z)
| EvCgroupSetupVcpuBW (cg : virCgroup) (period quota : Z) (ret : Z)
| EvCgroupSetupGlobalCpuCgroup (ret : Z)
| EvCgroupRemove (cg : virCgroup)
| EvCgroupRemoveCgroup (ret : Z).

(** The domain object and the kernel state the controller can observe. *)
Record World := mkWorld {
  w_vm : virDomainObj;
  w_fds : list Z;                 (* descriptors open in this process *)
  w_poll : list (Z * Z);          (* coming answers to poll: (ret, errno) *)
  w_recv : list recv_outcome      (* coming answers to recv *)
}.

Record MonitorEnv := mkMonitorEnv {
  monitor_new : option virCHMonitor;
  monitor_create_vm : Z;
  monitor_boot_vm : Z;
  monitor_get_info : option virJSONValue;
  monitor_get_iothreads : option (list virDomainIOThreadInfo);
  monitor_thread_info : list virCHMonitorThreadInfo
}.

Record NetEnv := mkNetEnv {
  net_validate_actual : virDomainNetDef -> Z;
  (* tap descriptors opened and interface indexes added, or failure *)
  net_connect_interfaces : virDomainNetDef -> option (list Z * list Z);
  net_build_json : virDomainNetDef -> option string;
  net_start_devices : Z;
  net_stop_devices : Z
}.

Record CgroupEnv := mkCgroupEnv {
  cgroup_setup_cgroup : Z * option virCgroup;
  cgroup_new_thread : virCgroupThreadName -> Z -> option virCgroup;
  cgroup_add_thread : virCgroup -> pid_t -> Z;
  cgroup_setup_cpuset_cpus : virCgroup -> virBitmap -> Z;
  cgroup_set_cpuset_mems : virCgroup -> string -> Z;
  cgroup_setup_vcpu_bw : virCgroup -> Z -> Z -> Z;
  cgroup_setup_global_cpu : Z;
  (* answer to the n-th removal attempt of one Stop *)
  cgroup_remove_cgroup : nat -> Z
}.

Record HostEnv := mkHostEnv {
  CH_MULTIFD_IN_ADDNET : N;       (* bit index, from ch_conf.h *)
  WITH_SCHED_GETAFFINITY : bool;  (* build-time switch *)
  caps_domain_supported : virDomainVirtType -> bool;
  machine_name : option string;
  host_cpu_has_bitmap : bool;
  host_cpu_online_bitmap : option virBitmap;
  numa_node_count : Z;
  numatune_get_mode : option virDomainNumatuneMemMode;
  numatune_maybe_format_nodeset : Z * option string;
  numatune_maybe_get_nodeset : Z * option virBitmap;
  numa_nodeset_to_cpuset : option virBitmap -> Z * option virBitmap;
  process_set_affinity : pid_t -> virBitmap -> Z;
  process_set_scheduler : pid_t -> Z -> Z -> Z;
  sun_path_size : nat;            (* sizeof(server_addr.sun_path) *)
  sys_socket : Z * Z;                            (* (fd, errno) *)
  sys_connect : Z -> string -> Z * Z;            (* (ret, errno) *)
  sys_sendmsg : string -> list Z -> Z * Z        (* (ret, errno) *)
}.

Record Env := mkEnv {
  e_mon : MonitorEnv;
  e_net : NetEnv;
  e_cg : CgroupEnv;
  e_host : HostEnv
}.

(* ================================================================== *)
(** ** The monad: state passing with an event log *)
(* ================================================================== *)

Definition M (A : Type) : Type := World -> A * World * list Event.

Definition ret {A} (a : A) : M A := fun w => (a, w, []).

Definition bind {A B} (m : M A) (f : A -> M B) : M B :=
  fun w =>
    let '(a, w1, e1) := m w in
    let '(b, w2, e2) := f a w1 in
    (b, w2, e1 ++ e2).

Definition emit (e : Event) : M unit := fun w => (tt, w, [e]).

Definition get_vm : M virDomainObj := fun w => (w_vm w, w, []).

Definition modify_vm (f : virDomainObj -> virDomainObj) : M unit :=
  fun w => (tt, mkWorld (f (w_vm w)) (w_fds w) (w_poll w) (w_recv w), []).

Definition modify_fds (f : list Z -> list Z) : M unit :=
  fun w => (tt, mkWorld (w_vm w) (f (w_fds w)) (w_poll w) (w_recv w), []).

Notation "x <- m ;; k" := (bind m (fun x => k))
  (at level 61, m at next level, right associativity).
Notation "m ;;; k" := (bind m (fun _ => k))
  (at level 61, right associativity).

Definition result {A} (r : A * World * list Event) : A := fst (fst r).
Definition world {A} (r : A * World * list Event) : World := snd (fst r).
Definition events {A} (r : A * World * list Event) : list Event := snd r.

Definition virReportError (code : virErrorNumber) (msg : string) : M unit :=
  emit (EvReportError code msg).

Definition virReportSystemError (errno : Z) (msg : string) : M unit :=
  emit (EvReportSystemError errno msg).

Definition VIR_WARN (msg : string) : M unit := emit (EvWarn msg).

(** [VIR_FORCE_CLOSE]: closes the descriptor unless it is negative. *)
Definition VIR_FORCE_CLOSE (fd : Z) : M unit :=
  if fd <? 0 then ret tt
  else emit (EvClose fd) ;;; modify_fds (filter (fun x => negb (x =? fd))).

Definition EINTR : Z := 4.
Definition EBUSY : Z := 16.

(* ================================================================== *)
(** ** [sscanf (response, "HTTP/1.%*d %d", &http_res)] *)
(* ================================================================== *)

Definition NUL : ascii := Ascii.zero.

(** The C string held by a buffer: the bytes before the first NUL. *)
Fixpoint c_str (buf : list ascii) : list ascii :=
  match buf with
  | [] => []
  | c :: rest => if Ascii.eqb c NUL then [] else c :: c_str rest
  end.

Definition isspace (c : ascii) : bool :=
  let n := nat_of_ascii c in
  Nat.eqb n 32 || (Nat.leb 9 n && Nat.leb n 13).

Definition isdigit (c : ascii) : bool :=
  let n := nat_of_ascii c in
  Nat.leb 48 n && Nat.leb n 57.

Definition digit_value (c : ascii) : Z := Z.of_nat (nat_of_ascii c) - 48.

Fixpoint skip_space (s : list ascii) : list ascii :=
  match s with
  | c :: rest => if isspace c then skip_space rest else s
  | [] => []
  end.

(** Longest run of decimal digits: its value, its length, what follows. *)
Fixpoint scan_digits (s : list ascii) (acc : Z) (n : nat)
  : Z * nat * list ascii :=
  match s with
  | c :: rest =>
      if isdigit c then scan_digits rest (10 * acc + digit_value c) (S n)
      else (acc, n, s)
  | [] => (acc, n, [])
  end.

Inductive scan_result (A : Type) :=
| ScanOk (v : A) (rest : list ascii)
| ScanInputFailure              (* end of input *)
| ScanMatchFailure.             (* the input does not fit the directive *)
Arguments ScanOk {A} v rest.
Arguments ScanInputFailure {A}.
Arguments ScanMatchFailure {A}.

Definition LONG_MAX : Z := 9223372036854775807.
Definition LONG_MIN : Z := -9223372036854775808.

(** Conversion of the digits as the C library does it: [strtol], which
    saturates at the bounds of [long], then the cast to [int]. *)
Definition strtol_clamp (v : Z) : Z := Z.max LONG_MIN (Z.min LONG_MAX v).

Definition int_of_long (v : Z) : Z := (v + 2^31) mod 2^32 - 2^31.

(** The directive [%d]: white space is skipped, then an optional sign and
    at least one digit are read. *)
Definition scan_d (s : list ascii) : scan_result Z :=
  match skip_space s with
  | [] => ScanInputFailure
  | c :: rest =>
      let '(neg, s1) :=
        if Ascii.eqb c "-" then (true, rest)
        else if Ascii.eqb c "+" then (false, rest)
        else (false, c :: rest) in
      let '(v, n, s2) := scan_digits s1 0 0 in
      match n with
      | O => ScanMatchFailure
      | S _ => ScanOk (int_of_long (strtol_clamp (if neg then - v else v))) s2
      end
  end.

(** Ordinary characters of the format: each must be the next input byte. *)
Fixpoint scan_literal (lit s : list ascii) : scan_result unit :=
  match lit with
  | [] => ScanOk tt s
  | l :: lit' =>
      match s with
      | [] => ScanInputFailure
      | c :: rest =>
          if Ascii.eqb c l then scan_literal lit' rest else ScanMatchFailure
      end
  end.

Definition EOF : Z := -1.

(** Returns the number of assignments made (or [EOF]) and, when it is 1,
    the value stored in [http_res]. *)
Definition sscanf_http_res (response : list ascii) : Z * option Z :=
  match scan_literal (list_ascii_of_string "HTTP/1.") (c_str response) with
  | ScanInputFailure => (EOF, None)
  | ScanMatchFailure => (0, None)
  | ScanOk _ s1 =>
      match scan_d s1 with                       (* %*d *)
      | ScanInputFailure => (EOF, None)
      | ScanMatchFailure => (0, None)
      | ScanOk _ s2 =>
          match scan_d (skip_space s2) with      (* white space, then %d *)
          | ScanInputFailure => (EOF, None)
          | ScanMatchFailure => (0, None)
          | ScanOk v _ => (1, Some v)
          end
      end
  end.

(* ================================================================== *)
(** ** chSocketRecv *)
(* ================================================================== *)

Definition PKT_TIMEOUT_MS : Z := 500.

(** [do { ret = poll(pfds, 1, PKT_TIMEOUT_MS); } while (ret < 0 && errno == EINTR);]
    over the answers the kernel is going to give.  When no further answer
    is scheduled nothing becomes readable and the call times out. *)
Fixpoint poll_retry (fd : Z) (script : list (Z * Z))
  : (Z * Z) * list (Z * Z) * list Event :=
  match script with
  | [] => ((0, 0), [], [EvPoll fd PKT_TIMEOUT_MS 0 0])
  | (r, errno) :: rest =>
      if (r <? 0) && (errno =? EINTR) then
        let '(res, rest', evs) := poll_retry fd rest in
        (res, rest', EvPoll fd PKT_TIMEOUT_MS r errno :: evs)
      else ((r, errno), rest, [EvPoll fd PKT_TIMEOUT_MS r errno])
  end.

Definition poll_loop (fd : Z) : M (Z * Z) :=
  fun w =>
    let '(res, rest, evs) := poll_retry fd (w_poll w) in
    (res, mkWorld (w_vm w) (w_fds w) rest (w_recv w), evs).

(** [do { ret = recv(sock, buf, len, 0); } while (ret < 0 && errno == EINTR);]
    The kernel copies at most [len] of the pending bytes.  The result is
    (ret, errno, bytes written at the start of buf).  With nothing further
    scheduled the peer has closed and [recv] returns 0. *)
Fixpoint recv_retry (fd : Z) (len : nat) (script : list recv_outcome)
  : (Z * Z * list ascii) * list recv_outcome * list Event :=
  match script with
  | [] => ((0, 0, []), [], [EvRecv fd len (RecvData [])])
  | RecvErr errno :: rest =>
      if errno =? EINTR then
        let '(res, rest', evs) := recv_retry fd len rest in
        (res, rest', EvRecv fd len (RecvErr errno) :: evs)
      else ((-1, errno, []), rest, [EvRecv fd len (RecvErr errno)])
  | RecvData pending :: rest =>
      let data := firstn len pending in
      ((Z.of_nat (List.length data), 0, data), rest,
       [EvRecv fd len (RecvData pending)])
  end.

Definition recv_loop (fd : Z) (len : nat) : M (Z * Z * list ascii) :=
  fun w =>
    let '(res, rest, evs) := recv_retry fd len (w_recv w) in
    (res, mkWorld (w_vm w) (w_fds w) (w_poll w) rest, evs).

(** The buffer after [recv] wrote [data] at its start; [buf] was zeroed. *)
Definition buf_write (buf data : list ascii) : list ascii :=
  data ++ skipn (List.length data) buf.

(** Returns the buffer, or [None] for NULL. *)
Definition chSocketRecv (sock : Z) : M (option (list ascii)) :=
  let buf_len := 1024%nat in
  let buf := repeat NUL buf_len in                 (* g_new0 *)
  pr <- poll_loop sock ;;
  let '(ret_, errno) := pr in
  if ret_ <=? 0 then
    (if ret_ <? 0 then
       virReportSystemError errno "Poll on sock %1$d failed"
     else
       virReportSystemError errno "Poll on sock %1$d timed out") ;;;
    ret None
  else
    rr <- recv_loop sock (buf_len - 1) ;;
    let '(ret_, errno, data) := rr in
    if ret_ <? 0 then
      virReportSystemError errno "recv on sock %1$d failed" ;;;
      ret None
    else ret (Some (buf_write buf data)).

(* ================================================================== *)
(** ** Field updates of the domain object *)
(* ================================================================== *)

Definition set_vm_pid (p : pid_t) (vm : virDomainObj) : virDomainObj :=
  mkVm p (vm_def vm) (vm_state vm) (priv_monitor vm) (priv_cgroup vm)
       (priv_machineName vm) (priv_autoCpuset vm) (priv_autoNodeset vm).

Definition set_vm_def (d : virDomainDef) (vm : virDomainObj) : virDomainObj :=
  mkVm (vm_pid vm) d (vm_state vm) (priv_monitor vm) (priv_cgroup vm)
       (priv_machineName vm) (priv_autoCpuset vm) (priv_autoNodeset vm).

Definition set_vm_state (s : virDomainState) (vm : virDomainObj) : virDomainObj :=
  mkVm (vm_pid vm) (vm_def vm) s (priv_monitor vm) (priv_cgroup vm)
       (priv_machineName vm) (priv_autoCpuset vm) (priv_autoNodeset vm).

Definition set_priv_monitor (m : option virCHMonitor) (vm : virDomainObj)
  : virDomainObj :=
  mkVm (vm_pid vm) (vm_def vm) (vm_state vm) m (priv_cgroup vm)
       (priv_machineName vm) (priv_autoCpuset vm) (priv_autoNodeset vm).

Definition set_priv_cgroup (c : option virCgroup) (vm : virDomainObj)
  : virDomainObj :=
  mkVm (vm_pid vm) (vm_def vm) (vm_state vm) (priv_monitor vm) c
       (priv_machineName vm) (priv_autoCpuset vm) (priv_autoNodeset vm).

Definition set_priv_machineName (n : option string) (vm : virDomainObj)
  : virDomainObj :=
  mkVm (vm_pid vm) (vm_def vm) (vm_state vm) (priv_monitor vm) (priv_cgroup vm)
       n (priv_autoCpuset vm) (priv_autoNodeset vm).

Definition set_def_id (id : Z) (d : virDomainDef) : virDomainDef :=
  mkDef (def_name d) id (def_virtType d) (def_placement_mode d) (def_cpumask d)
        (def_cputune d) (def_vcpus d) (def_nets d) (def_consoles d)
        (def_serials d).

Definition set_def_vcpus (v : list virDomainVcpuDef) (d : virDomainDef)
  : virDomainDef :=
  mkDef (def_name d) (def_id d) (def_virtType d) (def_placement_mode d)
        (def_cpumask d) (def_cputune d) v (def_nets d) (def_consoles d)
        (def_serials d).

Definition set_def_nets (n : list virDomainNetDef) (d : virDomainDef)
  : virDomainDef :=
  mkDef (def_name d) (def_id d) (def_virtType d) (def_placement_mode d)
        (def_cpumask d) (def_cputune d) (def_vcpus d) n (def_consoles d)
        (def_serials d).

Definition set_def_consoles (c : list virDomainChrDef) (d : virDomainDef)
  : virDomainDef :=
  mkDef (def_name d) (def_id d) (def_virtType d) (def_placement_mode d)
        (def_cpumask d) (def_cputune d) (def_vcpus d) (def_nets d) c
        (def_serials d).

Definition set_def_serials (s : list virDomainChrDef) (d : virDomainDef)
  : virDomainDef :=
  mkDef (def_name d) (def_id d) (def_virtType d) (def_placement_mode d)
        (def_cpumask d) (def_cputune d) (def_vcpus d) (def_nets d)
        (def_consoles d) s.

(** [l[i] = x]; callers stay inside the array. *)
Fixpoint list_set {A} (i : nat) (x : A) (l : list A) : list A :=
  match l, i with
  | [], _ => []
  | _ :: rest, O => x :: rest
  | y :: rest, S j => y :: list_set j x rest
  end.

(* ================================================================== *)
(** ** Collaborator functions with a fixed meaning *)
(* ================================================================== *)

(** Modelled from the spec: virBitmapEqual (util/virbitmap.c) is not among
    the sources; it decides whether a mask is "different from the VM-wide
    mask".  Two absent masks are equal, an absent and a present one are
    not. *)
Definition virBitmapEqual (b1 b2 : option virBitmap) : bool :=
  match b1, b2 with
  | None, None => true
  | Some x, Some y => N.eqb x y
  | _, _ => false
  end.

Definition controller_index (c : virCgroupController) : nat :=
  match c with
  | VIR_CGROUP_CONTROLLER_CPU => 0
  | VIR_CGROUP_CONTROLLER_CPUACCT => 1
  | VIR_CGROUP_CONTROLLER_CPUSET => 2
  | VIR_CGROUP_CONTROLLER_MEMORY => 3
  | VIR_CGROUP_CONTROLLER_DEVICES => 4
  end.

(** Modelled from the spec: virCgroupHasController (util/vircgroup.c) is the
    cgroup collaborator's "query controller availability"; a domain without
    a cgroup has no controller. *)
Definition virCgroupHasController (cgroup : option virCgroup)
    (c : virCgroupController) : bool :=
  match cgroup with
  | None => false
  | Some cg =>
      existsb (fun c' => Nat.eqb (controller_index c') (controller_index c))
              (cg_controllers cg)
  end.

(** Modelled from the spec: virDomainObjIsActive (conf/domain_conf.h) is not
    among the sources; the domain is active while its identity field holds
    a VMM pid, that is, until Stop "invalidates the process-identity
    field". *)
Definition virDomainObjIsActive (vm : virDomainObj) : bool :=
  negb (def_id (vm_def vm) =? -1).

(** Modelled from the spec: virCHDomainHasVcpuPids (ch_domain.c) is not
    among the sources; it tells whether the VMM has "reported per-vCPU OS
    thread ids". *)
Definition virCHDomainHasVcpuPids (vm : virDomainObj) : bool :=
  existsb (fun vcpu => 0 <? vcpu_tid vcpu) (def_vcpus (vm_def vm)).

(* ================================================================== *)
(** ** chProcessAddNetworkDevices *)
(* ================================================================== *)

Definition CRLF : string := String "013" (String "010" EmptyString).

(** ["%ld"] applied to a length. *)
Definition format_ld (n : nat) : string :=
  NilZero.string_of_uint (Nat.to_uint n).

Section Controller.

Variable env : Env.
Variable driver : virCHDriver.

(** Modelled from the spec: virCHConnetNetworkInterfaces (ch_interface.c) is
    the network-setup collaborator that "allocates tap file descriptors for
    a guest interface" and "connects host-side guest interfaces".  It fills
    the caller's array, which has one slot per queue pair, and records the
    interface index.  On failure it leaves nothing open. *)
Definition virCHConnetNetworkInterfaces (net : virDomainNetDef)
    (tapfds : list Z) (nicindexes : list Z) : M (Z * list Z * list Z) :=
  match net_connect_interfaces (e_net env) net with
  | None =>
      emit (EvConnectNetworkInterfaces net false) ;;;
      ret (-1, tapfds, nicindexes)
  | Some (fds, idx) =>
      let filled :=
        firstn (List.length tapfds) (fds ++ skipn (List.length fds) tapfds) in
      emit (EvConnectNetworkInterfaces net true) ;;;
      modify_fds (fun open => open ++ filter (fun fd => 0 <=? fd) filled) ;;;
      ret (0, filled, nicindexes ++ idx)
  end.

Definition virSocketSendMsgWithFDs (sock : Z) (payload : string)
    (fds : list Z) : M (Z * Z) :=
  let '(rc, errno) := sys_sendmsg (e_host env) payload fds in
  emit (EvSendMsgWithFDs sock payload fds rc) ;;;
  ret (rc, errno).

(** [for (j = 0; j < tapfd_len; j++) VIR_FORCE_CLOSE(tapfds[j]);] *)
Fixpoint close_tapfds (tapfds : list Z) : M unit :=
  match tapfds with
  | [] => ret tt
  | fd :: rest => VIR_FORCE_CLOSE fd ;;; close_tapfds rest
  end.

(** One iteration of the loop over [vmdef->nets]: 0 to go on, -1 where the
    C code returns -1. The interface indexes collected so far are threaded
    through. *)
Definition add_network_device (mon_sockfd : Z) (http_headers : string)
    (i : nat) (net0 : virDomainNetDef) (nicindexes : list Z)
  : M (Z * list Z) :=
  (* "queues" here refers to queue pairs. When 0, initialize to 1. *)
  let net := if net_queues net0 =? 0 then mkNet (net_ifname net0) 1 else net0 in
  modify_vm (fun vm =>
    set_vm_def (set_def_nets (list_set i net (def_nets (vm_def vm))) (vm_def vm)) vm) ;;;
  let tapfd_len := Z.to_nat (net_queues net) in
  if net_validate_actual (e_net env) net <? 0 then
    virReportError VIR_ERR_INTERNAL_ERROR "net definition failed validation" ;;;
    ret (-1, nicindexes)
  else
    let tapfds := repeat (-1) tapfd_len in          (* g_new0 + memset -1 *)
    (* Connect Guest interfaces *)
    c <- virCHConnetNetworkInterfaces net tapfds nicindexes ;;
    let '(rc, tapfds, nicindexes) := c in
    if rc <? 0 then ret (-1, nicindexes)
    else
      match net_build_json (e_net env) net with
      | None =>
          virReportError VIR_ERR_INTERNAL_ERROR "Failed to build net json" ;;;
          ret (-1, nicindexes)
      | Some payload =>
          let buf :=
            (http_headers
             ++ "Content-Length: " ++ format_ld (String.length payload)
             ++ CRLF ++ CRLF
             ++ payload)%string in
          s <- virSocketSendMsgWithFDs mon_sockfd buf tapfds ;;
          let '(rc, saved_errno) := s in
          (* Close sent tap fds in Libvirt, as they have been dup()ed in CH *)
          close_tapfds tapfds ;;;
          if rc <? 0 then
            virReportSystemError saved_errno
              "Failed to send net-add request to CH" ;;;
            ret (-1, nicindexes)
          else
            (* Process the response from CH *)
            response <- chSocketRecv mon_sockfd ;;
            match response with
            | None => ret (-1, nicindexes)
            | Some response =>
                (* Parse the HTTP response code *)
                match sscanf_http_res response with
                | (1, Some http_res) =>
                    if negb (http_res =? 204) && negb (http_res =? 200) then
                      virReportError VIR_ERR_INTERNAL_ERROR
                        "Unexpected response from CH: %1$d" ;;;
                      ret (-1, nicindexes)
                    else ret (0, nicindexes)
                | _ =>
                    virReportError VIR_ERR_INTERNAL_ERROR
                      "Failed to parse HTTP response code" ;;;
                    ret (-1, nicindexes)
                end
            end
      end.

(** [for (i = 0; i < vmdef->nnets; i++)] *)
Fixpoint add_network_devices (mon_sockfd : Z) (http_headers : string)
    (i : nat) (nets : list virDomainNetDef) (nicindexes : list Z)
  : M (Z * list Z) :=
  match nets with
  | [] => ret (0, nicindexes)
  | net :: rest =>
      r <- add_network_device mon_sockfd http_headers i net nicindexes ;;
      let '(rc, nicindexes) := r in
      if rc <? 0 then ret (-1, nicindexes)
      else add_network_devices mon_sockfd http_headers (S i) rest nicindexes
  end.

(** Returns the status and the interface indexes written to the caller's
    array.  [mon_sockfd] is declared VIR_AUTOCLOSE: once the socket is open
    it is closed on every way out. *)
Definition chProcessAddNetworkDevices (mon : virCHMonitor)
  : M (Z * list Z) :=
  if negb (N.testbit (drv_chCaps driver) (CH_MULTIFD_IN_ADDNET (e_host env)))
  then
    virReportError VIR_ERR_INTERNAL_ERROR
      "Guest networking is not supported by this version of ch" ;;;
    ret (-1, [])
  else
    let '(mon_sockfd, errno) := sys_socket (e_host env) in
    emit (EvSocket mon_sockfd) ;;;
    if mon_sockfd <? 0 then
      virReportSystemError errno "Failed to open a UNIX socket" ;;;
      ret (-1, [])
    else
      modify_fds (fun open => open ++ [mon_sockfd]) ;;;
      r <- (if Nat.leb (sun_path_size (e_host env))
                       (String.length (mon_socketpath mon)) then
              virReportError VIR_ERR_INTERNAL_ERROR
                "UNIX socket path '%1$s' too long" ;;;
              ret (-1, [])
            else
              let '(rc, errno) :=
                sys_connect (e_host env) mon_sockfd (mon_socketpath mon) in
              emit (EvConnect mon_sockfd (mon_socketpath mon) rc) ;;;
              if rc =? -1 then
                virReportSystemError errno "Failed to connect to mon socket" ;;;
                ret (-1, [])
              else
                let http_headers :=
                  ("PUT /api/v1/vm.add-net HTTP/1.1" ++ CRLF
                   ++ "Host: localhost" ++ CRLF
                   ++ "Content-Type: application/json" ++ CRLF)%string in
                vm <- get_vm ;;
                add_network_devices mon_sockfd http_headers 0
                  (def_nets (vm_def vm)) []) ;;
      VIR_FORCE_CLOSE mon_sockfd ;;;
      ret r.

(* ================================================================== *)
(** ** Resource placement: virCHProcessSetupPid and its callers *)
(* ================================================================== *)

Definition virCHProcessGetAllCpuAffinity : Z * option virBitmap :=
  if negb (host_cpu_has_bitmap (e_host env)) then (0, None)
  else
    match host_cpu_online_bitmap (e_host env) with
    | None => (-1, None)
    | Some cpumap => (0, Some cpumap)
    end.

Definition virProcessSetAffinity (pid : pid_t) (map : virBitmap) : M Z :=
  let rc := process_set_affinity (e_host env) pid map in
  emit (EvSetAffinity pid map rc) ;;; ret rc.

Definition virProcessSetScheduler (pid : pid_t) (policy priority : Z) : M Z :=
  let rc := process_set_scheduler (e_host env) pid policy priority in
  emit (EvSetScheduler pid policy priority rc) ;;; ret rc.

Definition virCgroupAddThread (cg : virCgroup) (pid : pid_t) : M Z :=
  let rc := cgroup_add_thread (e_cg env) cg pid in
  emit (EvCgroupAddThread cg pid rc) ;;; ret rc.

Definition virDomainCgroupSetupCpusetCpus (cg : virCgroup) (map : virBitmap)
  : M Z :=
  let rc := cgroup_setup_cpuset_cpus (e_cg env) cg map in
  emit (EvCgroupSetupCpusetCpus cg map rc) ;;; ret rc.

Definition virCgroupSetCpusetMems (cg : virCgroup) (mems : string) : M Z :=
  let rc := cgroup_set_cpuset_mems (e_cg env) cg mems in
  emit (EvCgroupSetCpusetMems cg mems rc) ;;; ret rc.

Definition virDomainCgroupSetupVcpuBW (cg : virCgroup) (period quota : Z)
  : M Z :=
  let rc := cgroup_setup_vcpu_bw (e_cg env) cg period quota in
  emit (EvCgroupSetupVcpuBW cg period quota rc) ;;; ret rc.

(** [if (vm->pid == 0) ...], [#if defined(WITH_SCHED_GETAFFINITY) || ...] *)
Definition virCHProcessInitCpuAffinity : M Z :=
  if negb (WITH_SCHED_GETAFFINITY (e_host env)) then ret 0
  else
    vm <- get_vm ;;
    if vm_pid vm =? 0 then
      virReportError VIR_ERR_INTERNAL_ERROR
        "Cannot setup CPU affinity until process is started" ;;;
      ret (-1)
    else
      let '(rc, cpumapToSet) :=
        if (numa_node_count (e_host env) <=? 1)
           && match numatune_get_mode (e_host env) with
              | Some VIR_DOMAIN_NUMATUNE_MEM_STRICT => true
              | _ => false
              end
        then
          let '(rc, nodeset) := numatune_maybe_get_nodeset (e_host env) in
          if rc <? 0 then (-1, None)
          else
            let '(rc, cpumap) := numa_nodeset_to_cpuset (e_host env) nodeset in
            if rc <? 0 then (-1, None) else (0, cpumap)
        else
          match ct_emulatorpin (def_cputune (vm_def vm)) with
          | Some pin => (0, Some pin)               (* virBitmapNewCopy *)
          | None =>
              let '(rc, cpumap) := virCHProcessGetAllCpuAffinity in
              if rc <? 0 then (-1, None) else (0, cpumap)
          end in
      if rc <? 0 then ret (-1)
      else
        match cpumapToSet with
        | Some cpumap =>
            rc <- virProcessSetAffinity (vm_pid vm) cpumap ;;
            if rc <? 0 then ret (-1) else ret 0
        | None => ret 0
        end.

Definition is_emulator_thread (nameval : virCgroupThreadName) : bool :=
  match nameval with VIR_CGROUP_THREAD_EMULATOR => true | _ => false end.

Definition is_placement_auto (m : virDomainCpuPlacementMode) : bool :=
  match m with VIR_DOMAIN_CPU_PLACEMENT_MODE_AUTO => true | _ => false end.

(** Lines 244-257, "Infer which cpumask shall be used": the status and
    the local variables [use_cpumask] and [affinity_cpumask]. *)
Definition infer_cpumask (vm : virDomainObj) (cpumask : option virBitmap)
  : Z * option virBitmap * option virBitmap :=
  match cpumask with
  | Some m => (0, Some m, None)
  | None =>
      if is_placement_auto (def_placement_mode (vm_def vm)) then
        (0, priv_autoCpuset vm, None)
      else
        match def_cpumask (vm_def vm) with
        | Some m => (0, Some m, None)
        | None =>
            (* we can't assume cloud-hypervisor itself is running on all
               pCPUs, so we need to explicitly set the spawned instance to
               all pCPUs. *)
            let '(rc, hostcpumap) := virCHProcessGetAllCpuAffinity in
            (rc, None, hostcpumap)
        end
  end.

(** Lines 264-296, the block guarded by the CPU and CPUSET controllers:
    the status and the local variable [cgroup]. *)
Definition setup_pid_cgroup (vm : virDomainObj) (pid : pid_t)
    (nameval : virCgroupThreadName) (id : Z) (use_cpumask : option virBitmap)
    (period quota : Z) : M (Z * option virCgroup) :=
  let has := virCgroupHasController (priv_cgroup vm) in
  if has VIR_CGROUP_CONTROLLER_CPU || has VIR_CGROUP_CONTROLLER_CPUSET then
    let '(rc, mem_mask) :=
      match numatune_get_mode (e_host env) with
      | Some VIR_DOMAIN_NUMATUNE_MEM_STRICT
      | Some VIR_DOMAIN_NUMATUNE_MEM_RESTRICTIVE =>
          numatune_maybe_format_nodeset (e_host env)
      | _ => (0, None)
      end in
    if rc <? 0 then ret (-1, None)
    else
      match cgroup_new_thread (e_cg env) nameval id with
      | None =>
          emit (EvCgroupNewThread nameval id false) ;;;
          ret (-1, None)
      | Some cgroup =>
          emit (EvCgroupNewThread nameval id true) ;;;
          (* Move the thread to the sub dir before changing the settings
             so that all take effect even with cgroupv2. *)
          rc <- virCgroupAddThread cgroup pid ;;
          if rc <? 0 then ret (-1, Some cgroup)
          else
            rc <-
              (if has VIR_CGROUP_CONTROLLER_CPUSET then
                 rc <- match use_cpumask with
                       | Some m => virDomainCgroupSetupCpusetCpus cgroup m
                       | None => ret 0
                       end ;;
                 if rc <? 0 then ret (-1)
                 else
                   rc <- match mem_mask with
                         | Some mems => virCgroupSetCpusetMems cgroup mems
                         | None => ret 0
                         end ;;
                   if rc <? 0 then ret (-1) else ret 0
               else ret 0) ;;
            if rc <? 0 then ret (-1, Some cgroup)
            else
              rc <- virDomainCgroupSetupVcpuBW cgroup period quota ;;
              if rc <? 0 then ret (-1, Some cgroup)
              else ret (0, Some cgroup)
      end
  else ret (0, None).

(** Lines 298-310: the legacy affinity and the scheduler. *)
Definition setup_pid_affinity_sched (pid : pid_t)
    (nameval : virCgroupThreadName)
    (use_cpumask affinity_cpumask : option virBitmap)
    (sched : option virDomainThreadSchedParam) : M Z :=
  let affinity_cpumask :=
    match affinity_cpumask with
    | None => use_cpumask
    | Some _ => affinity_cpumask
    end in
  (* Setup legacy affinity. *)
  rc <- match affinity_cpumask with
        | Some m => virProcessSetAffinity pid m
        | None => ret 0
        end ;;
  if rc <? 0 then ret (-1)
  else
    (* Set scheduler type and priority, but not for the main thread. *)
    rc <- match sched with
          | Some s =>
              if negb (is_emulator_thread nameval) then
                virProcessSetScheduler pid (sched_policy s) (sched_priority s)
              else ret 0
          | None => ret 0
          end ;;
    if rc <? 0 then ret (-1) else ret 0.

(** The body up to the label [cleanup] yields [ret] and the local variable
    [cgroup]; the code after the label removes the thread cgroup when the
    body failed after creating it. *)
Definition virCHProcessSetupPid (pid : pid_t) (nameval : virCgroupThreadName)
    (id : Z) (cpumask : option virBitmap) (period quota : Z)
    (sched : option virDomainThreadSchedParam) : M Z :=
  vm <- get_vm ;;
  r <-
    (if (negb (period =? 0) || negb (quota =? 0))
        && negb (virCgroupHasController (priv_cgroup vm)
                                        VIR_CGROUP_CONTROLLER_CPU)
     then
       virReportError VIR_ERR_CONFIG_UNSUPPORTED
         "cgroup cpu is required for scheduler tuning" ;;;
       ret (-1, None)
     else
       let '(rc, use_cpumask, affinity_cpumask) := infer_cpumask vm cpumask in
       if rc <? 0 then ret (-1, None)
       else
         cg <- setup_pid_cgroup vm pid nameval id use_cpumask period quota ;;
         let '(rc, cgroup) := cg in
         if rc <? 0 then ret (-1, cgroup)
         else
           rc <- setup_pid_affinity_sched pid nameval use_cpumask
                   affinity_cpumask sched ;;
           if rc <? 0 then ret (-1, cgroup) else ret (0, cgroup)) ;;
  let '(ret_, cgroup) := r in
  (* cleanup: *)
  match cgroup with
  | Some cg => if ret_ <? 0 then emit (EvCgroupRemove cg) else ret tt
  | None => ret tt
  end ;;;
  ret ret_.

(** The conversion of an [unsigned int] to [int] (and to [pid_t], which is
    an [int]): the value is reduced modulo 2^32 into the range of [int]. *)
Definition int_of_unsigned (u : Z) : Z := (u + 2^31) mod 2^32 - 2^31.

(** [iothread->iothread_id] is an [unsigned int]; virCHProcessSetupPid takes
    it as [pid_t pid] and as [int id]. *)
Definition virCHProcessSetupIOThread (iothread : virDomainIOThreadInfo) : M Z :=
  vm <- get_vm ;;
  virCHProcessSetupPid (int_of_unsigned (iothread_id iothread))
    VIR_CGROUP_THREAD_IOTHREAD
    (int_of_unsigned (iothread_id iothread))
    (priv_autoCpuset vm)
    (ct_iothread_period (def_cputune (vm_def vm)))
    (ct_iothread_quota (def_cputune (vm_def vm)))
    None.

Fixpoint setup_iothreads (iothreads : list virDomainIOThreadInfo) : M Z :=
  match iothreads with
  | [] => ret 0
  | t :: rest =>
      rc <- virCHProcessSetupIOThread t ;;
      if rc <? 0 then ret (-1) else setup_iothreads rest
  end.

Definition virCHProcessSetupIOThreads : M Z :=
  match monitor_get_iothreads (e_mon env) with
  | None => emit (EvMonitorGetIOThreads false) ;;; ret (-1)
  | Some iothreads =>
      emit (EvMonitorGetIOThreads true) ;;; setup_iothreads iothreads
  end.

Definition virCHProcessSetupEmulatorThread (tid : pid_t) : M Z :=
  vm <- get_vm ;;
  virCHProcessSetupPid tid VIR_CGROUP_THREAD_EMULATOR 0
    (ct_emulatorpin (def_cputune (vm_def vm)))
    (ct_emulator_period (def_cputune (vm_def vm)))
    (ct_emulator_quota (def_cputune (vm_def vm)))
    (ct_emulatorsched (def_cputune (vm_def vm))).

Fixpoint setup_emulator_threads (threads : list virCHMonitorThreadInfo) : M Z :=
  match threads with
  | [] => ret 0
  | virCHThreadTypeEmulator tid _ :: rest =>
      rc <- virCHProcessSetupEmulatorThread tid ;;
      if rc <? 0 then ret (-1) else setup_emulator_threads rest
  | _ :: rest => setup_emulator_threads rest
  end.

(** The loop runs over [priv->monitor->threads]; the callers hold a
    monitor. *)
Definition virCHProcessSetupEmulatorThreads : M Z :=
  vm <- get_vm ;;
  setup_emulator_threads
    (match priv_monitor vm with Some mon => mon_threads mon | None => [] end).

Definition virCHProcessSetupVcpu (vcpuid : nat) (vcpu : virDomainVcpuDef)
  : M Z :=
  vm <- get_vm ;;
  virCHProcessSetupPid (vcpu_tid vcpu) VIR_CGROUP_THREAD_VCPU
    (Z.of_nat vcpuid) (vcpu_cpumask vcpu)
    (ct_period (def_cputune (vm_def vm)))
    (ct_quota (def_cputune (vm_def vm)))
    (Some (vcpu_sched vcpu)).

(** The validation loop taken when no vCPU thread id is known. *)
Fixpoint check_vcpu_affinity (vm_cpumask : option virBitmap)
    (vcpus : list virDomainVcpuDef) : M Z :=
  match vcpus with
  | [] => ret 0
  | vcpu :: rest =>
      if negb (vcpu_online vcpu) then check_vcpu_affinity vm_cpumask rest
      else
        match vcpu_cpumask vcpu with
        | Some m =>
            if negb (virBitmapEqual vm_cpumask (Some m)) then
              virReportError VIR_ERR_OPERATION_INVALID
                "cpu affinity is not supported" ;;;
              ret (-1)
            else check_vcpu_affinity vm_cpumask rest
        | None => check_vcpu_affinity vm_cpumask rest
        end
  end.

Fixpoint setup_vcpus (i : nat) (vcpus : list virDomainVcpuDef) : M Z :=
  match vcpus with
  | [] => ret 0
  | vcpu :: rest =>
      if negb (vcpu_online vcpu) then setup_vcpus (S i) rest
      else
        rc <- virCHProcessSetupVcpu i vcpu ;;
        if rc <? 0 then ret (-1) else setup_vcpus (S i) rest
  end.

Definition virCHProcessSetupVcpus : M Z :=
  vm <- get_vm ;;
  let cputune := def_cputune (vm_def vm) in
  if (negb (ct_period cputune =? 0) || negb (ct_quota cputune =? 0))
     && negb (virCgroupHasController (priv_cgroup vm) VIR_CGROUP_CONTROLLER_CPU)
  then
    virReportError VIR_ERR_CONFIG_UNSUPPORTED
      "cgroup cpu is required for scheduler tuning" ;;;
    ret (-1)
  else if negb (virCHDomainHasVcpuPids vm) then
    (* If any CPU has custom affinity that differs from the
       VM default affinity, we must reject it *)
    check_vcpu_affinity (def_cpumask (vm_def vm)) (def_vcpus (vm_def vm))
  else setup_vcpus 0 (def_vcpus (vm_def vm)).

(* ================================================================== *)
(** ** virCHProcessStop *)
(* ================================================================== *)

(** Modelled from the spec: virDomainObjSetState (conf/domain_conf.c) is not
    among the sources; it "marks domain state" with the state and the
    reason code it is given. *)
Definition virDomainObjSetState (st : virDomainState) : M unit :=
  modify_vm (set_vm_state st).

Fixpoint delete_devices (nets : list virDomainNetDef) : M unit :=
  match nets with
  | [] => ret tt
  | net :: rest => emit (EvInterfaceDeleteDevice net) ;;; delete_devices rest
  end.

Definition virDomainCgroupRemoveCgroup (attempt : nat) : M Z :=
  let rc := cgroup_remove_cgroup (e_cg env) attempt in
  emit (EvCgroupRemoveCgroup rc) ;;; ret rc.

(** The [retry:] loop.  [retries] is the C counter; [fuel] bounds the
    unfolding and is not exhausted when it starts at 5 with [retries] 0,
    since [retries++ < 5] holds five times at most. *)
Fixpoint cgroup_remove_retry (fuel : nat) (retries : nat) : M unit :=
  rc <- virDomainCgroupRemoveCgroup retries ;;
  if rc <? 0 then
    if (rc =? - EBUSY) && Nat.ltb retries 5 then
      match fuel with
      | S fuel' =>
          emit (EvUsleep (200 * 1000)) ;;;
          cgroup_remove_retry fuel' (S retries)
      | O => ret tt
      end
    else VIR_WARN "Failed to remove cgroup for %s"
  else ret tt.

Definition virCHProcessStop (reason : virDomainShutoffReason) : M Z :=
  vm <- get_vm ;;
  match priv_monitor vm with
  | Some _ => emit EvMonitorClose ;;; modify_vm (set_priv_monitor None)
  | None => ret tt
  end ;;;
  (* de-activate netdevs after stopping vm *)
  emit (EvInterfaceStopDevices (net_stop_devices (e_net env))) ;;;
  delete_devices (def_nets (vm_def vm)) ;;;
  cgroup_remove_retry 5 0 ;;;
  modify_vm (set_vm_pid 0) ;;;
  modify_vm (fun vm => set_vm_def (set_def_id (-1) (vm_def vm)) vm) ;;;
  modify_vm (set_priv_machineName None) ;;;
  virDomainObjSetState (VIR_DOMAIN_SHUTOFF reason) ;;;
  ret 0.

(* ================================================================== *)
(** ** virCHProcessUpdateInfo *)
(* ================================================================== *)

Fixpoint json_pairs_get (pairs : list (string * virJSONValue)) (key : string)
  : option virJSONValue :=
  match pairs with
  | [] => None
  | (k, v) :: rest => if String.eqb k key then Some v else json_pairs_get rest key
  end.

(** Modelled from the spec: virJSONValueObjectGet and virJSONValueGetString
    (util/virjson.c) are not among the sources; they read the "JSON-like
    document" of the info query: the member of an object, the contents of
    a string. *)
Definition virJSONValueObjectGet (obj : virJSONValue) (key : string)
  : option virJSONValue :=
  match obj with
  | VIR_JSON_TYPE_OBJECT pairs => json_pairs_get pairs key
  | _ => None
  end.

Definition virJSONValueGetString (v : virJSONValue) : option string :=
  match v with
  | VIR_JSON_TYPE_STRING s => Some s
  | _ => None
  end.

(** [if (chr && chr->source) chr->source->data.file.path = g_strdup(path);]
    on the first element of the array. *)
Definition set_first_chr_path (path : string) (chrs : list virDomainChrDef)
  : list virDomainChrDef :=
  match chrs with
  | [] => []
  | chr :: rest =>
      match chr_source chr with
      | Some src => mkChr (Some (mkChrSource (chr_type src) (Some path))) :: rest
      | None => chr :: rest
      end
  end.

(** [vm->def->serials[0]->source->type == VIR_DOMAIN_CHR_TYPE_UNIX].  The
    code reads through [serials[0]] and through its [source] without a
    check: [None] is the read through a NULL pointer, which ends the
    process. *)
Definition first_serial_is_unix (vm : virDomainObj) : option bool :=
  match def_serials (vm_def vm) with
  | chr :: _ =>
      match chr_source chr with
      | Some src =>
          Some match chr_type src with
               | VIR_DOMAIN_CHR_TYPE_UNIX => true
               | _ => false
               end
      | None => None
      end
  | [] => None
  end.

(** A [void] function: [Some tt] stands for its return, [None] for a
    process that has ended in the read of the serial source. *)
Definition virCHProcessUpdateConsoleDevice (config : option virJSONValue)
    (device : string) : M (option unit) :=
  match config with
  | None => ret (Some tt)
  | Some config =>
      vm <- get_vm ;;
      match (if String.eqb device "serial" then first_serial_is_unix vm
             else Some false) with
      | None => ret None
      | Some true => ret (Some tt)
      | Some false =>
        match virJSONValueObjectGet config device with
        | None =>
            virReportError VIR_ERR_INTERNAL_ERROR
              "missing '%1$s' in 'config' from cloud-hypervisor"
        | Some dev =>
            match virJSONValueObjectGet dev "file" with
            | None =>
                virReportError VIR_ERR_INTERNAL_ERROR
                  "missing 'file' in '%1$s' from cloud-hypervisor"
            | Some file =>
                match virJSONValueGetString file with
                | None =>
                    virReportError VIR_ERR_INTERNAL_ERROR
                      "unable to parse contents of 'file' field in '%1$s' from cloud-hypervisor"
                | Some path =>
                    if String.eqb device "console" then
                      modify_vm (fun vm =>
                        set_vm_def (set_def_consoles
                          (set_first_chr_path path (def_consoles (vm_def vm)))
                          (vm_def vm)) vm)
                    else if String.eqb device "serial" then
                      modify_vm (fun vm =>
                        set_vm_def (set_def_serials
                          (set_first_chr_path path (def_serials (vm_def vm)))
                          (vm_def vm)) vm)
                    else ret tt
                end
            end
        end ;;;
        ret (Some tt)
      end
  end.

Definition virCHProcessUpdateConsole (info : virJSONValue) : M (option unit) :=
  match virJSONValueObjectGet info "config" with
  | None =>
      virReportError VIR_ERR_INTERNAL_ERROR
        "missing 'config' in info query result from cloud-hypervisor" ;;;
      ret (Some tt)
  | Some config =>
      vm <- get_vm ;;
      r <- (if Nat.ltb 0 (List.length (def_consoles (vm_def vm))) then
              virCHProcessUpdateConsoleDevice (Some config) "console"
            else ret (Some tt)) ;;
      match r with
      | None => ret None
      | Some _ =>
          if Nat.ltb 0 (List.length (def_serials (vm_def vm))) then
            virCHProcessUpdateConsoleDevice (Some config) "serial"
          else ret (Some tt)
      end
  end.

(** Returns the status, or [None] when the process has ended in the
    console update. *)
Definition virCHProcessUpdateInfo : M (option Z) :=
  match monitor_get_info (e_mon env) with
  | None => emit (EvMonitorGetInfo false) ;;; ret (Some (-1))
  | Some info =>
      emit (EvMonitorGetInfo true) ;;;
      r <- virCHProcessUpdateConsole info ;;
      match r with
      | None => ret None
      | Some _ => ret (Some 0)
      end
  end.

(* ================================================================== *)
(** ** virCHProcessStart *)
(* ================================================================== *)

Definition virCHProcessStartValidate : M Z :=
  vm <- get_vm ;;
  match def_virtType (vm_def vm) with
  | VIR_DOMAIN_VIRT_KVM =>
      if negb (caps_domain_supported (e_host env) VIR_DOMAIN_VIRT_KVM) then
        virReportError VIR_ERR_CONFIG_UNSUPPORTED
          ("Domain requires KVM, but it is not available. Check that "
           ++ "virtualization is enabled in the host BIOS, and host "
           ++ "configuration is setup to load the kvm modules.")%string ;;;
        ret (-1)
      else ret 0
  | VIR_DOMAIN_VIRT_HYPERV =>
      if negb (caps_domain_supported (e_host env) VIR_DOMAIN_VIRT_HYPERV) then
        virReportError VIR_ERR_CONFIG_UNSUPPORTED
          ("Domain requires MSHV device, but it is not available. Check that "
           ++ "virtualization is enabled in the host BIOS, and host "
           ++ "configuration is setup to load the mshv modules.")%string ;;;
        ret (-1)
      else ret 0
  | _ =>
      virReportError VIR_ERR_CONFIG_UNSUPPORTED
        "virt type '%1$s' is not supported" ;;;
      ret (-1)
  end.

(** Modelled from the spec: virCHDomainRefreshThreadInfo (ch_domain.c) is not
    among the sources; it takes the thread table the monitor "exposes" and
    records the OS thread id of each vCPU thread it lists. *)
Fixpoint refresh_vcpu_tids (threads : list virCHMonitorThreadInfo)
    (vcpus : list virDomainVcpuDef) : list virDomainVcpuDef :=
  match threads with
  | [] => vcpus
  | virCHThreadTypeVcpu cpuid tid :: rest =>
      refresh_vcpu_tids rest
        (match nth_error vcpus cpuid with
         | Some v =>
             list_set cpuid
               (mkVcpu (vcpu_online v) (vcpu_cpumask v) (vcpu_sched v) tid) vcpus
         | None => vcpus
         end)
  | _ :: rest => refresh_vcpu_tids rest vcpus
  end.

Definition virCHDomainRefreshThreadInfo : M unit :=
  let threads := monitor_thread_info (e_mon env) in
  emit EvRefreshThreadInfo ;;;
  modify_vm (fun vm =>
    let vm :=
      match priv_monitor vm with
      | Some mon =>
          set_priv_monitor
            (Some (mkMonitor (mon_pid mon) (mon_socketpath mon) threads)) vm
      | None => vm
      end in
    set_vm_def
      (set_def_vcpus (refresh_vcpu_tids threads (def_vcpus (vm_def vm)))
                     (vm_def vm)) vm).

(** The label [cleanup] of virCHProcessStart: [ret] is still -1 there. *)
Definition start_cleanup : M Z :=
  let ret_ := -1 in
  (if negb (ret_ =? 0) then
     virCHProcessStop VIR_DOMAIN_SHUTOFF_FAILED ;;; ret tt
   else ret tt) ;;;
  ret ret_.

Definition virCHProcessStart (reason : virDomainRunningReason) : M Z :=
  vm <- get_vm ;;
  if virDomainObjIsActive vm then
    virReportError VIR_ERR_OPERATION_INVALID "VM is already active" ;;;
    ret (-1)
  else
  rc <- virCHProcessStartValidate ;;
  if rc <? 0 then ret (-1)
  else
  (* the monitor held from here on, or [None] for [goto cleanup] *)
  m <-
    match priv_monitor vm with
    | Some mon => ret (Some mon)
    | None =>
        (* And we can get the first monitor connection now too *)
        match monitor_new (e_mon env) with
        | None =>
            emit (EvMonitorNew false) ;;;
            virReportError VIR_ERR_INTERNAL_ERROR
              "failed to create connection to CH socket" ;;;
            ret None
        | Some mon =>
            emit (EvMonitorNew true) ;;;
            modify_vm (set_priv_monitor (Some mon)) ;;;
            emit (EvMonitorCreateVM (monitor_create_vm (e_mon env))) ;;;
            if monitor_create_vm (e_mon env) <? 0 then
              virReportError VIR_ERR_INTERNAL_ERROR
                "failed to create guest VM" ;;;
              ret None
            else ret (Some mon)
        end
    end ;;
  match m with
  | None => start_cleanup
  | Some mon =>
  modify_vm (set_vm_pid (mon_pid mon)) ;;;
  modify_vm (fun vm => set_vm_def (set_def_id (mon_pid mon) (vm_def vm)) vm) ;;;
  modify_vm (set_priv_machineName (machine_name (e_host env))) ;;;
  r <- chProcessAddNetworkDevices mon ;;
  let '(rc, nicindexes) := r in
  if rc <? 0 then
    virReportError VIR_ERR_INTERNAL_ERROR
      "Failed while adding guest interfaces" ;;;
    start_cleanup
  else
  let '(rc, cgroup) := cgroup_setup_cgroup (e_cg env) in
  emit (EvCgroupSetupCgroup nicindexes rc) ;;;
  modify_vm (set_priv_cgroup cgroup) ;;;
  if rc <? 0 then start_cleanup
  else
  rc <- virCHProcessInitCpuAffinity ;;
  if rc <? 0 then start_cleanup
  else
  (* Bring up netdevs before starting CPUs *)
  emit (EvInterfaceStartDevices (net_start_devices (e_net env))) ;;;
  if net_start_devices (e_net env) <? 0 then ret (-1)
  else
  emit (EvMonitorBootVM (monitor_boot_vm (e_mon env))) ;;;
  if monitor_boot_vm (e_mon env) <? 0 then
    virReportError VIR_ERR_INTERNAL_ERROR "failed to boot guest VM" ;;;
    start_cleanup
  else
  virCHDomainRefreshThreadInfo ;;;
  rc <- virCHProcessSetupEmulatorThreads ;;
  if rc <? 0 then start_cleanup
  else
  rc <- virCHProcessSetupIOThreads ;;
  if rc <? 0 then start_cleanup
  else
  emit (EvCgroupSetupGlobalCpuCgroup (cgroup_setup_global_cpu (e_cg env))) ;;;
  if cgroup_setup_global_cpu (e_cg env) <? 0 then start_cleanup
  else
  rc <- virCHProcessSetupVcpus ;;
  if rc <? 0 then start_cleanup
  else
  (* The status is not looked at.  The model goes on also after [None], the
     end of the process in the console update, where the code does not get
     to the next line: what it says of the outcome of Start holds for the
     code when the update returns. *)
  virCHProcessUpdateInfo ;;;
  virDomainObjSetState (VIR_DOMAIN_RUNNING reason) ;;;
  ret 0
  end.

End Controller.

(* ================================================================== *)
(** ** Vocabulary of the statements *)
(* ================================================================== *)

(** A [poll] answer that makes the loop call [poll] again. *)
Definition interrupted (p : Z * Z) : bool :=
  (fst p <? 0) && (snd p =? EINTR).

Definition poll_event (fd : Z) (p : Z * Z) : Event :=
  EvPoll fd PKT_TIMEOUT_MS (fst p) (snd p).

(** A [recv] answer that makes the loop call [recv] again. *)
Definition recv_interrupted (o : recv_outcome) : bool :=
  match o with
  | RecvErr errno => errno =? EINTR
  | RecvData _ => false
  end.

Definition is_recv_success (e : Event) : bool :=
  match e with
  | EvRecv _ _ (RecvData _) => true
  | _ => false
  end.

Definition is_error_report (e : Event) : bool :=
  match e with
  | EvReportError _ _ | EvReportSystemError _ _ => true
  | _ => false
  end.

(** The buffer chSocketRecv hands back when the kernel had [pending] queued:
    1024 bytes, the first 1023 pending bytes and NUL for the rest. *)
Definition received_buffer (pending : list ascii) : list ascii :=
  firstn 1023 pending ++ repeat NUL (1024 - List.length (firstn 1023 pending)).

(** The status check of the add-net client on a response buffer. *)
Definition status_accepted (response : list ascii) : bool :=
  match sscanf_http_res response with
  | (1, Some code) => (code =? 200) || (code =? 204)
  | _ => false
  end.

(** A computation emits only events of a given kind. *)
Definition emits_only {A} (p : Event -> bool) (m : M A) : Prop :=
  forall w, forallb p (events (m w)) = true.

(** What virCHProcessStop does to the outside. *)
Definition is_teardown_event (e : Event) : bool :=
  match e with
  | EvMonitorClose
  | EvInterfaceStopDevices _
  | EvInterfaceDeleteDevice _
  | EvCgroupRemoveCgroup _
  | EvUsleep _
  | EvWarn _ => true
  | _ => false
  end.

(** What network attachment and thread placement do to the outside. *)
Definition is_setup_event (e : Event) : bool :=
  match e with
  | EvReportError VIR_ERR_OPERATION_INVALID _ => false
  | EvReportError _ _
  | EvReportSystemError _ _
  | EvSocket _
  | EvConnect _ _ _
  | EvPoll _ _ _ _
  | EvRecv _ _ _
  | EvSendMsgWithFDs _ _ _ _
  | EvClose _
  | EvSetAffinity _ _ _
  | EvSetScheduler _ _ _ _
  | EvMonitorGetIOThreads _
  | EvConnectNetworkInterfaces _ _
  | EvCgroupNewThread _ _ _
  | EvCgroupAddThread _ _ _
  | EvCgroupSetupCpusetCpus _ _ _
  | EvCgroupSetCpusetMems _ _ _
  | EvCgroupSetupVcpuBW _ _ _ _
  | EvCgroupRemove _ => true
  | _ => false
  end.

Definition affinity_error : Event :=
  EvReportError VIR_ERR_OPERATION_INVALID "cpu affinity is not supported".

Definition is_affinity_error (e : Event) : bool :=
  match e with
  | EvReportError VIR_ERR_OPERATION_INVALID msg =>
      String.eqb msg "cpu affinity is not supported"
  | _ => false
  end.

Definition not_recv_success (e : Event) : bool := negb (is_recv_success e).

(** The status of the add-net client against the responses it received:
    the status is 0 or -1, every [recv] that delivered data asked for 1023
    bytes, and a response that fails the status check forces -1. *)
Definition recv_checked (rc : Z) (evs : list Event) : Prop :=
  (rc = 0 \/ rc = -1) /\
  forall fd len pending,
    In (EvRecv fd len (RecvData pending)) evs ->
    len = 1023%nat /\
    (status_accepted (received_buffer pending) = false -> rc = -1).

Definition answers_checked (m : M (Z * list Z)) : Prop :=
  forall w, recv_checked (fst (result (m w))) (events (m w)).

(** The CPU-mask resolution policy in the words of the specification.
    Priorities (1) to (3): the explicit per-entity mask, the automatic
    node-local mask when the VM uses automatic placement, the VM-wide
    mask. *)
Definition mask_by_priority (vm : virDomainObj) (cpumask : option virBitmap)
  : option virBitmap :=
  match cpumask with
  | Some m => Some m
  | None =>
      if is_placement_auto (def_placement_mode (vm_def vm)) then
        priv_autoCpuset vm
      else def_cpumask (vm_def vm)
  end.

(** Priority (4) applies when no explicit mask is given, placement is not
    automatic and there is no VM-wide mask. *)
Definition falls_back_to_host (vm : virDomainObj) (cpumask : option virBitmap)
  : bool :=
  match cpumask with
  | Some _ => false
  | None =>
      negb (is_placement_auto (def_placement_mode (vm_def vm)))
      && match def_cpumask (vm_def vm) with Some _ => false | None => true end
  end.

(** All online host CPUs, when the host can tell. *)
Definition all_online_cpus (env : Env) : option virBitmap :=
  if host_cpu_has_bitmap (e_host env) then host_cpu_online_bitmap (e_host env)
  else None.

(** Priorities (1) to (4). *)
Definition mask_by_priority_with_host (env : Env) (vm : virDomainObj)
    (cpumask : option virBitmap) : option virBitmap :=
  if falls_back_to_host vm cpumask then all_online_cpus env
  else mask_by_priority vm cpumask.

Definition not_error_report (e : Event) : bool := negb (is_error_report e).

Definition is_cgroup_remove (e : Event) : bool :=
  match e with EvCgroupRemove _ => true | _ => false end.

Definition bandwidth_error : Event :=
  EvReportError VIR_ERR_CONFIG_UNSUPPORTED
    "cgroup cpu is required for scheduler tuning".

(** Some online vCPU has a cpumask of its own that differs from the VM-wide
    mask. *)
Definition has_custom_vcpu_affinity (vm : virDomainObj) : bool :=
  existsb
    (fun vcpu =>
       vcpu_online vcpu
       && match vcpu_cpumask vcpu with
          | Some m => negb (virBitmapEqual (def_cpumask (vm_def vm)) (Some m))
          | None => false
          end)
    (def_vcpus (vm_def vm)).

(** Number of removal attempts that answer [-EBUSY] in a row, starting with
    attempt [n], among at most [k] attempts. *)
Fixpoint busy_run (answers : nat -> Z) (n k : nat) : nat :=
  match k with
  | O => O
  | S k' =>
      if answers n =? - EBUSY then S (busy_run answers (S n) k') else O
  end.

Definition is_remove_attempt (e : Event) : bool :=
  match e with EvCgroupRemoveCgroup _ => true | _ => false end.

Definition is_sleep (e : Event) : bool :=
  match e with EvUsleep _ => true | _ => false end.

Definition is_warning (e : Event) : bool :=
  match e with EvWarn _ => true | _ => false end.

Definition already_active_error : Event :=
  EvReportError VIR_ERR_OPERATION_INVALID "VM is already active".

(** What virCHProcessStart does to the outside up to, and not including,
    vCPU placement, the info query and the cleanup. *)
Definition is_start_event (e : Event) : bool :=
  is_setup_event e
  || match e with
     | EvReportError VIR_ERR_OPERATION_INVALID msg =>
         String.eqb msg "VM is already active"
     | EvMonitorNew _
     | EvMonitorCreateVM _
     | EvMonitorBootVM _
     | EvRefreshThreadInfo
     | EvCgroupSetupCgroup _ _
     | EvCgroupSetupGlobalCpuCgroup _
     | EvInterfaceStartDevices _ => true
     | _ => false
     end.

(** What the info query and the console update do to the outside. *)
Definition is_info_event (e : Event) : bool :=
  match e with
  | EvMonitorGetInfo _
  | EvReportError VIR_ERR_INTERNAL_ERROR _ => true
  | _ => false
  end.


(** Everything but the transfer of descriptors over the control socket. *)
Definition is_not_send (e : Event) : bool :=
  match e with EvSendMsgWithFDs _ _ _ _ => false | _ => true end.


(* ================================================================== *)
(** ** Vocabulary of the further properties *)
(* ================================================================== *)

(** Forward reasoning over a run: [wp m Q tr w] says that running [m] in
    world [w], after the events [tr] have been logged, ends in a result, a
    log and a world that satisfy [Q]. *)
Definition wp {A} (m : M A) (Q : A -> list Event -> World -> Prop)
  : list Event -> World -> Prop :=
  fun tr w => Q (result (m w)) (tr ++ events (m w)) (world (m w)).

(** Two arrays of character devices that agree except, at most, for the
    file path of the first element's source. *)
Definition only_first_path_differs (chrs chrs' : list virDomainChrDef) : Prop :=
  chrs' = chrs \/
  exists chr src path rest,
    chrs = chr :: rest /\
    chr_source chr = Some src /\
    chrs' = mkChr (Some (mkChrSource (chr_type src) (Some path))) :: rest.

Definition is_internal_error (e : Event) : bool :=
  match e with EvReportError VIR_ERR_INTERNAL_ERROR _ => true | _ => false end.

(** The path a [config] object gives for a device: [<device>.file], when
    both members exist and the second one is a string. *)
Definition device_path (config : virJSONValue) (device : string)
  : option string :=
  match virJSONValueObjectGet config device with
  | Some dev =>
      match virJSONValueObjectGet dev "file" with
      | Some file => virJSONValueGetString file
      | None => None
      end
  | None => None
  end.

(** The same, from the document of the info query: [config.<device>.file]. *)
Definition reported_path (info : virJSONValue) (device : string)
  : option string :=
  match virJSONValueObjectGet info "config" with
  | Some config => device_path config device
  | None => None
  end.

Definition with_consoles (chrs : list virDomainChrDef) (w : World) : World :=
  mkWorld
    (set_vm_def (set_def_consoles chrs (vm_def (w_vm w))) (w_vm w))
    (w_fds w) (w_poll w) (w_recv w).

Definition with_serials (chrs : list virDomainChrDef) (w : World) : World :=
  mkWorld
    (set_vm_def (set_def_serials chrs (vm_def (w_vm w))) (w_vm w))
    (w_fds w) (w_poll w) (w_recv w).


Definition pid_required_error : Event :=
  EvReportError VIR_ERR_INTERNAL_ERROR
    "Cannot setup CPU affinity until process is started".

(** The virtualization types virCHProcessStartValidate knows about. *)
Definition is_kvm_or_hyperv (t : virDomainVirtType) : bool :=
  match t with
  | VIR_DOMAIN_VIRT_KVM | VIR_DOMAIN_VIRT_HYPERV => true
  | _ => false
  end.

Definition is_config_unsupported (e : Event) : bool :=
  match e with EvReportError VIR_ERR_CONFIG_UNSUPPORTED _ => true | _ => false end.

(** What the removal loop of virCHProcessStop does to the outside. *)
Definition is_removal_event (e : Event) : bool :=
  is_remove_attempt e || is_sleep e || is_warning e.

(** The domain object virCHProcessStop leaves behind. *)
Definition stopped (reason : virDomainShutoffReason) (vm : virDomainObj)
  : virDomainObj :=
  mkVm 0 (set_def_id (-1) (vm_def vm)) (VIR_DOMAIN_SHUTOFF reason)
       None (priv_cgroup vm) None (priv_autoCpuset vm) (priv_autoNodeset vm).

(** *** The calls of virCHProcessSetupPid as a plan *)

(** A logged call that did not fail.  Error reports and the removal of a
    thread cgroup are not calls that succeed. *)
Definition call_succeeded (e : Event) : bool :=
  match e with
  | EvCgroupNewThread _ _ ok => ok
  | EvCgroupAddThread _ _ rc
  | EvCgroupSetupCpusetCpus _ _ rc
  | EvCgroupSetCpusetMems _ _ rc
  | EvCgroupSetupVcpuBW _ _ _ rc
  | EvSetAffinity _ _ rc
  | EvSetScheduler _ _ _ rc => negb (rc <? 0)
  | EvReportError _ _ | EvReportSystemError _ _ | EvCgroupRemove _ => false
  | _ => true
  end.

(** The calls of a plan that are made when the first failure ends the run:
    those up to and including the first one that fails. *)
Fixpoint run_until_failure (plan : list Event) : list Event :=
  match plan with
  | [] => []
  | e :: rest => if call_succeeded e then e :: run_until_failure rest else [e]
  end.

(** The thread cgroup is needed when the domain's cgroup has the CPU or the
    CPUSET controller. *)
Definition thread_cgroup_needed (vm : virDomainObj) : bool :=
  virCgroupHasController (priv_cgroup vm) VIR_CGROUP_CONTROLLER_CPU
  || virCgroupHasController (priv_cgroup vm) VIR_CGROUP_CONTROLLER_CPUSET.

(** The memory node mask, formatted when the memory mode is strict or
    restrictive, and whether formatting it failed. *)
Definition mem_mask_needed (env : Env) : bool :=
  match numatune_get_mode (e_host env) with
  | Some VIR_DOMAIN_NUMATUNE_MEM_STRICT
  | Some VIR_DOMAIN_NUMATUNE_MEM_RESTRICTIVE => true
  | _ => false
  end.

Definition mem_mask_of (env : Env) : option string :=
  if mem_mask_needed env then snd (numatune_maybe_format_nodeset (e_host env))
  else None.

Definition mem_mask_fails (env : Env) : bool :=
  mem_mask_needed env && (fst (numatune_maybe_format_nodeset (e_host env)) <? 0).

(** The cgroup calls for one thread, in the order in which they are to be
    made, each with the answer the collaborator gives. *)
Definition planned_cgroup_calls (env : Env) (vm : virDomainObj) (pid : pid_t)
    (nameval : virCgroupThreadName) (id : Z) (use_cpumask : option virBitmap)
    (period quota : Z) : list Event :=
  if thread_cgroup_needed vm then
    match cgroup_new_thread (e_cg env) nameval id with
    | None => [EvCgroupNewThread nameval id false]
    | Some cg =>
        [EvCgroupNewThread nameval id true;
         EvCgroupAddThread cg pid (cgroup_add_thread (e_cg env) cg pid)]
        ++ (if virCgroupHasController (priv_cgroup vm) VIR_CGROUP_CONTROLLER_CPUSET
            then
              match use_cpumask with
              | Some m =>
                  [EvCgroupSetupCpusetCpus cg m
                     (cgroup_setup_cpuset_cpus (e_cg env) cg m)]
              | None => []
              end
              ++ match mem_mask_of env with
                 | Some mems =>
                     [EvCgroupSetCpusetMems cg mems
                        (cgroup_set_cpuset_mems (e_cg env) cg mems)]
                 | None => []
                 end
            else [])
        ++ [EvCgroupSetupVcpuBW cg period quota
              (cgroup_setup_vcpu_bw (e_cg env) cg period quota)]
    end
  else [].

(** The legacy affinity call and the scheduler call. *)
Definition planned_affinity_calls (env : Env) (pid : pid_t)
    (nameval : virCgroupThreadName) (mask : option virBitmap)
    (sched : option virDomainThreadSchedParam) : list Event :=
  match mask with
  | Some m => [EvSetAffinity pid m (process_set_affinity (e_host env) pid m)]
  | None => []
  end
  ++ match sched with
     | Some s =>
         if is_emulator_thread nameval then []
         else [EvSetScheduler pid (sched_policy s) (sched_priority s)
                 (process_set_scheduler (e_host env) pid (sched_policy s)
                    (sched_priority s))]
     | None => []
     end.

Definition planned_calls (env : Env) (vm : virDomainObj) (pid : pid_t)
    (nameval : virCgroupThreadName) (id : Z) (cpumask : option virBitmap)
    (period quota : Z) (sched : option virDomainThreadSchedParam) : list Event :=
  planned_cgroup_calls env vm pid nameval id (mask_by_priority vm cpumask)
    period quota
  ++ planned_affinity_calls env pid nameval
       (mask_by_priority_with_host env vm cpumask) sched.

(** The thread cgroup virCHProcessSetupPid holds at its cleanup label. *)
Definition thread_cgroup (env : Env) (vm : virDomainObj)
    (nameval : virCgroupThreadName) (id : Z) : option virCgroup :=
  if thread_cgroup_needed vm then cgroup_new_thread (e_cg env) nameval id
  else None.

Definition removal_of (cgroup : option virCgroup) : list Event :=
  match cgroup with
  | Some cg => [EvCgroupRemove cg]
  | None => []
  end.

(** The bandwidth precondition of virCHProcessSetupPid fails. *)
Definition bandwidth_unsupported (vm : virDomainObj) (period quota : Z) : bool :=
  (negb (period =? 0) || negb (quota =? 0))
  && negb (virCgroupHasController (priv_cgroup vm) VIR_CGROUP_CONTROLLER_CPU).

(** The host should tell its online CPUs and does not. *)
Definition host_cpus_unavailable (env : Env) : bool :=
  host_cpu_has_bitmap (e_host env)
  && match host_cpu_online_bitmap (e_host env) with
     | Some _ => false
     | None => true
     end.

(** *** Order of events *)

(** In a log, every event of kind [b] comes after some event of kind [a]. *)
Definition always_preceded_by (a b : Event -> bool) (tr : list Event) : Prop :=
  forall pre e post, tr = pre ++ e :: post -> b e = true -> existsb a pre = true.

(** The same as a check that runs over the log; [seen] tells whether an
    event of kind [a] has been met. *)
Fixpoint preceded_check (a b : Event -> bool) (seen : bool) (tr : list Event)
  : bool :=
  match tr with
  | [] => true
  | e :: rest =>
      (if b e then seen else true) && preceded_check a b (seen || a e) rest
  end.

(** A setting written to a thread cgroup. *)
Definition is_cgroup_setting (e : Event) : bool :=
  match e with
  | EvCgroupSetupCpusetCpus _ _ _
  | EvCgroupSetCpusetMems _ _ _
  | EvCgroupSetupVcpuBW _ _ _ _ => true
  | _ => false
  end.

Definition is_add_thread (e : Event) : bool :=
  match e with EvCgroupAddThread _ _ _ => true | _ => false end.

(** Any call on a thread cgroup, its removal included. *)
Definition is_thread_cgroup_event (e : Event) : bool :=
  match e with
  | EvCgroupNewThread _ _ _
  | EvCgroupAddThread _ _ _
  | EvCgroupSetupCpusetCpus _ _ _
  | EvCgroupSetCpusetMems _ _ _
  | EvCgroupSetupVcpuBW _ _ _ _
  | EvCgroupRemove _ => true
  | _ => false
  end.

Definition is_set_scheduler (e : Event) : bool :=
  match e with EvSetScheduler _ _ _ _ => true | _ => false end.

(** *** The placement loops *)

(** A loop that runs its steps in order and gives up, with -1, at the first
    step that returns a negative status. *)
Fixpoint seq_until_failure (steps : list (M Z)) : M Z :=
  match steps with
  | [] => ret 0
  | m :: rest =>
      rc <- m ;;
      if rc <? 0 then ret (-1) else seq_until_failure rest
  end.

(** The steps that are run from world [w] when no step changes the world:
    those up to and including the first one that fails. *)
Fixpoint steps_run (w : World) (steps : list (M Z)) : list (M Z) :=
  match steps with
  | [] => []
  | m :: rest =>
      if result (m w) <? 0 then [m] else m :: steps_run w rest
  end.

(** The thread ids of the emulator entries of a thread table. *)
Fixpoint emulator_tids (threads : list virCHMonitorThreadInfo) : list pid_t :=
  match threads with
  | [] => []
  | virCHThreadTypeEmulator tid _ :: rest => tid :: emulator_tids rest
  | _ :: rest => emulator_tids rest
  end.

(** The online vCPUs of an array with their index, counted from [i]. *)
Fixpoint online_vcpus (i : nat) (vcpus : list virDomainVcpuDef)
  : list (nat * virDomainVcpuDef) :=
  match vcpus with
  | [] => []
  | vcpu :: rest =>
      if vcpu_online vcpu then (i, vcpu) :: online_vcpus (S i) rest
      else online_vcpus (S i) rest
  end.

Definition monitor_threads (vm : virDomainObj) : list virCHMonitorThreadInfo :=
  match priv_monitor vm with
  | Some mon => mon_threads mon
  | None => []
  end.

(** *** The add-net client *)

(** A computation that leaves the domain object as it is. *)
Definition keeps_vm {A} (m : M A) : Prop :=
  forall w, w_vm (world (m w)) = w_vm w.

(** The interface as the loop of chProcessAddNetworkDevices leaves it:
    0 queue pairs become 1. *)
Definition normalise_queues (net : virDomainNetDef) : virDomainNetDef :=
  if net_queues net =? 0 then mkNet (net_ifname net) 1 else net.

(** The request sent for an interface whose body is [body]. *)
Definition add_net_request (body : string) : string :=
  ("PUT /api/v1/vm.add-net HTTP/1.1" ++ CRLF
   ++ "Host: localhost" ++ CRLF
   ++ "Content-Type: application/json" ++ CRLF
   ++ "Content-Length: " ++ format_ld (String.length body)
   ++ CRLF ++ CRLF
   ++ body)%string.

Definition is_connect_interfaces (e : Event) : bool :=
  match e with EvConnectNetworkInterfaces _ _ => true | _ => false end.

Definition is_send (e : Event) : bool :=
  match e with EvSendMsgWithFDs _ _ _ _ => true | _ => false end.

Definition with_nets (nets : list virDomainNetDef) (vm : virDomainObj)
  : virDomainObj :=
  set_vm_def (set_def_nets nets (vm_def vm)) vm.

(** *** Status lines *)





(** *** virCHProcessStart *)

(** The monitor virCHProcessStart works with: the one the domain holds, or
    else the one a new connection gives. *)
Definition monitor_to_use (env : Env) (vm : virDomainObj) : option virCHMonitor :=
  match priv_monitor vm with
  | Some mon => Some mon
  | None => monitor_new (e_mon env)
  end.

(** The domain carries the identity of the VMM process behind [mon]: pid
    and id are the pid of the monitor, and a monitor with that pid is
    held. *)
Definition has_identity_of (mon : virCHMonitor) (vm : virDomainObj) : Prop :=
  vm_pid vm = mon_pid mon /\
  def_id (vm_def vm) = mon_pid mon /\
  option_map mon_pid (priv_monitor vm) = Some (mon_pid mon) /\
  option_map mon_socketpath (priv_monitor vm) = Some (mon_socketpath mon).

Definition is_monitor_creation (e : Event) : bool :=
  match e with
  | EvMonitorNew _ | EvMonitorCreateVM _ => true
  | _ => false
  end.

Definition is_boot (e : Event) : bool :=
  match e with EvMonitorBootVM _ => true | _ => false end.

Definition is_start_devices (e : Event) : bool :=
  match e with EvInterfaceStartDevices _ => true | _ => false end.

Definition devices_started (e : Event) : bool :=
  match e with EvInterfaceStartDevices rc => negb (rc <? 0) | _ => false end.

Definition booted (e : Event) : bool :=
  match e with EvMonitorBootVM rc => negb (rc <? 0) | _ => false end.

Definition cgroup_set_up (e : Event) : bool :=
  match e with EvCgroupSetupCgroup _ rc => negb (rc <? 0) | _ => false end.

Definition start_devices_failed (e : Event) : bool :=
  match e with EvInterfaceStartDevices rc => rc <? 0 | _ => false end.

(** The placement of a thread: a call on a thread cgroup, an affinity or a
    scheduler call. *)
Definition is_placement (e : Event) : bool :=
  match e with
  | EvCgroupNewThread _ _ _
  | EvCgroupAddThread _ _ _
  | EvCgroupSetupCpusetCpus _ _ _
  | EvCgroupSetCpusetMems _ _ _
  | EvCgroupSetupVcpuBW _ _ _ _
  | EvSetScheduler _ _ _ _ => true
  | _ => false
  end.

(** Everything but the placement of a thread. *)
Definition not_placement (e : Event) : bool := negb (is_placement e).

(** The first serial port, if there is one, has a source: the condition
    under which the read of [serials[0]->source->type] in the console
    update is defined. *)
Definition first_serial_has_source (vm : virDomainObj) : bool :=
  match def_serials (vm_def vm) with
  | chr :: _ => match chr_source chr with Some _ => true | None => false end
  | [] => true
  end.

(** The error reported for a device whose path the document does not
    give. *)
Definition missing_path_error (config : virJSONValue) (device : string) : Event :=
  EvReportError VIR_ERR_INTERNAL_ERROR
    (match virJSONValueObjectGet config device with
     | None => "missing '%1$s' in 'config' from cloud-hypervisor"
     | Some dev =>
         match virJSONValueObjectGet dev "file" with
         | None => "missing 'file' in '%1$s' from cloud-hypervisor"
         | Some _ =>
             "unable to parse contents of 'file' field in '%1$s' from cloud-hypervisor"
         end
     end).

(** *** The status decision of the add-net client *)




(* ================================================================== *)
(** ** Concrete scenarios *)
(* ================================================================== *)

Definition cgroup_vm1 : virCgroup :=
  mkCgroup "/machine/vm1"
           [VIR_CGROUP_CONTROLLER_CPU; VIR_CGROUP_CONTROLLER_CPUSET].

Definition cgroup_thread : virCgroup := mkCgroup "/machine/vm1/thread" [].

Definition monitor_vm1 : virCHMonitor := mkMonitor 4242 "/run/ch/vm1.sock" [].

Definition monitor_env_ok : MonitorEnv :=
  mkMonitorEnv (Some monitor_vm1) 0 0 None (Some [mkIOThread 4300])
    [virCHThreadTypeEmulator 4242 "vmm"; virCHThreadTypeVcpu 0 4250].

Definition net_env_ok : NetEnv :=
  mkNetEnv (fun _ => 0) (fun _ => Some ([7; 8], [3])) (fun _ => Some "{}") 0 0.

Definition cgroup_env_ok : CgroupEnv :=
  mkCgroupEnv (0, Some cgroup_vm1) (fun _ _ => Some cgroup_thread)
    (fun _ _ => 0) (fun _ _ => 0) (fun _ _ => 0) (fun _ _ _ => 0) 0
    (fun _ => 0).

Definition host_env_ok : HostEnv :=
  mkHostEnv 2%N true (fun _ => true) (Some "vm1") true (Some 15%N) 1 None
    (0, None) (0, None) (fun _ => (0, None)) (fun _ _ => 0) (fun _ _ _ => 0)
    108%nat (5, 0) (fun _ _ => (0, 0)) (fun _ _ => (10, 0)).

(** A host on which every collaborator succeeds. *)
Definition env_ok : Env :=
  mkEnv monitor_env_ok net_env_ok cgroup_env_ok host_env_ok.

Definition driver_ok : virCHDriver := mkDriver 4%N true "/run/ch".

Definition cputune_none : virDomainCputune := mkCputune 0 0 0 0 0 0 None None.

Definition def_vm1 : virDomainDef :=
  mkDef "vm1" (-1) VIR_DOMAIN_VIRT_KVM VIR_DOMAIN_CPU_PLACEMENT_MODE_STATIC
    None cputune_none [mkVcpu true None (mkSched 0 0) 0] [mkNet "tap0" 2] [] [].

(** A defined, inactive domain. *)
Definition vm1 : virDomainObj :=
  mkVm 0 def_vm1 (VIR_DOMAIN_SHUTOFF VIR_DOMAIN_SHUTOFF_UNKNOWN)
    None None None None None.

Definition response_204 : list ascii :=
  list_ascii_of_string "HTTP/1.1 204 No Content".

Definition response_500 : list ascii :=
  list_ascii_of_string "HTTP/1.1 500 Internal Server Error".

(** The VMM answers the add-net request at once with 204. *)
Definition world_vm1 : World :=
  mkWorld vm1 [] [(1, 0)] [RecvData response_204].

(** The first [poll] is interrupted by a signal, the second one reports the
    socket readable. *)
Definition world_poll_interrupted : World :=
  mkWorld vm1 [5] [(-1, EINTR); (1, 0)] [RecvData response_204].

(** One interruption, then nothing arrives within the timeout. *)
Definition world_poll_timeout : World :=
  mkWorld vm1 [5] [(-1, EINTR); (0, 0)] [RecvData response_204].

(** A response of 1030 bytes: a status line followed by padding. *)
Definition response_long : list ascii :=
  response_204 ++ repeat "x"%char 1007.

Definition world_long_response : World :=
  mkWorld vm1 [5] [(1, 0)] [RecvErr EINTR; RecvData response_long].

(** The peer closes the connection without sending anything. *)
Definition world_empty_response : World :=
  mkWorld vm1 [5] [(1, 0)] [RecvData []].

Definition cgroup_no_cpu : virCgroup :=
  mkCgroup "/machine/vm1" [VIR_CGROUP_CONTROLLER_CPUSET].

(** The domain once started: pid and monitor set, cgroup with the CPU and
    CPUSET controllers. *)
Definition vm1_running : virDomainObj :=
  mkVm 4242 (set_def_id 4242 def_vm1)
    (VIR_DOMAIN_RUNNING VIR_DOMAIN_RUNNING_BOOTED)
    (Some monitor_vm1) (Some cgroup_vm1) (Some "vm1") None None.

Definition world_running : World := mkWorld vm1_running [] [] [].

(** The same domain on a host whose cgroup lacks the CPU controller. *)
Definition world_no_cpu_controller : World :=
  mkWorld (set_priv_cgroup (Some cgroup_no_cpu) vm1_running) [] [] [].

(** The VMM answers the add-net request with 500. *)
Definition world_response_500 : World :=
  mkWorld vm1 [] [(1, 0)] [RecvData response_500].

(** The request body of an interface cannot be built. *)
Definition env_json_fails : Env :=
  mkEnv monitor_env_ok
    (mkNetEnv (fun _ => 0) (fun _ => Some ([7; 8], [3])) (fun _ => None) 0 0)
    cgroup_env_ok host_env_ok.

(** Bringing up the host-side interfaces fails. *)
Definition env_start_devices_fail : Env :=
  mkEnv monitor_env_ok
    (mkNetEnv (fun _ => 0) (fun _ => Some ([7; 8], [3])) (fun _ => Some "{}")
       (-1) 0)
    cgroup_env_ok host_env_ok.

(** The VMM does not report vCPU threads. *)
Definition env_no_vcpu_threads : Env :=
  mkEnv
    (mkMonitorEnv (Some monitor_vm1) 0 0 None (Some [mkIOThread 4300])
       [virCHThreadTypeEmulator 4242 "vmm"])
    net_env_ok cgroup_env_ok host_env_ok.

(** A domain whose only vCPU is pinned to CPU 0 while the domain has no
    VM-wide mask. *)
Definition vm_pinned : virDomainObj :=
  mkVm 0
    (mkDef "vm1" (-1) VIR_DOMAIN_VIRT_KVM VIR_DOMAIN_CPU_PLACEMENT_MODE_STATIC
       None cputune_none [mkVcpu true (Some 1%N) (mkSched 0 0) 0]
       [mkNet "tap0" 2] [] [])
    (VIR_DOMAIN_SHUTOFF VIR_DOMAIN_SHUTOFF_UNKNOWN) None None None None None.

Definition world_pinned : World :=
  mkWorld vm_pinned [] [(1, 0)] [RecvData response_204].

(** The same domain with a period set, on a host without CPU controller,
    the pinning removed. *)
Definition world_period_no_cpu : World :=
  mkWorld
    (mkVm 4242
       (mkDef "vm1" 4242 VIR_DOMAIN_VIRT_KVM VIR_DOMAIN_CPU_PLACEMENT_MODE_STATIC
          None (mkCputune 100000 0 0 0 0 0 None None)
          [mkVcpu true None (mkSched 0 0) 0] [mkNet "tap0" 2] [] [])
       (VIR_DOMAIN_RUNNING VIR_DOMAIN_RUNNING_BOOTED)
       (Some monitor_vm1) (Some cgroup_no_cpu) (Some "vm1") None None)
    [] [] [].


(* ================================================================== *)
(** ** Further scenarios *)
(* ================================================================== *)

(** An answer to the info query that names the pty of the console and of
    the serial port. *)
Definition info_with_ptys : virJSONValue :=
  VIR_JSON_TYPE_OBJECT
    [("config",
      VIR_JSON_TYPE_OBJECT
        [("console", VIR_JSON_TYPE_OBJECT [("file", VIR_JSON_TYPE_STRING "/dev/pts/3")]);
         ("serial", VIR_JSON_TYPE_OBJECT [("file", VIR_JSON_TYPE_STRING "/dev/pts/4")])])].

Definition env_info_ptys : Env :=
  mkEnv
    (mkMonitorEnv (Some monitor_vm1) 0 0 (Some info_with_ptys)
       (Some [mkIOThread 4300])
       [virCHThreadTypeEmulator 4242 "vmm"; virCHThreadTypeVcpu 0 4250])
    net_env_ok cgroup_env_ok host_env_ok.

Definition chr_pty : virDomainChrDef :=
  mkChr (Some (mkChrSource VIR_DOMAIN_CHR_TYPE_PTY None)).

Definition chr_unix : virDomainChrDef :=
  mkChr (Some (mkChrSource VIR_DOMAIN_CHR_TYPE_UNIX (Some "/run/vm1.serial"))).

(** The running domain with a pty console and a pty serial port. *)
Definition world_ptys : World :=
  mkWorld
    (set_vm_def
       (set_def_serials [chr_pty] (set_def_consoles [chr_pty] (vm_def vm1_running)))
       vm1_running)
    [] [] [].

(** The same with a serial port backed by a UNIX socket. *)
Definition world_unix_serial : World :=
  mkWorld
    (set_vm_def
       (set_def_serials [chr_unix] (set_def_consoles [chr_pty] (vm_def vm1_running)))
       vm1_running)
    [] [] [].

(** The socket becomes readable, the first [recv] is interrupted by a
    signal and the second one fails with ECONNRESET. *)
Definition ECONNRESET : Z := 104.

Definition world_recv_reset : World :=
  mkWorld vm1 [5] [(1, 0)] [RecvErr EINTR; RecvErr ECONNRESET; RecvData response_204].


(** The request sent for an interface whose body is ["{}"]. *)
Definition request_vm1 : string := add_net_request "{}".

(** A defined, inactive domain that still holds a monitor. *)
Definition world_monitor_held : World :=
  mkWorld (set_priv_monitor (Some monitor_vm1) vm1) [] [(1, 0)]
    [RecvData response_204].





(* ================================================================== *)
(** ** Stepping through the monad *)
(* ================================================================== *)

Lemma result_bind {A B} (m : M A) (f : A -> M B) w :
  result (bind m f w) = result (f (result (m w)) (world (m w))).
Proof.
  unfold bind, result, world. destruct (m w) as [[a w1] e1]; simpl.
  destruct (f a w1) as [[b w2] e2]; reflexivity.
Qed.

Lemma world_bind {A B} (m : M A) (f : A -> M B) w :
  world (bind m f w) = world (f (result (m w)) (world (m w))).
Proof.
  unfold bind, result, world. destruct (m w) as [[a w1] e1]; simpl.
  destruct (f a w1) as [[b w2] e2]; reflexivity.
Qed.

Lemma events_bind {A B} (m : M A) (f : A -> M B) w :
  events (bind m f w)
  = events (m w) ++ events (f (result (m w)) (world (m w))).
Proof.
  unfold bind, result, world, events. destruct (m w) as [[a w1] e1]; simpl.
  destruct (f a w1) as [[b w2] e2]; reflexivity.
Qed.

Lemma run_eta {A} (r : A * World * list Event) :
  r = (result r, world r, events r).
Proof. destruct r as [[a w] e]; reflexivity. Qed.

(* ================================================================== *)
(** ** Footprints: which events a function can emit *)
(* ================================================================== *)

Lemma emits_only_ret {A} p (a : A) : emits_only p (ret a).
Proof. intros w. reflexivity. Qed.

Lemma emits_only_emit p e : p e = true -> emits_only p (emit e).
Proof. intros H w. cbn. rewrite H. reflexivity. Qed.

Lemma emits_only_get_vm p : emits_only p get_vm.
Proof. intros w. reflexivity. Qed.

Lemma emits_only_modify_vm p f : emits_only p (modify_vm f).
Proof. intros w. reflexivity. Qed.

Lemma emits_only_modify_fds p f : emits_only p (modify_fds f).
Proof. intros w. reflexivity. Qed.

Lemma emits_only_bind {A B} p (m : M A) (f : A -> M B) :
  emits_only p m -> (forall a, emits_only p (f a)) -> emits_only p (bind m f).
Proof.
  intros Hm Hf w. rewrite events_bind, forallb_app, Hm, Hf. reflexivity.
Qed.

Lemma emits_only_weaken {A} (p q : Event -> bool) (m : M A) :
  (forall e, p e = true -> q e = true) -> emits_only p m -> emits_only q m.
Proof.
  intros Hpq Hm w. apply forallb_forall. intros e He.
  apply Hpq. exact (proj1 (forallb_forall p _) (Hm w) e He).
Qed.

Lemma emits_only_In {A} p (m : M A) w e :
  emits_only p m -> In e (events (m w)) -> p e = true.
Proof. intros Hm He. exact (proj1 (forallb_forall p _) (Hm w) e He). Qed.

Create HintDb emits.

#[local] Hint Resolve emits_only_ret emits_only_get_vm emits_only_modify_vm
  emits_only_modify_fds : emits.

Ltac emits_step :=
  match goal with
  | |- emits_only _ (bind _ _) => apply emits_only_bind; [| intros ?]
  | |- emits_only _ (emit _) => apply emits_only_emit; reflexivity
  | |- emits_only _ (if ?b then _ else _) => destruct b
  | |- emits_only _ (match ?x with _ => _ end) => destruct x
  | |- emits_only _ _ => solve [auto with emits]
  end.

Ltac emits := repeat emits_step.

Lemma emits_poll_loop p fd :
  (forall t r e, p (EvPoll fd t r e) = true) -> emits_only p (poll_loop fd).
Proof.
  intros Hp w. unfold poll_loop.
  assert (H : forall s, forallb p (snd (poll_retry fd s)) = true).
  { induction s as [|[r e] tl IH]; cbn; [now rewrite Hp|].
    destruct ((r <? 0) && (e =? EINTR)); cbn; [|now rewrite Hp].
    destruct (poll_retry fd tl) as [[res rest] evs]; cbn in *. now rewrite Hp. }
  specialize (H (w_poll w)). destruct (poll_retry fd (w_poll w)) as [[res rest] evs].
  exact H.
Qed.

Lemma emits_recv_loop p fd len :
  (forall o, p (EvRecv fd len o) = true) -> emits_only p (recv_loop fd len).
Proof.
  intros Hp w. unfold recv_loop.
  assert (H : forall s, forallb p (snd (recv_retry fd len s)) = true).
  { induction s as [|o tl IH]; cbn; [now rewrite Hp|].
    destruct o as [errno|pending]; cbn; [|now rewrite Hp].
    destruct (errno =? EINTR); cbn; [|now rewrite Hp].
    destruct (recv_retry fd len tl) as [[res rest] evs]; cbn in *. now rewrite Hp. }
  specialize (H (w_recv w)). destruct (recv_retry fd len (w_recv w)) as [[res rest] evs].
  exact H.
Qed.

Lemma emits_chSocketRecv sock : emits_only is_setup_event (chSocketRecv sock).
Proof.
  unfold chSocketRecv, virReportSystemError.
  apply emits_only_bind; [apply emits_poll_loop; reflexivity|]. intros [r e].
  destruct (r <=? 0); [emits|].
  apply emits_only_bind; [apply emits_recv_loop; reflexivity|]. intros [[r' e'] d].
  emits.
Qed.
#[local] Hint Resolve emits_chSocketRecv : emits.

Lemma emits_VIR_FORCE_CLOSE p fd :
  p (EvClose fd) = true -> emits_only p (VIR_FORCE_CLOSE fd).
Proof.
  intros Hp. unfold VIR_FORCE_CLOSE. destruct (fd <? 0); [emits|].
  apply emits_only_bind; [now apply emits_only_emit | intros; emits].
Qed.

Lemma emits_close_tapfds p fds :
  (forall fd, p (EvClose fd) = true) -> emits_only p (close_tapfds fds).
Proof.
  intros Hp. induction fds; cbn [close_tapfds]; [emits|].
  apply emits_only_bind; [now apply emits_VIR_FORCE_CLOSE | intros; assumption].
Qed.

Lemma emits_setup_VIR_FORCE_CLOSE fd :
  emits_only is_setup_event (VIR_FORCE_CLOSE fd).
Proof. now apply emits_VIR_FORCE_CLOSE. Qed.

Lemma emits_setup_close_tapfds fds :
  emits_only is_setup_event (close_tapfds fds).
Proof. now apply emits_close_tapfds. Qed.
#[local] Hint Resolve emits_setup_VIR_FORCE_CLOSE emits_setup_close_tapfds : emits.

Lemma emits_add_network_device env sock hdr i net nic :
  emits_only is_setup_event (add_network_device env sock hdr i net nic).
Proof.
  unfold add_network_device, virCHConnetNetworkInterfaces,
    virSocketSendMsgWithFDs, virReportError, virReportSystemError.
  emits.
Qed.
#[local] Hint Resolve emits_add_network_device : emits.

Lemma emits_add_network_devices env sock hdr nets : forall i nic,
  emits_only is_setup_event (add_network_devices env sock hdr i nets nic).
Proof.
  induction nets as [|net rest IH]; intros i nic; cbn [add_network_devices]; emits.
Qed.
#[local] Hint Resolve emits_add_network_devices : emits.

Lemma emits_chProcessAddNetworkDevices env driver mon :
  emits_only is_setup_event (chProcessAddNetworkDevices env driver mon).
Proof.
  unfold chProcessAddNetworkDevices, virReportError, virReportSystemError.
  emits.
Qed.
#[local] Hint Resolve emits_chProcessAddNetworkDevices : emits.

Lemma emits_virCHProcessSetupPid env pid nameval id cpumask period quota sched :
  emits_only is_setup_event
    (virCHProcessSetupPid env pid nameval id cpumask period quota sched).
Proof.
  unfold virCHProcessSetupPid, setup_pid_cgroup, setup_pid_affinity_sched,
    virProcessSetAffinity, virProcessSetScheduler,
    virCgroupAddThread, virDomainCgroupSetupCpusetCpus, virCgroupSetCpusetMems,
    virDomainCgroupSetupVcpuBW, virReportError.
  emits.
Qed.
#[local] Hint Resolve emits_virCHProcessSetupPid : emits.

Lemma emits_virCHProcessInitCpuAffinity env :
  emits_only is_setup_event (virCHProcessInitCpuAffinity env).
Proof.
  unfold virCHProcessInitCpuAffinity, virProcessSetAffinity, virReportError.
  emits.
Qed.
#[local] Hint Resolve emits_virCHProcessInitCpuAffinity : emits.

Lemma emits_virCHProcessStartValidate env :
  emits_only is_setup_event (virCHProcessStartValidate env).
Proof. unfold virCHProcessStartValidate, virReportError. emits. Qed.
#[local] Hint Resolve emits_virCHProcessStartValidate : emits.

Lemma emits_setup_iothreads env l :
  emits_only is_setup_event (setup_iothreads env l).
Proof.
  induction l; cbn [setup_iothreads]; unfold virCHProcessSetupIOThread; emits.
Qed.
#[local] Hint Resolve emits_setup_iothreads : emits.

Lemma emits_virCHProcessSetupIOThreads env :
  emits_only is_setup_event (virCHProcessSetupIOThreads env).
Proof. unfold virCHProcessSetupIOThreads. emits. Qed.
#[local] Hint Resolve emits_virCHProcessSetupIOThreads : emits.

Lemma emits_setup_emulator_threads env l :
  emits_only is_setup_event (setup_emulator_threads env l).
Proof.
  induction l as [|t rest IH]; cbn [setup_emulator_threads];
    unfold virCHProcessSetupEmulatorThread; emits.
Qed.
#[local] Hint Resolve emits_setup_emulator_threads : emits.

Lemma emits_virCHProcessSetupEmulatorThreads env :
  emits_only is_setup_event (virCHProcessSetupEmulatorThreads env).
Proof. unfold virCHProcessSetupEmulatorThreads. emits. Qed.
#[local] Hint Resolve emits_virCHProcessSetupEmulatorThreads : emits.

Lemma emits_setup_vcpus env l : forall i,
  emits_only is_setup_event (setup_vcpus env i l).
Proof.
  induction l as [|v rest IH]; intros i; cbn [setup_vcpus];
    unfold virCHProcessSetupVcpu; emits.
Qed.
#[local] Hint Resolve emits_setup_vcpus : emits.

Lemma emits_virCHProcessStop env reason :
  emits_only is_teardown_event (virCHProcessStop env reason).
Proof.
  assert (Hretry : forall fuel retries,
             emits_only is_teardown_event (cgroup_remove_retry env fuel retries)).
  { induction fuel as [|fuel IH]; intros retries;
      cbn [cgroup_remove_retry]; unfold virDomainCgroupRemoveCgroup, VIR_WARN; emits. }
  assert (Hdel : forall nets, emits_only is_teardown_event (delete_devices nets)).
  { induction nets; cbn [delete_devices]; emits. }
  unfold virCHProcessStop, virDomainObjSetState. emits.
Qed.

(* ================================================================== *)
(** ** The receive path *)
(* ================================================================== *)

Lemma poll_retry_skip fd eintrs r errno rest :
  forallb interrupted eintrs = true ->
  interrupted (r, errno) = false ->
  poll_retry fd (eintrs ++ (r, errno) :: rest)
  = ((r, errno), rest, map (poll_event fd) (eintrs ++ [(r, errno)])).
Proof.
  intros Hall Hlast. induction eintrs as [|[r0 e0] tl IH]; simpl in *.
  - unfold interrupted in Hlast; simpl in Hlast. rewrite Hlast. reflexivity.
  - apply andb_prop in Hall as [H0 Htl]. unfold interrupted in H0; simpl in H0.
    rewrite H0, (IH Htl). reflexivity.
Qed.

Lemma recv_retry_skip fd len rintrs pending rest :
  forallb recv_interrupted rintrs = true ->
  recv_retry fd len (rintrs ++ RecvData pending :: rest)
  = ((Z.of_nat (List.length (firstn len pending)), 0, firstn len pending),
     rest,
     map (EvRecv fd len) (rintrs ++ [RecvData pending])).
Proof.
  intros Hall. induction rintrs as [|o tl IH]; simpl in *.
  - reflexivity.
  - apply andb_prop in Hall as [H0 Htl]. destruct o as [errno|p]; simpl in H0.
    + rewrite H0, (IH Htl). reflexivity.
    + discriminate.
Qed.

Lemma recv_retry_shape fd len script :
  let '(res, _, evs) := recv_retry fd len script in
  let '(r, _, data) := res in
  (0 <= r ->
     exists pending intr,
       evs = map (EvRecv fd len) intr ++ [EvRecv fd len (RecvData pending)] /\
       forallb recv_interrupted intr = true /\
       data = firstn len pending /\ r = Z.of_nat (List.length data)) /\
  (r < 0 -> existsb is_recv_success evs = false).
Proof.
  induction script as [|o tl IH]; simpl.
  - split; [|lia]. intros _. exists [], []. simpl. rewrite firstn_nil. auto.
  - destruct o as [errno|pending].
    + destruct (errno =? EINTR) eqn:He.
      * destruct (recv_retry fd len tl) as [[[[r e] data] rest'] evs].
        destruct IH as (IH1 & IH3). split; auto.
        intros Hr. destruct (IH1 Hr) as (p & intr & -> & Hi & Hd & Hrr).
        exists p, (RecvErr errno :: intr). simpl. rewrite He, Hi. auto.
      * split; [lia|]. intros _. reflexivity.
    + split; [|lia].
      intros _. exists pending, []. simpl. auto.
Qed.

Lemma received_buffer_eq pending :
  buf_write (repeat NUL 1024) (firstn 1023 pending) = received_buffer pending.
Proof.
  unfold buf_write, received_buffer. f_equal.
  set (n := List.length (firstn 1023 pending)).
  assert (Hn : (n <= 1023)%nat) by (subst n; apply firstn_le_length).
  clearbody n.
  replace 1024%nat with (n + (1024 - n))%nat at 1 by lia.
  rewrite repeat_app, skipn_app, repeat_length, Nat.sub_diag.
  rewrite skipn_all2 by (rewrite repeat_length; lia). reflexivity.
Qed.

Lemma received_buffer_length pending :
  List.length (received_buffer pending) = 1024%nat.
Proof.
  unfold received_buffer. rewrite length_app, repeat_length.
  pose proof (firstn_le_length 1023 pending). lia.
Qed.

Lemma c_str_app_NUL s n :
  c_str (s ++ repeat NUL (S n)) = c_str s.
Proof.
  induction s as [|c tl IH]; cbn [app c_str].
  - reflexivity.
  - destruct (Ascii.eqb c NUL); [reflexivity | now rewrite IH].
Qed.

Lemma c_str_length s : (List.length (c_str s) <= List.length s)%nat.
Proof.
  induction s as [|c tl IH]; simpl; [lia|].
  destruct (Ascii.eqb c NUL); simpl; lia.
Qed.

Lemma received_buffer_c_str pending :
  c_str (received_buffer pending) = c_str (firstn 1023 pending).
Proof.
  unfold received_buffer.
  pose proof (firstn_le_length 1023 pending) as Hn.
  destruct (1024 - List.length (firstn 1023 pending))%nat eqn:E; [lia|].
  apply c_str_app_NUL.
Qed.
Lemma poll_retry_no_recv fd script :
  existsb is_recv_success (snd (poll_retry fd script)) = false /\
  existsb is_error_report (snd (poll_retry fd script)) = false.
Proof.
  induction script as [|[r e] tl IH]; simpl; auto.
  destruct ((r <? 0) && (e =? EINTR)); simpl; auto.
  destruct (poll_retry fd tl) as [[res rest] evs]; simpl in *. exact IH.
Qed.

Lemma recv_interrupted_no_success fd len intr :
  forallb recv_interrupted intr = true ->
  existsb is_recv_success (map (EvRecv fd len) intr) = false /\
  existsb is_error_report (map (EvRecv fd len) intr) = false.
Proof.
  induction intr as [|o tl IH]; simpl; auto.
  intros H. apply andb_prop in H as [H0 Htl].
  destruct o; simpl in *; [auto | discriminate].
Qed.

(** The two ways out of chSocketRecv: NULL, and then no [recv] delivered
    anything; or the buffer filled by the one [recv] that did. *)
Lemma chSocketRecv_cases sock w :
  let out := chSocketRecv sock w in
  (result out = None /\ existsb is_recv_success (events out) = false) \/
  (exists pending pre,
      result out = Some (received_buffer pending) /\
      events out = pre ++ [EvRecv sock 1023 (RecvData pending)] /\
      existsb is_recv_success pre = false /\
      existsb is_error_report (events out) = false).
Proof.
  unfold chSocketRecv, bind, poll_loop, recv_loop.
  pose proof (poll_retry_no_recv sock (w_poll w)) as [Hp1 Hp2].
  destruct (poll_retry sock (w_poll w)) as [[[r e] prest] pevs].
  cbn [snd] in Hp1, Hp2.
  destruct (r <=? 0).
  - left. destruct (r <? 0); cbn [result events fst snd virReportSystemError emit ret];
      rewrite existsb_app, Hp1; auto.
  - cbn [w_recv]. change (1024 - 1)%nat with 1023%nat.
    pose proof (recv_retry_shape sock 1023 (w_recv w)) as Hr.
    destruct (recv_retry sock 1023 (w_recv w)) as [[[[r' e'] data] rrest] revs].
    destruct Hr as [Hok Hfail].
    destruct (r' <? 0) eqn:Hneg;
      cbn [result events fst snd virReportSystemError emit ret].
    + left. apply Z.ltb_lt in Hneg.
      rewrite !existsb_app, Hp1, (Hfail Hneg). auto.
    + right. apply Z.ltb_ge in Hneg.
      destruct (Hok Hneg) as (pending & intr & -> & Hi & -> & _).
      destruct (recv_interrupted_no_success sock 1023 intr Hi) as [Hi1 Hi2].
      exists pending, (pevs ++ map (EvRecv sock 1023) intr).
      rewrite received_buffer_eq, !app_nil_r, !existsb_app, Hp1, Hp2, Hi1, Hi2.
      rewrite app_assoc. auto.
Qed.

(* ================================================================== *)
(** ** Claims about chSocketRecv *)
(* ================================================================== *)

(** C6 (as amended).  chSocketRecv waits with [poll] and a timeout of 500 ms.
    A [poll] interrupted by a signal (negative result, errno EINTR) is issued
    again with the same timeout; the first answer that is not an
    interruption decides: if it is a timeout (0) or an error (negative), the
    function reports a system error and returns NULL without calling [recv],
    and [poll] is not called again. *)
Theorem chSocketRecv_poll_failure sock w eintrs r errno rest :
  w_poll w = eintrs ++ (r, errno) :: rest ->
  forallb interrupted eintrs = true ->
  interrupted (r, errno) = false ->
  r <= 0 ->
  let out := chSocketRecv sock w in
  result out = None /\
  events out
  = map (poll_event sock) (eintrs ++ [(r, errno)])
    ++ [EvReportSystemError errno
          (if r <? 0 then "Poll on sock %1$d failed"
           else "Poll on sock %1$d timed out")] /\
  w_poll (world out) = rest /\
  w_recv (world out) = w_recv w.
Proof.
  intros Hscript Hall Hlast Hr out. subst out.
  unfold chSocketRecv, bind, poll_loop. rewrite Hscript.
  rewrite (poll_retry_skip _ _ _ _ _ Hall Hlast).
  assert (Hle : (r <=? 0) = true) by (apply Z.leb_le; exact Hr).
  rewrite Hle. destruct (r <? 0); simpl; auto.
Qed.

Lemma chSocketRecv_poll_failure_witness :
  w_poll world_poll_timeout = [(-1, EINTR)] ++ (0, 0) :: [] /\
  forallb interrupted [(-1, EINTR)] = true /\
  interrupted (0, 0) = false /\
  0 <= 0 /\
  result (chSocketRecv 5 world_poll_timeout) = None /\
  events (chSocketRecv 5 world_poll_timeout)
  = [EvPoll 5 500 (-1) EINTR; EvPoll 5 500 0 0;
     EvReportSystemError 0 "Poll on sock %1$d timed out"].
Proof.
  assert (Hr : 0 <= 0) by lia.
  destruct (chSocketRecv_poll_failure 5 world_poll_timeout [(-1, EINTR)] 0 0 []
              eq_refl eq_refl eq_refl Hr) as (Hnull & Hevents & _).
  split; [reflexivity|]. split; [reflexivity|]. split; [reflexivity|].
  split; [exact Hr|]. split; [exact Hnull | exact Hevents].
Defined.

(** C6 as stated fails: a negative [poll] result with errno EINTR is not a
    failure.  [poll] is called a second time and the response is returned. *)
Lemma chSocketRecv_interrupted_poll_is_retried :
  hd_error (w_poll world_poll_interrupted) = Some (-1, EINTR) /\
  option_map c_str (result (chSocketRecv 5 world_poll_interrupted))
  = Some response_204 /\
  events (chSocketRecv 5 world_poll_interrupted)
  = [EvPoll 5 500 (-1) EINTR; EvPoll 5 500 1 0;
     EvRecv 5 1023 (RecvData response_204)].
Proof. vm_compute. repeat split; reflexivity. Qed.

Lemma filter_success_polls fd l :
  filter is_recv_success (map (poll_event fd) l) = [].
Proof. induction l; [reflexivity | exact IHl]. Qed.

Lemma no_error_polls fd l :
  existsb is_error_report (map (poll_event fd) l) = false.
Proof. induction l; [reflexivity | exact IHl]. Qed.

Lemma filter_success_interrupted fd len rintrs :
  forallb recv_interrupted rintrs = true ->
  filter is_recv_success (map (EvRecv fd len) rintrs) = [].
Proof.
  induction rintrs as [|o tl IH]; [reflexivity|].
  cbn. intros H. apply andb_prop in H as [H0 Htl].
  destruct o; [auto | discriminate].
Qed.

Lemma existsb_false_filter_nil (p : Event -> bool) l :
  existsb p l = false -> filter p l = [].
Proof.
  induction l as [|e l IH]; [reflexivity|].
  cbn [existsb filter]. intros H. apply orb_false_iff in H as [He Hl].
  rewrite He. exact (IH Hl).
Qed.

(** In every run at most one [recv] delivers data. *)
Lemma chSocketRecv_at_most_one_recv sock w :
  (List.length (filter is_recv_success (events (chSocketRecv sock w))) <= 1)%nat.
Proof.
  destruct (chSocketRecv_cases sock w)
    as [[_ Hq] | (pending & pre & _ & Hev & Hq & _)].
  - rewrite (existsb_false_filter_nil _ _ Hq). cbn. lia.
  - rewrite Hev, filter_app, (existsb_false_filter_nil _ _ Hq). cbn. lia.
Qed.

(** C9.  In every run of chSocketRecv at most one [recv] delivers data.
    When [poll] reports the socket readable, chSocketRecv returns the
    result of the one [recv] that delivers data, made with a length of 1023
    into a zeroed buffer of 1024 bytes: the caller gets the first 1023 bytes
    the kernel had pending and nothing beyond, no error is reported when
    more was pending, and when nothing was pending (a [recv] of zero bytes)
    the result is still a buffer, holding the empty string, not NULL. *)
Theorem chSocketRecv_returns_first_1023_bytes
    sock w eintrs r errno rest rintrs pending rrest :
  w_poll w = eintrs ++ (r, errno) :: rest ->
  forallb interrupted eintrs = true ->
  0 < r ->
  w_recv w = rintrs ++ RecvData pending :: rrest ->
  forallb recv_interrupted rintrs = true ->
  let out := chSocketRecv sock w in
  result out = Some (received_buffer pending) /\
  List.length (received_buffer pending) = 1024%nat /\
  c_str (received_buffer pending) = c_str (firstn 1023 pending) /\
  (List.length (c_str (received_buffer pending)) <= 1023)%nat /\
  (pending = [] -> c_str (received_buffer pending) = []) /\
  List.length (filter is_recv_success (events out)) = 1%nat /\
  In (EvRecv sock 1023 (RecvData pending)) (events out) /\
  existsb is_error_report (events out) = false /\
  (forall w',
     (List.length (filter is_recv_success (events (chSocketRecv sock w')))
      <= 1)%nat).
Proof.
  intros Hp Hall Hr Hrecv Hrall out.
  assert (Hmost : forall w',
     (List.length (filter is_recv_success (events (chSocketRecv sock w')))
      <= 1)%nat) by (intros w'; apply chSocketRecv_at_most_one_recv).
  assert (Hni : interrupted (r, errno) = false).
  { unfold interrupted; cbn [fst snd].
    destruct (r <? 0) eqn:E; [apply Z.ltb_lt in E; lia | reflexivity]. }
  assert (Hrun : out = (Some (received_buffer pending),
                        mkWorld (w_vm w) (w_fds w) rest rrest,
                        map (poll_event sock) (eintrs ++ [(r, errno)])
                        ++ map (EvRecv sock 1023) (rintrs ++ [RecvData pending]))).
  { subst out. unfold chSocketRecv, bind, poll_loop, recv_loop.
    rewrite Hp, (poll_retry_skip _ _ _ _ _ Hall Hni).
    destruct (r <=? 0) eqn:E; [apply Z.leb_le in E; lia|].
    cbn [w_recv]. change (1024 - 1)%nat with 1023%nat.
    rewrite Hrecv, (recv_retry_skip _ _ _ _ _ Hrall).
    destruct (Z.of_nat (List.length (firstn 1023 pending)) <? 0) eqn:E2;
      [apply Z.ltb_lt in E2; lia|].
    cbn [ret]. rewrite received_buffer_eq, app_nil_r. reflexivity. }
  rewrite Hrun. cbn [result events fst snd].
  pose proof (received_buffer_c_str pending) as Hc.
  destruct (recv_interrupted_no_success sock 1023 rintrs Hrall) as [Hs He].
  repeat split; [| | | | | | | exact Hmost].
  - apply received_buffer_length.
  - exact Hc.
  - rewrite Hc. etransitivity; [apply c_str_length|]. apply firstn_le_length.
  - intros ->. reflexivity.
  - rewrite filter_app, filter_success_polls, map_app, filter_app,
      (filter_success_interrupted _ _ _ Hrall). reflexivity.
  - apply in_or_app; right. rewrite map_app. apply in_or_app; right.
    left. reflexivity.
  - rewrite existsb_app, no_error_polls, map_app, existsb_app, He. reflexivity.
Qed.

Lemma chSocketRecv_returns_first_1023_bytes_witness :
  List.length response_long = 1030%nat /\
  option_map c_str (result (chSocketRecv 5 world_long_response))
  = Some (firstn 1023 response_long) /\
  List.length (filter is_recv_success (events (chSocketRecv 5 world_long_response)))
  = 1%nat /\
  existsb is_error_report (events (chSocketRecv 5 world_long_response)) = false.
Proof.
  assert (Hp : w_poll world_long_response = [] ++ (1, 0) :: []) by reflexivity.
  assert (Hr : w_recv world_long_response
               = [RecvErr EINTR] ++ RecvData response_long :: []) by reflexivity.
  destruct (chSocketRecv_returns_first_1023_bytes 5 world_long_response
              [] 1 0 [] [RecvErr EINTR] response_long [] Hp eq_refl
              ltac:(lia) Hr eq_refl)
    as (H1 & _ & H3 & _ & _ & H6 & _ & H8 & _).
  split; [reflexivity|]. split; [|split; assumption].
  rewrite H1. cbn [option_map]. rewrite H3. vm_compute. reflexivity.
Defined.

(* ================================================================== *)
(** ** Claims about chProcessAddNetworkDevices *)
(* ================================================================== *)

Lemma no_recv_success_quiet l :
  existsb is_recv_success l = false -> forallb not_recv_success l = true.
Proof.
  induction l as [|e l IH]; [reflexivity|].
  cbn [existsb forallb]. intros H. apply orb_false_iff in H as [He Hl].
  unfold not_recv_success at 1. rewrite He, (IH Hl). reflexivity.
Qed.

Lemma recv_checked_quiet rc evs :
  (rc = 0 \/ rc = -1) ->
  forallb not_recv_success evs = true -> recv_checked rc evs.
Proof.
  intros Hrc Hq. split; [exact Hrc|]. intros fd len pending Hin.
  apply (proj1 (forallb_forall _ _) Hq) in Hin. discriminate.
Qed.

Lemma recv_checked_prepend rc pre evs :
  forallb not_recv_success pre = true ->
  recv_checked rc evs -> recv_checked rc (pre ++ evs).
Proof.
  intros Hq [Hrc H]. split; [exact Hrc|]. intros fd len pending Hin.
  apply in_app_or in Hin as [Hin|Hin]; [|now apply (H fd)].
  apply (proj1 (forallb_forall _ _) Hq) in Hin. discriminate.
Qed.

Lemma answers_checked_ret rc nic :
  rc = 0 \/ rc = -1 -> answers_checked (ret (rc, nic)).
Proof. intros H w. now apply recv_checked_quiet. Qed.

Lemma answers_checked_bind_quiet {A} (m : M A) (f : A -> M (Z * list Z)) :
  emits_only not_recv_success m ->
  (forall a, answers_checked (f a)) ->
  answers_checked (bind m f).
Proof.
  intros Hm Hf w. rewrite result_bind, events_bind.
  apply recv_checked_prepend; [apply Hm | apply Hf].
Qed.

Lemma recv_checked_last sock pending rc evs :
  (rc = 0 \/ rc = -1) ->
  forallb not_recv_success evs = true ->
  (status_accepted (received_buffer pending) = false -> rc = -1) ->
  recv_checked rc ([EvRecv sock 1023 (RecvData pending)] ++ evs).
Proof.
  intros Hrc Hq Himp. split; [exact Hrc|].
  intros fd len p0 [Heq|Hin].
  - inversion Heq; subst. split; [reflexivity | exact Himp].
  - apply (proj1 (forallb_forall _ _) Hq) in Hin. discriminate.
Qed.

Ltac scan_cases resp :=
  unfold status_accepted;
  destruct (sscanf_http_res resp) as [n [code|]];
  [ destruct n as [|[p|p|]|p];
    try (destruct (code =? 204), (code =? 200))
  | destruct n as [|[p|p|]|p] ];
  cbn; auto; try discriminate.

Lemma add_network_device_checked env sock hdr i net nic :
  answers_checked (add_network_device env sock hdr i net nic).
Proof.
  unfold add_network_device.
  apply answers_checked_bind_quiet; [emits|]. intros _.
  destruct (net_validate_actual _ _ <? 0).
  { apply answers_checked_bind_quiet; [unfold virReportError; emits|]. intros _.
    apply answers_checked_ret; auto. }
  apply answers_checked_bind_quiet.
  { unfold virCHConnetNetworkInterfaces. emits. }
  intros [[rc tapfds] nic'].
  destruct (rc <? 0); [apply answers_checked_ret; auto|].
  destruct (net_build_json _ _) as [payload|].
  2:{ apply answers_checked_bind_quiet; [unfold virReportError; emits|]. intros _.
      apply answers_checked_ret; auto. }
  apply answers_checked_bind_quiet.
  { unfold virSocketSendMsgWithFDs. emits. }
  intros [rc' saved_errno].
  apply answers_checked_bind_quiet; [now apply emits_close_tapfds|]. intros _.
  destruct (rc' <? 0).
  { apply answers_checked_bind_quiet; [unfold virReportSystemError; emits|]. intros _.
    apply answers_checked_ret; auto. }
  intros w. rewrite result_bind, events_bind.
  destruct (chSocketRecv_cases sock w) as [[Hres Hq]|(pending & pre & Hres & Hev & Hq & _)];
    rewrite Hres.
  - cbn [ret result events fst snd]. rewrite app_nil_r.
    apply recv_checked_quiet; [auto|]. now apply no_recv_success_quiet.
  - rewrite Hev, <- app_assoc.
    apply recv_checked_prepend; [now apply no_recv_success_quiet|].
    apply recv_checked_last.
    + scan_cases (received_buffer pending).
    + scan_cases (received_buffer pending).
    + scan_cases (received_buffer pending).
Qed.

Lemma add_network_devices_checked env sock hdr nets : forall i nic,
  answers_checked (add_network_devices env sock hdr i nets nic).
Proof.
  induction nets as [|net rest IH]; intros i nic; cbn [add_network_devices].
  - apply answers_checked_ret; auto.
  - intros w. rewrite result_bind, events_bind.
    pose proof (add_network_device_checked env sock hdr i net nic w) as [Hrc Hin].
    destruct (result (add_network_device env sock hdr i net nic w)) as [rc nic'].
    cbn [fst] in *.
    destruct (rc <? 0) eqn:Hneg.
    + cbn [ret result events fst snd]. rewrite app_nil_r.
      split; [auto|]. intros fd len p Hp. destruct (Hin fd len p Hp). auto.
    + assert (rc = 0) by (apply Z.ltb_ge in Hneg; lia). subst rc.
      pose proof (IH (S i) nic'
        (world (add_network_device env sock hdr i net nic w))) as [Hrc' Hin'].
      split; [exact Hrc'|]. intros fd len p Hp.
      apply in_app_or in Hp as [Hp|Hp].
      * destruct (Hin fd len p Hp) as [Hlen Hacc]. split; [exact Hlen|].
        intros Hna. specialize (Hacc Hna). discriminate.
      * exact (Hin' fd len p Hp).
Qed.

Lemma chProcessAddNetworkDevices_checked env driver mon :
  answers_checked (chProcessAddNetworkDevices env driver mon).
Proof.
  unfold chProcessAddNetworkDevices.
  destruct (negb _).
  { apply answers_checked_bind_quiet; [unfold virReportError; emits|]. intros _.
    apply answers_checked_ret; auto. }
  destruct (sys_socket _) as [fd errno].
  apply answers_checked_bind_quiet; [emits|]. intros _.
  destruct (fd <? 0).
  { apply answers_checked_bind_quiet; [unfold virReportSystemError; emits|]. intros _.
    apply answers_checked_ret; auto. }
  apply answers_checked_bind_quiet; [emits|]. intros _.
  intros w. rewrite result_bind, events_bind.
  set (body := if Nat.leb _ _ then _ else _).
  assert (Hbody : answers_checked body).
  { subst body. destruct (Nat.leb _ _).
    { apply answers_checked_bind_quiet; [unfold virReportError; emits|]. intros _.
      apply answers_checked_ret; auto. }
    destruct (sys_connect _ _ _) as [rc errno'].
    apply answers_checked_bind_quiet; [emits|]. intros _.
    destruct (rc =? -1).
    { apply answers_checked_bind_quiet; [unfold virReportSystemError; emits|]. intros _.
      apply answers_checked_ret; auto. }
    apply answers_checked_bind_quiet; [emits|]. intros vm.
    apply add_network_devices_checked. }
  destruct (Hbody w) as [Hrc Hin].
  rewrite result_bind, events_bind. cbn [ret result events fst snd].
  rewrite app_nil_r.
  split; [exact Hrc|]. intros fd' len p Hp.
  apply in_app_or in Hp as [Hp|Hp]; [exact (Hin fd' len p Hp)|].
  apply (emits_only_In _ _ _ _ (emits_VIR_FORCE_CLOSE not_recv_success fd eq_refl)) in Hp.
  discriminate.
Qed.

(** C3.  chProcessAddNetworkDevices returns 0 or -1, and it returns 0 only
    when every response it received carries a status code that [sscanf]
    could read and that is exactly 200 or 204: a response with another
    code, or one from which no code can be read, makes it return -1. *)
Theorem chProcessAddNetworkDevices_status_check env driver mon w fd pending :
  In (EvRecv fd 1023 (RecvData pending))
     (events (chProcessAddNetworkDevices env driver mon w)) ->
  let rc := fst (result (chProcessAddNetworkDevices env driver mon w)) in
  (rc = 0 \/ rc = -1) /\
  (rc = 0 ->
     exists code,
       sscanf_http_res (received_buffer pending) = (1, Some code) /\
       (code = 200 \/ code = 204)) /\
  ((forall code, sscanf_http_res (received_buffer pending) = (1, Some code) ->
                 code <> 200 /\ code <> 204) ->
   rc = -1).
Proof.
  intros Hin rc.
  destruct (chProcessAddNetworkDevices_checked env driver mon w) as [Hrc Hall].
  destruct (Hall fd _ pending Hin) as [_ Hacc]. fold rc in Hrc, Hacc.
  split; [exact Hrc|]. split.
  - intros H0. unfold status_accepted in Hacc.
    destruct (sscanf_http_res (received_buffer pending)) as [n [code|]].
    + destruct n as [|[p|p|]|p]; try (specialize (Hacc eq_refl); lia).
      exists code. split; [reflexivity|].
      destruct (code =? 200) eqn:E1; [apply Z.eqb_eq in E1; auto|].
      destruct (code =? 204) eqn:E2; [apply Z.eqb_eq in E2; auto|].
      specialize (Hacc eq_refl); lia.
    + assert (rc = -1) by (destruct n as [|[p|p|]|p]; apply Hacc; reflexivity). lia.
  - intros Hbad. apply Hacc. unfold status_accepted.
    destruct (sscanf_http_res (received_buffer pending)) as [n [code|]];
      [|destruct n as [|[p|p|]|p]; reflexivity].
    destruct n as [|[p|p|]|p]; try reflexivity.
    destruct (Hbad code eq_refl) as [H1 H2].
    apply Z.eqb_neq in H1, H2. now rewrite H1, H2.
Qed.

Lemma chProcessAddNetworkDevices_status_check_witness :
  In (EvRecv 5 1023 (RecvData response_500))
     (events (chProcessAddNetworkDevices env_ok driver_ok monitor_vm1
                world_response_500)) /\
  sscanf_http_res (received_buffer response_500) = (1, Some 500) /\
  fst (result (chProcessAddNetworkDevices env_ok driver_ok monitor_vm1
                 world_response_500)) = -1.
Proof.
  assert (Hin : In (EvRecv 5 1023 (RecvData response_500))
                  (events (chProcessAddNetworkDevices env_ok driver_ok
                             monitor_vm1 world_response_500))).
  { vm_compute. repeat (first [left; reflexivity | right]). }
  assert (Hscan : sscanf_http_res (received_buffer response_500) = (1, Some 500))
    by (vm_compute; reflexivity).
  split; [exact Hin|]. split; [exact Hscan|].
  pose proof (chProcessAddNetworkDevices_status_check env_ok driver_ok
                monitor_vm1 world_response_500 5 response_500 Hin) as H.
  cbv zeta in H. destruct H as (_ & _ & H). apply H.
  intros code Hcode. rewrite Hscan in Hcode. inversion Hcode; subst.
  split; discriminate.
Defined.

(** A 204 answer is accepted, and so is a status line that only [sscanf]
    would read as one. *)
Example status_lines_accepted :
  status_accepted (received_buffer response_204) = true /\
  status_accepted (list_ascii_of_string "HTTP/1.0 200 OK") = true /\
  status_accepted (list_ascii_of_string "HTTP/1.-7   +204junk") = true /\
  status_accepted response_500 = false /\
  status_accepted (list_ascii_of_string "HTTP/2 200") = false /\
  status_accepted (list_ascii_of_string "HTTP/1.1 ") = false /\
  status_accepted [] = false.
Proof. vm_compute. repeat split. Qed.

(* ================================================================== *)
(** ** Tap descriptors of one vm.add-net request *)
(* ================================================================== *)

Lemma chSocketRecv_never_sends sock :
  emits_only is_not_send (chSocketRecv sock).
Proof.
  unfold chSocketRecv, virReportSystemError.
  apply emits_only_bind; [apply emits_poll_loop; reflexivity|]. intros [r e].
  destruct (r <=? 0); [emits|].
  apply emits_only_bind; [apply emits_recv_loop; reflexivity|]. intros [[r' e'] d].
  emits.
Qed.

Lemma close_tapfds_closes fds : forall w fd,
  In fd fds -> 0 <= fd -> In (EvClose fd) (events (close_tapfds fds w)).
Proof.
  induction fds as [|x rest IH]; intros w fd Hin Hge; [contradiction|].
  cbn [close_tapfds]. rewrite events_bind. apply in_or_app.
  destruct Hin as [->|Hin]; [left | right; now apply IH].
  unfold VIR_FORCE_CLOSE. destruct (fd <? 0) eqn:E; [lia|]. now left.
Qed.

Lemma filled_tapfds_length {A} (fds tapfds : list A) :
  List.length (firstn (List.length tapfds) (fds ++ skipn (List.length fds) tapfds))
  = List.length tapfds.
Proof.
  rewrite length_firstn, length_app, length_skipn. lia.
Qed.

(** Whenever an iteration sends its request, the message carries one
    descriptor per queue pair (one when [queues] is 0), and every open
    descriptor among them is closed before the iteration ends. *)
Lemma add_network_device_sent_fds env sock hdr i net nic w s payload fds rc :
  let out := add_network_device env sock hdr i net nic w in
  In (EvSendMsgWithFDs s payload fds rc) (events out) ->
  s = sock /\
  List.length fds = Z.to_nat (if net_queues net =? 0 then 1 else net_queues net) /\
  forall fd, In fd fds -> 0 <= fd -> In (EvClose fd) (events out).
Proof.
  cbv zeta. unfold add_network_device.
  set (net' := if net_queues net =? 0 then mkNet (net_ifname net) 1 else net).
  assert (Hq : net_queues net'
               = if net_queues net =? 0 then 1 else net_queues net).
  { subst net'. destruct (net_queues net =? 0); reflexivity. }
  rewrite <- Hq. clearbody net'. clear Hq.
  rewrite events_bind. cbn [modify_vm events app snd].
  generalize (world (modify_vm
    (fun vm => set_vm_def (set_def_nets (list_set i net' (def_nets (vm_def vm)))
                             (vm_def vm)) vm) w)).
  generalize (result (modify_vm
    (fun vm => set_vm_def (set_def_nets (list_set i net' (def_nets (vm_def vm)))
                             (vm_def vm)) vm) w)).
  intros _ w1.
  destruct (net_validate_actual (e_net env) net' <? 0).
  { cbn. intros [H|[]]. discriminate H. }
  unfold virCHConnetNetworkInterfaces.
  destruct (net_connect_interfaces (e_net env) net') as [[got idx]|].
  2:{ cbn. intros [H|[]]. discriminate H. }
  rewrite repeat_length.
  set (filled := firstn _ _).
  assert (Hlen : List.length filled = Z.to_nat (net_queues net')).
  { subst filled. rewrite <- (repeat_length (-1) (Z.to_nat (net_queues net'))) at 1.
    rewrite filled_tapfds_length. apply repeat_length. }
  clearbody filled.
  rewrite events_bind.
  match goal with
  | |- context [result (?m w1)] =>
      change (m w1) with
        (0, filled, nic ++ idx,
         mkWorld (w_vm w1) (w_fds w1 ++ filter (fun fd => 0 <=? fd) filled)
           (w_poll w1) (w_recv w1),
         [EvConnectNetworkInterfaces net' true])
  end.
  cbn [result world events fst snd app].
  change (0 <? 0) with false. cbv iota.
  destruct (net_build_json (e_net env) net') as [body|].
  2:{ cbn. intros [H|[H|[]]]; discriminate H. }
  unfold virSocketSendMsgWithFDs.
  destruct (sys_sendmsg (e_host env) _ filled) as [rc1 errno].
  rewrite events_bind.
  match goal with
  | |- context [result (?m ?w2)] =>
      match m with
      | bind (emit ?e) _ => change (m w2) with (rc1, errno, w2, [e])
      end
  end.
  cbn [result world events fst snd app]. rewrite events_bind.
  intros [Hin|[Hin|Hin]]; [discriminate Hin | |].
  - injection Hin as <- <- <- <-. split; [reflexivity|]. split; [exact Hlen|].
    intros fd Hfd Hge. right. right. apply in_or_app. left.
    now apply close_tapfds_closes.
  - exfalso. apply in_app_or in Hin as [Hin|Hin].
    + apply (emits_only_In is_not_send) in Hin; [discriminate Hin|].
      now apply emits_close_tapfds.
    + apply (emits_only_In is_not_send) in Hin; [discriminate Hin|].
      unfold virReportSystemError, virReportError.
      destruct (rc1 <? 0); [emits|].
      apply emits_only_bind; [apply chSocketRecv_never_sends|]. intros ?. emits.
Qed.

(* ================================================================== *)
(** ** Claims about virCHProcessSetupPid *)
(* ================================================================== *)

Ltac is_atomic_test x :=
  lazymatch x with
  | context [match _ with _ => _ end] => fail
  | _ => idtac
  end.

Ltac run_step :=
  match goal with
  | |- context [match ?x with _ => _ end] =>
      is_atomic_test x; destruct x eqn:?; cbv beta iota zeta
  end.

Ltac run_all := cbv beta iota zeta; repeat run_step.

Lemma infer_cpumask_spec env vm cpumask :
  let '(rc, use_cpumask, affinity_cpumask) := infer_cpumask env vm cpumask in
  (rc = 0 \/ rc = -1) /\
  use_cpumask = mask_by_priority vm cpumask /\
  (rc = 0 ->
   match affinity_cpumask with None => use_cpumask | Some _ => affinity_cpumask end
   = mask_by_priority_with_host env vm cpumask).
Proof.
  unfold infer_cpumask, virCHProcessGetAllCpuAffinity, mask_by_priority_with_host,
    falls_back_to_host, mask_by_priority, all_online_cpus.
  destruct cpumask as [m|]; [cbn; auto|].
  destruct (is_placement_auto _); [cbn; auto|].
  destruct (def_cpumask _); [cbn; auto|].
  destruct (host_cpu_has_bitmap _); cbn; [|auto].
  destruct (host_cpu_online_bitmap _); cbn; auto.
Qed.

Ltac finish :=
  intros;
  repeat match goal with
         | |- ~ _ => intro
         | H : In _ _ |- _ => cbn [In] in H
         | H : _ \/ _ |- _ => destruct H
         | H : False |- _ => contradiction
         | H : _ /\ _ |- _ => destruct H
         | H : (_ <? _) = false |- _ => apply Z.ltb_ge in H
         | H : (_ <? _) = true |- _ => apply Z.ltb_lt in H
         | H : @eq Event _ _ |- _ =>
             first [discriminate H | inversion H; subst; clear H]
         | H : @eq (option _) (Some _) (Some _) |- _ =>
             inversion H; subst; clear H
         | H : @eq (option _) None (Some _) |- _ => discriminate H
         | H : @eq (option _) (Some _) None |- _ => discriminate H
         end;
  try solve [ auto | lia | discriminate | cbn [In]; auto 10 ].

Lemma setup_pid_affinity_sched_events env pid nameval use_cpumask affinity_cpumask sched w :
  let out := setup_pid_affinity_sched env pid nameval use_cpumask affinity_cpumask sched w in
  let mask := match affinity_cpumask with None => use_cpumask | Some _ => affinity_cpumask end in
  (result out = 0 \/ result out = -1) /\
  world out = w /\
  (forall pid' m rc, In (EvSetAffinity pid' m rc) (events out) ->
     pid' = pid /\ mask = Some m) /\
  (forall cg m rc, ~ In (EvCgroupSetupCpusetCpus cg m rc) (events out)) /\
  (result out = 0 -> forall m, mask = Some m ->
     In (EvSetAffinity pid m (process_set_affinity (e_host env) pid m)) (events out) /\
     0 <= process_set_affinity (e_host env) pid m).
Proof.
  cbv zeta. unfold setup_pid_affinity_sched, virProcessSetAffinity, virProcessSetScheduler.
  unfold bind, emit, ret. run_all.
  all: cbn [result world events fst snd app].
  all: repeat split; finish.
Qed.

Lemma setup_pid_cgroup_events env vm pid nameval id use_cpumask period quota w :
  let out := setup_pid_cgroup env vm pid nameval id use_cpumask period quota w in
  let has_cpuset :=
    virCgroupHasController (priv_cgroup vm) VIR_CGROUP_CONTROLLER_CPUSET in
  (fst (result out) = 0 \/ fst (result out) = -1) /\
  world out = w /\
  (forall cg m rc, In (EvCgroupSetupCpusetCpus cg m rc) (events out) ->
     use_cpumask = Some m /\ has_cpuset = true) /\
  (forall pid' m rc, ~ In (EvSetAffinity pid' m rc) (events out)) /\
  (fst (result out) = 0 -> has_cpuset = true -> forall m, use_cpumask = Some m ->
     exists cg rc, snd (result out) = Some cg /\ 0 <= rc /\
                   In (EvCgroupSetupCpusetCpus cg m rc) (events out)).
Proof.
  cbv zeta. unfold setup_pid_cgroup, virCgroupAddThread,
    virDomainCgroupSetupCpusetCpus, virCgroupSetCpusetMems, virDomainCgroupSetupVcpuBW.
  unfold bind, emit, ret. run_all.
  all: cbn [result world events fst snd app].
  all: repeat split; finish.
  all: try match goal with
           | H : ?a || ?b = false, H' : ?b = true |- _ =>
               rewrite H', orb_true_r in H; discriminate H
           end.
  all: refine (ex_intro _ _ (ex_intro _ _ (conj eq_refl (conj _
         (or_intror (or_intror (or_introl eq_refl))))))); assumption.
Qed.

Lemma setup_pid_blocks_report_nothing env vm pid nameval id use_cpumask
    affinity_cpumask period quota sched :
  emits_only not_error_report
    (setup_pid_cgroup env vm pid nameval id use_cpumask period quota) /\
  emits_only not_error_report
    (setup_pid_affinity_sched env pid nameval use_cpumask affinity_cpumask sched).
Proof.
  split.
  - unfold setup_pid_cgroup, virCgroupAddThread, virDomainCgroupSetupCpusetCpus,
      virCgroupSetCpusetMems, virDomainCgroupSetupVcpuBW. emits.
  - unfold setup_pid_affinity_sched, virProcessSetAffinity, virProcessSetScheduler.
    emits.
Qed.

(** The run of virCHProcessSetupPid once the bandwidth check has passed:
    the status and the events of the three blocks, then the removal of the
    thread cgroup if the status is negative. *)
Lemma setup_pid_run env pid nameval id cpumask period quota sched w :
  (negb (period =? 0) || negb (quota =? 0))
  && negb (virCgroupHasController (priv_cgroup (w_vm w)) VIR_CGROUP_CONTROLLER_CPU)
  = false ->
  let out := virCHProcessSetupPid env pid nameval id cpumask period quota sched w in
  let '(rc, use_cpumask, affinity_cpumask) := infer_cpumask env (w_vm w) cpumask in
  let cg := setup_pid_cgroup env (w_vm w) pid nameval id use_cpumask period quota w in
  let af := setup_pid_affinity_sched env pid nameval use_cpumask affinity_cpumask sched w in
  world out = w /\
  ((rc < 0 /\ result out = -1 /\ events out = []) \/
   (0 <= rc /\ fst (result cg) = -1 /\ result out = -1 /\
    exists tail, events out = events cg ++ tail /\
                 forallb (fun e => match e with EvCgroupRemove _ => true | _ => false end) tail = true) \/
   (0 <= rc /\ fst (result cg) = 0 /\ result out = result af /\
    exists tail, events out = events cg ++ events af ++ tail /\
                 forallb (fun e => match e with EvCgroupRemove _ => true | _ => false end) tail = true)).
Proof.
  intros Hcheck. cbv zeta.
  unfold virCHProcessSetupPid, bind. cbn [get_vm].
  rewrite Hcheck.
  destruct (infer_cpumask env (w_vm w) cpumask) as [[rc use_cpumask] affinity_cpumask].
  destruct (rc <? 0) eqn:Hrc.
  { apply Z.ltb_lt in Hrc. cbn. auto. }
  apply Z.ltb_ge in Hrc.
  pose proof (setup_pid_cgroup_events env (w_vm w) pid nameval id use_cpumask period quota w)
    as (Hcg_rc & Hcg_w & _).
  destruct (setup_pid_cgroup env (w_vm w) pid nameval id use_cpumask period quota w)
    as [[[rcg cgroup] wcg] ecg].
  cbn [result world events fst snd] in *. subst wcg.
  destruct Hcg_rc as [-> | ->]; cbn [Z.ltb Z.compare].
  - pose proof (setup_pid_affinity_sched_events env pid nameval use_cpumask affinity_cpumask sched w)
      as (Haf_rc & Haf_w & _).
    destruct (setup_pid_affinity_sched env pid nameval use_cpumask affinity_cpumask sched w)
      as [[raf waf] eaf].
    cbn [result world events fst snd] in *. subst waf.
    destruct Haf_rc as [-> | ->]; cbn [Z.ltb Z.compare ret].
    + destruct cgroup; cbn; (split; [reflexivity|]); right; right;
        (repeat split; auto); rewrite <- ?app_assoc; eexists; split; reflexivity.
    + destruct cgroup; cbn; (split; [reflexivity|]); right; right;
        (repeat split; auto); rewrite <- ?app_assoc; eexists; split; reflexivity.
  - cbn [ret].
    destruct cgroup; cbn; (split; [reflexivity|]); right; left;
      (repeat split; auto); rewrite <- ?app_assoc; eexists; split; reflexivity.
Qed.

Lemma setup_pid_check_fails env pid nameval id cpumask period quota sched w :
  (negb (period =? 0) || negb (quota =? 0))
  && negb (virCgroupHasController (priv_cgroup (w_vm w)) VIR_CGROUP_CONTROLLER_CPU)
  = true ->
  virCHProcessSetupPid env pid nameval id cpumask period quota sched w
  = (-1, w, [EvReportError VIR_ERR_CONFIG_UNSUPPORTED
               "cgroup cpu is required for scheduler tuning"]).
Proof.
  intros Hcheck. unfold virCHProcessSetupPid, bind. cbn [get_vm].
  rewrite Hcheck. reflexivity.
Qed.

Lemma only_removals_In tail e :
  forallb (fun e => match e with EvCgroupRemove _ => true | _ => false end) tail = true ->
  In e tail -> exists cg, e = EvCgroupRemove cg.
Proof.
  intros H Hin. apply (proj1 (forallb_forall _ _) H) in Hin.
  destruct e; try discriminate. eauto.
Qed.

(** Where the events of a run that passed the bandwidth check come from,
    and what a status of 0 means. *)
Lemma setup_pid_run_summary env pid nameval id cpumask period quota sched w :
  (negb (period =? 0) || negb (quota =? 0))
  && negb (virCgroupHasController (priv_cgroup (w_vm w)) VIR_CGROUP_CONTROLLER_CPU)
  = false ->
  let out := virCHProcessSetupPid env pid nameval id cpumask period quota sched w in
  let '(rc, use_cpumask, affinity_cpumask) := infer_cpumask env (w_vm w) cpumask in
  let cg := setup_pid_cgroup env (w_vm w) pid nameval id use_cpumask period quota w in
  let af := setup_pid_affinity_sched env pid nameval use_cpumask affinity_cpumask sched w in
  (forall e, In e (events out) ->
     rc = 0 /\
     (In e (events cg) \/ In e (events af) \/ is_cgroup_remove e = true)) /\
  (result out = 0 ->
     rc = 0 /\ fst (result cg) = 0 /\ result af = 0 /\
     forall e, In e (events cg) \/ In e (events af) -> In e (events out)).
Proof.
  intros Hcheck.
  pose proof (setup_pid_run env pid nameval id cpumask period quota sched w Hcheck) as Hrun.
  pose proof (infer_cpumask_spec env (w_vm w) cpumask) as Hinf.
  cbv zeta in *.
  destruct (infer_cpumask env (w_vm w) cpumask) as [[rc use_cpumask] affinity_cpumask].
  destruct Hinf as (Hrc01 & _).
  destruct Hrun as [_ [(Hneg & Hres & Hev) | [(Hpos & Hcg & Hres & tail & Hev & Htail)
                                             | (Hpos & Hcg & Hres & tail & Hev & Htail)]]];
    rewrite Hev, Hres.
  - split; [intros e []|]. intros H; discriminate H.
  - assert (rc = 0) by lia. split; [|intros H0; discriminate H0].
    intros e Hin. split; [assumption|].
    apply in_app_or in Hin as [Hin|Hin]; [auto|].
    right; right. exact (proj1 (forallb_forall _ _) Htail e Hin).
  - assert (rc = 0) by lia. split.
    + intros e Hin. split; [assumption|].
      apply in_app_or in Hin as [Hin|Hin]; [auto|].
      apply in_app_or in Hin as [Hin|Hin]; [auto|].
      right; right. exact (proj1 (forallb_forall _ _) Htail e Hin).
    + intros Haf. repeat split; auto.
      intros e [Hin|Hin]; apply in_or_app; [left; exact Hin|right].
      apply in_or_app; left; exact Hin.
Qed.

(** C4 (as amended).  In virCHProcessSetupPid the mask written to the
    cpuset cgroup, which is written only when the CPUSET controller is
    available, is resolved by priority, first match wins: (1) the explicit
    per-entity cpumask argument, (2) the automatic node-local mask when the
    VM uses automatic placement, (3) the explicit VM-wide mask; when none
    of these gives a mask the cpuset cgroup is not written.  The mask passed
    to the legacy per-thread affinity call is the same one, except that (4)
    with no explicit mask, static placement and no VM-wide mask it is the set
    of all online host CPUs.  Every affinity call is for the thread being
    placed. When the function succeeds the resolved masks have been applied;
    in particular an explicit cpumask is the mask of the thread's affinity
    call. *)
Theorem virCHProcessSetupPid_cpumask_resolution
    env pid nameval id cpumask period quota sched w :
  let out := virCHProcessSetupPid env pid nameval id cpumask period quota sched w in
  let vm := w_vm w in
  let has_cpuset :=
    virCgroupHasController (priv_cgroup vm) VIR_CGROUP_CONTROLLER_CPUSET in
  (forall cg m rc, In (EvCgroupSetupCpusetCpus cg m rc) (events out) ->
     has_cpuset = true /\ mask_by_priority vm cpumask = Some m) /\
  (forall pid' m rc, In (EvSetAffinity pid' m rc) (events out) ->
     pid' = pid /\ mask_by_priority_with_host env vm cpumask = Some m) /\
  (result out = 0 -> has_cpuset = true ->
   forall m, mask_by_priority vm cpumask = Some m ->
     exists cg rc, 0 <= rc /\ In (EvCgroupSetupCpusetCpus cg m rc) (events out)) /\
  (result out = 0 ->
   forall m, mask_by_priority_with_host env vm cpumask = Some m ->
     In (EvSetAffinity pid m (process_set_affinity (e_host env) pid m)) (events out) /\
     0 <= process_set_affinity (e_host env) pid m) /\
  (forall m, cpumask = Some m ->
     mask_by_priority vm cpumask = Some m /\
     mask_by_priority_with_host env vm cpumask = Some m) /\
  (falls_back_to_host vm cpumask = true ->
     mask_by_priority vm cpumask = None /\
     mask_by_priority_with_host env vm cpumask = all_online_cpus env).
Proof.
  cbv zeta.
  assert (Hexplicit : forall m, cpumask = Some m ->
            mask_by_priority (w_vm w) cpumask = Some m /\
            mask_by_priority_with_host env (w_vm w) cpumask = Some m).
  { intros m ->. split; reflexivity. }
  assert (Hfallback : falls_back_to_host (w_vm w) cpumask = true ->
            mask_by_priority (w_vm w) cpumask = None /\
            mask_by_priority_with_host env (w_vm w) cpumask = all_online_cpus env).
  { unfold mask_by_priority_with_host, mask_by_priority, falls_back_to_host.
    destruct cpumask; [discriminate|].
    destruct (is_placement_auto _); [discriminate|].
    destruct (def_cpumask _); [discriminate|]. auto. }
  destruct ((negb (period =? 0) || negb (quota =? 0))
            && negb (virCgroupHasController (priv_cgroup (w_vm w))
                       VIR_CGROUP_CONTROLLER_CPU)) eqn:Hcheck.
  { rewrite (setup_pid_check_fails _ _ _ _ _ _ _ _ _ Hcheck).
    cbn [result events fst snd].
    split; [intros; finish|]. split; [intros; finish|].
    split; [intros; finish|]. split; [intros; finish|]. auto. }
  pose proof (setup_pid_run_summary env pid nameval id cpumask period quota sched w Hcheck)
    as Hrun.
  pose proof (infer_cpumask_spec env (w_vm w) cpumask) as Hinf.
  cbv zeta in *.
  destruct (infer_cpumask env (w_vm w) cpumask) as [[rc use_cpumask] affinity_cpumask].
  destruct Hinf as (_ & Huse & Haff).
  pose proof (setup_pid_cgroup_events env (w_vm w) pid nameval id use_cpumask period quota w)
    as (_ & _ & Hcg_set & Hcg_aff & Hcg_ok).
  pose proof (setup_pid_affinity_sched_events env pid nameval use_cpumask affinity_cpumask sched w)
    as (_ & _ & Haf_aff & Haf_set & Haf_ok).
  cbv zeta in *.
  destruct Hrun as [Hfrom Hok].
  split; [|split; [|split; [|split; [|split; assumption]]]].
  - intros cg m r Hin. destruct (Hfrom _ Hin) as [_ [H|[H|H]]].
    + destruct (Hcg_set _ _ _ H). split; congruence.
    + destruct (Haf_set _ _ _ H).
    + discriminate H.
  - intros p m r Hin. destruct (Hfrom _ Hin) as [Hrc [H|[H|H]]].
    + destruct (Hcg_aff _ _ _ H).
    + destruct (Haf_aff _ _ _ H). split; [assumption|].
      rewrite <- (Haff Hrc). assumption.
    + discriminate H.
  - intros H0 Hset m Hm. destruct (Hok H0) as (Hrc & Hcg & Haf & Hin).
    destruct (Hcg_ok Hcg Hset m ltac:(congruence)) as (cg & r & _ & Hr & Hcgin).
    exists cg, r. split; [exact Hr|]. apply Hin. left. exact Hcgin.
  - intros H0 m Hm. destruct (Hok H0) as (Hrc & Hcg & Haf & Hin).
    rewrite <- (Haff Hrc) in Hm. destruct (Haf_ok Haf m Hm) as [Hafin Hr].
    split; [|exact Hr]. apply Hin. right. exact Hafin.
Qed.

(** C4 as stated fails in case (4): with no explicit mask, static placement
    and no VM-wide mask the thread's affinity is set to all online host
    CPUs, but nothing is written to the cpuset cgroup although the CPUSET
    controller is available. *)
Lemma cpuset_not_written_on_host_fallback :
  falls_back_to_host vm1_running None = true /\
  all_online_cpus env_ok = Some 15%N /\
  virCgroupHasController (priv_cgroup vm1_running) VIR_CGROUP_CONTROLLER_CPUSET
  = true /\
  virCHProcessSetupPid env_ok 4250 VIR_CGROUP_THREAD_VCPU 0 None 0 0 None
    world_running
  = (0, world_running,
     [EvCgroupNewThread VIR_CGROUP_THREAD_VCPU 0 true;
      EvCgroupAddThread cgroup_thread 4250 0;
      EvCgroupSetupVcpuBW cgroup_thread 0 0 0;
      EvSetAffinity 4250 15%N 0]).
Proof. vm_compute. repeat split. Qed.

(** C7 (as amended).  virCHProcessSetupPid fails with ConfigUnsupported,
    before doing anything else, when the period or the quota is not zero
    and the VM's top-level cgroup lacks the CPU controller; when both are
    zero, or the controller is there, it reports no error of its own. *)
Theorem virCHProcessSetupPid_bandwidth_check
    env pid nameval id cpumask period quota sched w :
  let out := virCHProcessSetupPid env pid nameval id cpumask period quota sched w in
  let has_cpu :=
    virCgroupHasController (priv_cgroup (w_vm w)) VIR_CGROUP_CONTROLLER_CPU in
  ((period <> 0 \/ quota <> 0) -> has_cpu = false ->
     out = (-1, w, [bandwidth_error])) /\
  ((period = 0 /\ quota = 0) \/ has_cpu = true ->
     forall code msg, ~ In (EvReportError code msg) (events out)).
Proof.
  cbv zeta. split.
  - intros Hset Hno. apply setup_pid_check_fails. rewrite Hno.
    destruct Hset as [H|H]; apply Z.eqb_neq in H; rewrite H;
      [reflexivity | apply andb_true_intro; split;
                     [apply orb_true_r | reflexivity]].
  - intros Hok code msg Hin.
    assert (Hcheck : (negb (period =? 0) || negb (quota =? 0))
                     && negb (virCgroupHasController (priv_cgroup (w_vm w))
                                VIR_CGROUP_CONTROLLER_CPU) = false).
    { destruct Hok as [[-> ->] | ->]; [reflexivity | apply andb_false_r]. }
    pose proof (setup_pid_run_summary env pid nameval id cpumask period quota
                  sched w Hcheck) as Hrun.
    cbv zeta in Hrun.
    destruct (infer_cpumask env (w_vm w) cpumask) as [[rc use_cpumask] affinity_cpumask].
    destruct (setup_pid_blocks_report_nothing env (w_vm w) pid nameval id
                use_cpumask affinity_cpumask period quota sched) as [Hcg Haf].
    destruct Hrun as [Hfrom _].
    destruct (Hfrom _ Hin) as [_ [H|[H|H]]].
    + apply (emits_only_In _ _ _ _ Hcg) in H. discriminate H.
    + apply (emits_only_In _ _ _ _ Haf) in H. discriminate H.
    + discriminate H.
Qed.

(** C7 as stated fails: a quota of 0 counts as "unset" in the data model,
    yet with a period set and no CPU controller the function fails with
    ConfigUnsupported. *)
Lemma bandwidth_check_rejects_period_without_quota :
  let period := 100000 in
  let quota := 0 in
  (quota <= 0 \/ period = 0) /\
  virCgroupHasController (priv_cgroup (w_vm world_no_cpu_controller))
    VIR_CGROUP_CONTROLLER_CPU = false /\
  virCHProcessSetupPid env_ok 4250 VIR_CGROUP_THREAD_VCPU 0 None period quota
    None world_no_cpu_controller
  = (-1, world_no_cpu_controller, [bandwidth_error]).
Proof. cbv zeta. split; [left; lia | vm_compute; split; reflexivity]. Qed.

(* ================================================================== *)
(** ** virCHProcessSetupVcpus *)
(* ================================================================== *)

Lemma check_vcpu_affinity_run vm_cpumask vcpus w :
  let custom :=
    existsb
      (fun vcpu =>
         vcpu_online vcpu
         && match vcpu_cpumask vcpu with
            | Some m => negb (virBitmapEqual vm_cpumask (Some m))
            | None => false
            end) vcpus in
  check_vcpu_affinity vm_cpumask vcpus w
  = if custom then (-1, w, [affinity_error]) else (0, w, []).
Proof.
  cbv zeta. induction vcpus as [|vcpu rest IH]; cbn [check_vcpu_affinity existsb].
  - reflexivity.
  - destruct (vcpu_online vcpu); cbn [negb andb orb]; [|exact IH].
    destruct (vcpu_cpumask vcpu) as [m|]; [|exact IH].
    destruct (virBitmapEqual vm_cpumask (Some m)); cbn [negb orb]; [exact IH|].
    reflexivity.
Qed.

Lemma setup_vcpus_without_pids env w :
  virCHDomainHasVcpuPids (w_vm w) = false ->
  (ct_period (def_cputune (vm_def (w_vm w))) = 0 /\
   ct_quota (def_cputune (vm_def (w_vm w))) = 0) \/
  virCgroupHasController (priv_cgroup (w_vm w)) VIR_CGROUP_CONTROLLER_CPU = true ->
  virCHProcessSetupVcpus env w
  = if has_custom_vcpu_affinity (w_vm w) then (-1, w, [affinity_error])
    else (0, w, []).
Proof.
  intros Hnopids Hbw. unfold virCHProcessSetupVcpus, bind. cbn [get_vm].
  assert (Hcheck :
    (negb (ct_period (def_cputune (vm_def (w_vm w))) =? 0)
     || negb (ct_quota (def_cputune (vm_def (w_vm w))) =? 0))
    && negb (virCgroupHasController (priv_cgroup (w_vm w)) VIR_CGROUP_CONTROLLER_CPU)
    = false).
  { destruct Hbw as [[-> ->] | ->]; [reflexivity | apply andb_false_r]. }
  rewrite Hcheck, Hnopids. cbn [negb].
  rewrite check_vcpu_affinity_run. unfold has_custom_vcpu_affinity.
  destruct (existsb _ _); reflexivity.
Qed.

(** The affinity error is reported only on the way to a failure. *)
Lemma setup_vcpus_affinity_error_means_failure env w :
  In affinity_error (events (virCHProcessSetupVcpus env w)) ->
  result (virCHProcessSetupVcpus env w) = -1.
Proof.
  unfold virCHProcessSetupVcpus, bind. cbn [get_vm].
  destruct (_ && _); [cbn; auto|].
  destruct (negb (virCHDomainHasVcpuPids (w_vm w))).
  - rewrite check_vcpu_affinity_run. cbv zeta. destruct (existsb _ _); cbn; auto.
    intros [].
  - intros Hin. cbn [result events fst snd app] in Hin.
    destruct (setup_vcpus env 0 (def_vcpus (vm_def (w_vm w))) w) as [[r w'] e] eqn:E.
    pose proof (emits_setup_vcpus env (def_vcpus (vm_def (w_vm w))) 0 w) as Hem.
    rewrite E in Hem. cbn [events snd] in Hem.
    cbn [result events fst snd app] in Hin.
    apply (proj1 (forallb_forall _ _) Hem) in Hin. discriminate Hin.
Qed.

Lemma emits_virCHProcessSetupVcpus env :
  emits_only (fun e => is_setup_event e || is_affinity_error e)
    (virCHProcessSetupVcpus env).
Proof.
  assert (Hc : forall m l, emits_only (fun e => is_setup_event e || is_affinity_error e)
                 (check_vcpu_affinity m l)).
  { intros m l w. rewrite check_vcpu_affinity_run. cbv zeta.
    destruct (existsb _ _); reflexivity. }
  assert (Hs : forall l i, emits_only (fun e => is_setup_event e || is_affinity_error e)
                 (setup_vcpus env i l)).
  { intros l i. apply (emits_only_weaken is_setup_event); [|apply emits_setup_vcpus].
    intros e ->. reflexivity. }
  unfold virCHProcessSetupVcpus, virReportError. emits.
Qed.

(* ================================================================== *)
(** ** virCHProcessStop *)
(* ================================================================== *)

Lemma delete_devices_run nets w :
  delete_devices nets w = (tt, w, map EvInterfaceDeleteDevice nets).
Proof.
  induction nets as [|net rest IH]; [reflexivity|].
  cbn [delete_devices map]. unfold bind. cbn [emit]. rewrite IH. reflexivity.
Qed.

Lemma cgroup_remove_retry_unfold env fuel retries :
  cgroup_remove_retry env fuel retries
  = (rc <- virDomainCgroupRemoveCgroup env retries ;;
     if rc <? 0 then
       if (rc =? - EBUSY) && Nat.ltb retries 5 then
         match fuel with
         | S fuel' =>
             emit (EvUsleep (200 * 1000)) ;;;
             cgroup_remove_retry env fuel' (S retries)
         | O => ret tt
         end
       else VIR_WARN "Failed to remove cgroup for %s"
     else ret tt).
Proof. destruct fuel; reflexivity. Qed.

(** The retry loop: one more attempt after each [-EBUSY], five retries at
    most, a pause of 200 ms before each retry, a warning when the last
    attempt failed; the world is left as it was. *)
Lemma cgroup_remove_retry_run env fuel : forall retries w,
  (fuel + retries = 5)%nat ->
  let answers := cgroup_remove_cgroup (e_cg env) in
  let busy := busy_run answers retries fuel in
  let out := cgroup_remove_retry env fuel retries w in
  world out = w /\
  List.length (filter is_remove_attempt (events out)) = S busy /\
  filter is_sleep (events out) = repeat (EvUsleep 200000) busy /\
  existsb is_warning (events out) = (answers (retries + busy)%nat <? 0).
Proof.
  induction fuel as [|fuel IH]; intros retries w Hinv; cbv zeta;
    rewrite cgroup_remove_retry_unfold; cbn [busy_run];
    unfold virDomainCgroupRemoveCgroup, VIR_WARN; unfold bind;
    cbn [emit ret].
  - assert (retries = 5%nat) by lia. subst retries.
    rewrite Nat.add_0_r. change (Nat.ltb 5 5) with false. rewrite andb_false_r.
    destruct (cgroup_remove_cgroup (e_cg env) 5 <? 0); cbn; auto.
  - assert (Hlt : Nat.ltb retries 5 = true) by (apply Nat.ltb_lt; lia).
    rewrite Hlt, andb_true_r.
    destruct (cgroup_remove_cgroup (e_cg env) retries =? - EBUSY) eqn:Hbusy.
    + apply Z.eqb_eq in Hbusy. rewrite Hbusy.
      change (- EBUSY <? 0) with true. cbv beta iota. cbn [emit ret].
      specialize (IH (S retries) w ltac:(lia)). cbv zeta in IH.
      destruct (cgroup_remove_retry env fuel (S retries) w) as [[u w'] evs].
      cbn [world events result fst snd] in *.
      destruct IH as (Hw & Hatt & Hsleep & Hwarn).
      cbn [app filter is_remove_attempt is_sleep existsb is_warning List.length orb].
      rewrite Hatt, Hsleep, Hwarn.
      replace (retries + S (busy_run (cgroup_remove_cgroup (e_cg env)) (S retries) fuel))%nat
        with (S retries + busy_run (cgroup_remove_cgroup (e_cg env)) (S retries) fuel)%nat
        by lia.
      auto.
    + rewrite Nat.add_0_r.
      destruct (cgroup_remove_cgroup (e_cg env) retries <? 0); cbn; auto.
Qed.

Lemma busy_run_le answers n k : (busy_run answers n k <= k)%nat.
Proof.
  revert n. induction k as [|k IH]; intros n; cbn [busy_run]; [lia|].
  destruct (answers n =? - EBUSY); [specialize (IH (S n)); lia | lia].
Qed.

(** The loop does not look at the world. *)
Lemma cgroup_remove_retry_pure env fuel : forall retries w w',
  cgroup_remove_retry env fuel retries w
  = (tt, w, events (cgroup_remove_retry env fuel retries w')).
Proof.
  induction fuel as [|fuel IH]; intros retries w w';
    rewrite cgroup_remove_retry_unfold;
    unfold virDomainCgroupRemoveCgroup, VIR_WARN; unfold bind;
    cbn [emit ret].
  - destruct (_ <? 0); [|reflexivity].
    destruct (_ && _); reflexivity.
  - destruct (_ <? 0); [|reflexivity].
    destruct (_ && _); [|reflexivity]. cbv beta iota.
    rewrite (IH (S retries) w w').
    destruct (cgroup_remove_retry env fuel (S retries) w') as [[u w''] evs].
    reflexivity.
Qed.

(** The run of virCHProcessStop, spelled out. *)
Lemma virCHProcessStop_run env reason w :
  virCHProcessStop env reason w
  = (0,
     mkWorld
       (set_vm_state (VIR_DOMAIN_SHUTOFF reason)
          (set_priv_machineName None
             (set_vm_def (set_def_id (-1) (vm_def (w_vm w)))
                (set_vm_pid 0 (set_priv_monitor None (w_vm w))))))
       (w_fds w) (w_poll w) (w_recv w),
     match priv_monitor (w_vm w) with Some _ => [EvMonitorClose] | None => [] end
     ++ [EvInterfaceStopDevices (net_stop_devices (e_net env))]
     ++ map EvInterfaceDeleteDevice (def_nets (vm_def (w_vm w)))
     ++ events (cgroup_remove_retry env 5 0 w)).
Proof.
  unfold virCHProcessStop, bind, virDomainObjSetState.
  cbn [get_vm emit ret modify_vm].
  destruct w as [vm fds polls recvs]. cbn [w_vm w_fds w_poll w_recv].
  destruct (priv_monitor vm) as [mon|] eqn:Hmon;
    cbn [emit ret modify_vm w_vm w_fds w_poll w_recv];
    rewrite delete_devices_run;
    match goal with
    | |- context [cgroup_remove_retry env 5 0 ?w1] =>
        rewrite (cgroup_remove_retry_pure env 5 0 w1 (mkWorld vm fds polls recvs))
    end;
    cbn [w_vm w_fds w_poll w_recv app]; rewrite ?app_nil_r.
  - unfold set_vm_state, set_priv_machineName, set_vm_def, set_vm_pid, set_priv_monitor.
    cbn. reflexivity.
  - unfold set_vm_state, set_priv_machineName, set_vm_def, set_vm_pid, set_priv_monitor.
    cbn. rewrite Hmon. destruct vm; cbn in *. subst. reflexivity.
Qed.
Lemma filter_map_none {A} (p : Event -> bool) (f : A -> Event) l :
  (forall a, p (f a) = false) -> filter p (map f l) = [].
Proof.
  intros H. induction l as [|a l IH]; [reflexivity|].
  cbn [map filter]. rewrite H. exact IH.
Qed.

Lemma existsb_map_none {A} (p : Event -> bool) (f : A -> Event) l :
  (forall a, p (f a) = false) -> existsb p (map f l) = false.
Proof.
  intros H. induction l as [|a l IH]; [reflexivity|].
  cbn [map existsb]. rewrite H. exact IH.
Qed.

(** C2 (as amended).  virCHProcessStop returns 0 from every state, zeroes
    the process id, invalidates the identity field, drops the monitor and
    the machine name, and leaves the domain Shutoff with the reason
    supplied.  Cgroup removal is attempted once more after each [-EBUSY]
    answer, at most five times more, with a pause of 200 ms before each
    retry; when the last attempt failed a warning is logged and nothing
    else happens.  A repeated stop does not fail either, and with the same
    reason it leaves the domain object as it is; it does run the teardown
    calls again and it records the reason it is given. *)
Theorem virCHProcessStop_never_fails env reason w :
  let out := virCHProcessStop env reason w in
  let vm' := w_vm (world out) in
  let answers := cgroup_remove_cgroup (e_cg env) in
  let busy := busy_run answers 0 5 in
  result out = 0 /\
  vm_pid vm' = 0 /\
  def_id (vm_def vm') = -1 /\
  priv_monitor vm' = None /\
  priv_machineName vm' = None /\
  vm_state vm' = VIR_DOMAIN_SHUTOFF reason /\
  (busy <= 5)%nat /\
  List.length (filter is_remove_attempt (events out)) = S busy /\
  filter is_sleep (events out) = repeat (EvUsleep 200000) busy /\
  existsb is_warning (events out) = (answers busy <? 0) /\
  existsb is_error_report (events out) = false /\
  (forall env',
      let again := virCHProcessStop env' reason (world out) in
      result again = 0 /\ world again = world out).
Proof.
  cbv zeta. rewrite virCHProcessStop_run. cbn [result world events fst snd w_vm].
  destruct (cgroup_remove_retry_run env 5 0 w eq_refl) as (_ & Hatt & Hsleep & Hwarn).
  cbv zeta in *. cbn [Nat.add] in Hwarn.
  pose proof (emits_virCHProcessStop env reason w) as Hteardown.
  rewrite virCHProcessStop_run in Hteardown. cbn [events snd] in Hteardown.
  repeat split.
  - apply busy_run_le.
  - destruct (priv_monitor (w_vm w)); cbn [app filter is_remove_attempt];
      rewrite filter_app, (filter_map_none is_remove_attempt) by reflexivity;
      exact Hatt.
  - destruct (priv_monitor (w_vm w)); cbn [app filter is_sleep];
      rewrite filter_app, (filter_map_none is_sleep) by reflexivity;
      exact Hsleep.
  - destruct (priv_monitor (w_vm w)); cbn [app existsb is_warning orb];
      rewrite existsb_app, (existsb_map_none is_warning) by reflexivity;
      exact Hwarn.
  - apply not_true_is_false. intros Hex.
    apply existsb_exists in Hex as (e & Hin & He).
    apply (proj1 (forallb_forall _ _) Hteardown) in Hin.
    destruct e; discriminate.
  - rewrite virCHProcessStop_run. reflexivity.
  - rewrite virCHProcessStop_run. reflexivity.
Qed.

(** C2 as stated fails: stopping a stopped domain is not a no-op.  The
    network teardown and the cgroup removal are run again, and a stop with
    another reason replaces the shutoff reason. *)
Lemma repeated_stop_is_not_a_noop :
  let stopped :=
    world (virCHProcessStop env_ok VIR_DOMAIN_SHUTOFF_DESTROYED world_running) in
  vm_state (w_vm stopped) = VIR_DOMAIN_SHUTOFF VIR_DOMAIN_SHUTOFF_DESTROYED /\
  events (virCHProcessStop env_ok VIR_DOMAIN_SHUTOFF_DESTROYED stopped)
  = [EvInterfaceStopDevices 0;
     EvInterfaceDeleteDevice (mkNet "tap0" 2);
     EvCgroupRemoveCgroup 0] /\
  vm_state (w_vm (world (virCHProcessStop env_ok VIR_DOMAIN_SHUTOFF_FAILED stopped)))
  = VIR_DOMAIN_SHUTOFF VIR_DOMAIN_SHUTOFF_FAILED.
Proof. vm_compute. repeat split. Qed.

(** Removal that stays busy: six attempts, five pauses, one warning, and
    the domain is Shutoff all the same. *)
Example stop_with_busy_cgroup :
  let env_busy :=
    mkEnv monitor_env_ok net_env_ok
      (mkCgroupEnv (0, Some cgroup_vm1) (fun _ _ => Some cgroup_thread)
         (fun _ _ => 0) (fun _ _ => 0) (fun _ _ => 0) (fun _ _ _ => 0) 0
         (fun _ => - EBUSY))
      host_env_ok in
  let out := virCHProcessStop env_busy VIR_DOMAIN_SHUTOFF_DESTROYED world_running in
  result out = 0 /\
  vm_state (w_vm (world out)) = VIR_DOMAIN_SHUTOFF VIR_DOMAIN_SHUTOFF_DESTROYED /\
  events out
  = [EvMonitorClose; EvInterfaceStopDevices 0;
     EvInterfaceDeleteDevice (mkNet "tap0" 2);
     EvCgroupRemoveCgroup (-16); EvUsleep 200000;
     EvCgroupRemoveCgroup (-16); EvUsleep 200000;
     EvCgroupRemoveCgroup (-16); EvUsleep 200000;
     EvCgroupRemoveCgroup (-16); EvUsleep 200000;
     EvCgroupRemoveCgroup (-16); EvUsleep 200000;
     EvCgroupRemoveCgroup (-16);
     EvWarn "Failed to remove cgroup for %s"].
Proof. vm_compute. repeat split. Qed.

(* ================================================================== *)
(** ** virCHProcessStart: the ways out *)
(* ================================================================== *)

Lemma start_cleanup_run env w :
  start_cleanup env w
  = (-1, world (virCHProcessStop env VIR_DOMAIN_SHUTOFF_FAILED w),
     events (virCHProcessStop env VIR_DOMAIN_SHUTOFF_FAILED w)).
Proof.
  unfold start_cleanup, bind. cbn [Z.eqb negb].
  destruct (virCHProcessStop env VIR_DOMAIN_SHUTOFF_FAILED w) as [[r w'] e].
  cbn. rewrite !app_nil_r. reflexivity.
Qed.

Lemma emits_virCHProcessUpdateInfo env :
  emits_only is_info_event (virCHProcessUpdateInfo env).
Proof.
  unfold virCHProcessUpdateInfo, virCHProcessUpdateConsole,
    virCHProcessUpdateConsoleDevice, virReportError.
  emits.
Qed.

Lemma setup_vcpus_success_events env w :
  0 <= result (virCHProcessSetupVcpus env w) ->
  forallb is_setup_event (events (virCHProcessSetupVcpus env w)) = true.
Proof.
  intros Hok. apply forallb_forall. intros e Hin.
  pose proof (emits_only_In _ _ _ _ (emits_virCHProcessSetupVcpus env) Hin) as He.
  cbv beta in He. apply orb_true_iff in He as [He|He]; [exact He|].
  assert (e = affinity_error).
  { destruct e; try discriminate He. destruct code; try discriminate He.
    cbn in He. apply String.eqb_eq in He. subst. reflexivity. }
  subst e. apply setup_vcpus_affinity_error_means_failure in Hin. lia.
Qed.

Lemma start_event_of_setup l :
  forallb is_setup_event l = true -> forallb is_start_event l = true.
Proof.
  intros H. apply forallb_forall. intros e Hin.
  apply (proj1 (forallb_forall _ _) H) in Hin. unfold is_start_event.
  rewrite Hin. reflexivity.
Qed.

(** Runs the callee [t] (a computation applied to a world), keeping its
    footprint [F], and goes on with the status it returned. *)
Ltac run_call t F k :=
  let Hf := fresh "Hfoot" in
  let r := fresh "r" in
  let w' := fresh "w" in
  let l := fresh "evs" in
  pose proof F as Hf;
  destruct t as [[r w'] l] eqn:?;
  cbn [events snd] in Hf;
  k r.

Ltac simp_out Hout :=
  cbv beta iota zeta in Hout;
  unfold virCHDomainRefreshThreadInfo, virDomainObjSetState, bind in Hout;
  cbn [emit ret modify_vm get_vm virReportError virReportSystemError] in Hout;
  cbv beta iota zeta in Hout.

Ltac in_pre Hin :=
  repeat match type of Hin with
         | In _ (_ ++ _) => apply in_app_or in Hin as [Hin|Hin]
         | In _ (_ :: _) => destruct Hin as [Hin|Hin]
         | In _ [] => destruct Hin
         end.

(** A member of a list of events belongs to the class at hand: it is one of
    the events written out, or it comes from a callee whose footprint is
    known. *)
Ltac class_leaf Hin :=
  first
    [ rewrite <- Hin; reflexivity
    | match goal with
      | Hf : forallb _ ?l = true |- _ =>
          match type of Hin with
          | In _ l =>
              apply (proj1 (forallb_forall _ _) Hf) in Hin; cbv beta in Hin;
              first
                [ discriminate Hin
                | unfold is_start_event; rewrite Hin; reflexivity
                | apply orb_true_iff in Hin as [Hin|Hin];
                  unfold is_start_event; rewrite Hin;
                  [reflexivity | apply orb_true_r] ]
          end
      end ].

Ltac solve_class :=
  let e := fresh "e" in
  let Hin := fresh "Hin" in
  apply forallb_forall; intros e Hin; in_pre Hin; class_leaf Hin.

(** An [EvInterfaceStartDevices] among events that precede a later step
    carries a non-negative status. *)
Ltac solve_start_devices :=
  let rc := fresh "rc" in
  let Hin := fresh "Hin" in
  intros rc Hin; in_pre Hin;
  first
    [ discriminate Hin
    | inversion Hin; subst; lia
    | match goal with
      | Hf : forallb _ ?l = true |- _ =>
          match type of Hin with
          | In _ l =>
              apply (proj1 (forallb_forall _ _) Hf) in Hin; discriminate Hin
          end
      end ].

Ltac nonneg :=
  repeat match goal with
         | H : (_ <? 0) = false |- _ => apply Z.ltb_ge in H
         end.

Ltac exit_cleanup Hout :=
  rewrite start_cleanup_run in Hout; simp_out Hout; subst;
  cbn [result world events fst snd];
  right; right; split; [reflexivity|];
  split; [split; [first [assumption | reflexivity] | nonneg; assumption]|];
  rewrite ?app_nil_r, ?app_assoc;
  eexists; eexists; split; [reflexivity|];
  split; [reflexivity|]; split; [solve_class | solve_start_devices].

Ltac exit_early Hout :=
  simp_out Hout; subst;
  cbn [result world events fst snd];
  right; left; split; [reflexivity|];
  rewrite ?app_nil_r;
  split; [solve_class|];
  right; right; split;
  [ match goal with H : (_ <? 0) = true |- _ => apply Z.ltb_lt in H; exact H end
  | repeat (apply in_or_app; right); left; reflexivity ].

Ltac exit_success Hout :=
  simp_out Hout; subst;
  cbn [result world events fst snd w_vm vm_state set_vm_state];
  left; split; [reflexivity|]; split; [reflexivity|];
  split; [split; [first [assumption | reflexivity] | nonneg; assumption]|];
  rewrite ?app_nil_r, ?app_assoc;
  eexists; eexists; split; [reflexivity|];
  split; [solve_class | solve_start_devices].

(** virCHProcessStart from the assignment of [vm->pid] on. *)
Ltac start_rest Hout :=
  lazymatch type of Hout with
  | context [chProcessAddNetworkDevices ?e ?d ?m ?w] =>
      run_call (chProcessAddNetworkDevices e d m w)
               (emits_chProcessAddNetworkDevices e d m w)
               ltac:(fun r =>
                 let rc := fresh "rc" in
                 let nic := fresh "nicindexes" in
                 destruct r as [rc nic]; simp_out Hout;
                 destruct (rc <? 0) eqn:?; [ simp_out Hout; exit_cleanup Hout |])
  end;
  destruct (cgroup_setup_cgroup _) as [rccg cg] eqn:?; simp_out Hout;
  destruct (rccg <? 0) eqn:?; [ exit_cleanup Hout |];
  lazymatch type of Hout with
  | context [virCHProcessInitCpuAffinity ?e ?w] =>
      run_call (virCHProcessInitCpuAffinity e w)
               (emits_virCHProcessInitCpuAffinity e w)
               ltac:(fun r => destruct (r <? 0) eqn:?; [ exit_cleanup Hout |])
  end;
  simp_out Hout;
  destruct (net_start_devices _ <? 0) eqn:?; [ exit_early Hout |];
  simp_out Hout;
  destruct (monitor_boot_vm _ <? 0) eqn:?; [ nonneg; exit_cleanup Hout |];
  simp_out Hout;
  lazymatch type of Hout with
  | context [virCHProcessSetupEmulatorThreads ?e ?w] =>
      run_call (virCHProcessSetupEmulatorThreads e w)
               (emits_virCHProcessSetupEmulatorThreads e w)
               ltac:(fun r => destruct (r <? 0) eqn:?; [ nonneg; exit_cleanup Hout |])
  end;
  lazymatch type of Hout with
  | context [virCHProcessSetupIOThreads ?e ?w] =>
      run_call (virCHProcessSetupIOThreads e w)
               (emits_virCHProcessSetupIOThreads e w)
               ltac:(fun r => destruct (r <? 0) eqn:?; [ nonneg; exit_cleanup Hout |])
  end;
  simp_out Hout;
  destruct (cgroup_setup_global_cpu _ <? 0) eqn:?; [ nonneg; exit_cleanup Hout |];
  simp_out Hout;
  lazymatch type of Hout with
  | context [virCHProcessSetupVcpus ?e ?w] =>
      let Hok := fresh "Hvcpus_ok" in
      pose proof (setup_vcpus_success_events e w) as Hok;
      run_call (virCHProcessSetupVcpus e w)
               (emits_virCHProcessSetupVcpus e w)
               ltac:(fun r =>
                 cbn [result events fst snd] in Hok;
                 destruct (r <? 0) eqn:?; [ nonneg; exit_cleanup Hout |];
                 nonneg; specialize (Hok ltac:(assumption)))
  end;
  lazymatch type of Hout with
  | context [virCHProcessUpdateInfo ?e ?w] =>
      rewrite (run_eta (virCHProcessUpdateInfo e w)) in Hout
  end;
  exit_success Hout.

Lemma start_outcomes env driver reason w :
  let out := virCHProcessStart env driver reason w in
  (result out = 0 /\
   vm_state (w_vm (world out)) = VIR_DOMAIN_RUNNING reason /\
   (virDomainObjIsActive (w_vm w) = false /\
    0 <= result (virCHProcessStartValidate env w)) /\
   exists pre w1,
     events out = pre ++ events (virCHProcessUpdateInfo env w1) /\
     forallb is_start_event pre = true /\
     (forall rc, In (EvInterfaceStartDevices rc) pre -> 0 <= rc)) \/
  (result out = -1 /\
   forallb is_start_event (events out) = true /\
   ((virDomainObjIsActive (w_vm w) = true /\
     out = (-1, w, [already_active_error])) \/
    (virDomainObjIsActive (w_vm w) = false /\
     result (virCHProcessStartValidate env w) < 0 /\
     events out = events (virCHProcessStartValidate env w)) \/
    (net_start_devices (e_net env) < 0 /\
     In (EvInterfaceStartDevices (net_start_devices (e_net env))) (events out)))) \/
  (result out = -1 /\
   (virDomainObjIsActive (w_vm w) = false /\
    0 <= result (virCHProcessStartValidate env w)) /\
   exists pre w1,
     events out = pre ++ events (virCHProcessStop env VIR_DOMAIN_SHUTOFF_FAILED w1) /\
     world out = world (virCHProcessStop env VIR_DOMAIN_SHUTOFF_FAILED w1) /\
     forallb (fun e => is_start_event e || is_affinity_error e) pre = true /\
     (forall rc, In (EvInterfaceStartDevices rc) pre -> 0 <= rc)).
Proof.
  cbv zeta. remember (virCHProcessStart env driver reason w) as out eqn:Hout.
  unfold virCHProcessStart, bind in Hout. cbn [get_vm] in Hout.
  destruct (virDomainObjIsActive (w_vm w)) eqn:Hactive.
  { right; left. subst out. cbn. auto 10. }
  pose proof (emits_virCHProcessStartValidate env w) as Hfoot0.
  destruct (virCHProcessStartValidate env w) as [[rc0 w0] e0] eqn:Hvalidate.
  cbn [events snd] in Hfoot0. cbn [result fst].
  destruct (rc0 <? 0) eqn:Hval.
  { right; left. simp_out Hout. subst out. cbn [result events fst snd app].
    rewrite app_nil_r. apply Z.ltb_lt in Hval.
    split; [reflexivity|]. split; [now apply start_event_of_setup|].
    right; left. auto. }
  (* from the monitor on *)
  destruct (priv_monitor (w_vm w)) as [mon0|] eqn:Hmon0.
  2:{ destruct (monitor_new (e_mon env)) as [mon|] eqn:Hnew.
      2:{ simp_out Hout. exit_cleanup Hout. }
      destruct (monitor_create_vm (e_mon env) <? 0) eqn:Hcreate.
      { simp_out Hout. exit_cleanup Hout. }
      simp_out Hout. start_rest Hout. }
  simp_out Hout. start_rest Hout.
Qed.

(* ================================================================== *)
(** ** Claims about virCHProcessStart *)
(* ================================================================== *)

Lemma start_already_active env driver reason w :
  virDomainObjIsActive (w_vm w) = true ->
  virCHProcessStart env driver reason w = (-1, w, [already_active_error]).
Proof.
  intros H. unfold virCHProcessStart, bind. cbn [get_vm]. rewrite H. reflexivity.
Qed.


Lemma stop_leaves_shutoff env reason w :
  vm_state (w_vm (world (virCHProcessStop env reason w))) = VIR_DOMAIN_SHUTOFF reason /\
  vm_pid (w_vm (world (virCHProcessStop env reason w))) = 0 /\
  In (EvInterfaceStopDevices (net_stop_devices (e_net env)))
     (events (virCHProcessStop env reason w)).
Proof.
  rewrite virCHProcessStop_run. cbn [world events fst snd w_vm].
  repeat split. apply in_or_app. right. left. reflexivity.
Qed.





(** The exception the claim names: the interfaces cannot be brought up.
    Start returns -1, the monitor stays open, the pid stays set and nothing
    is torn down. *)
Example start_devices_failure_leaves_vm_half_started :
  let out :=
    virCHProcessStart env_start_devices_fail driver_ok
      VIR_DOMAIN_RUNNING_BOOTED world_vm1 in
  result out = -1 /\
  vm_pid (w_vm (world out)) = 4242 /\
  priv_monitor (w_vm (world out)) = Some monitor_vm1 /\
  vm_state (w_vm (world out)) = VIR_DOMAIN_SHUTOFF VIR_DOMAIN_SHUTOFF_UNKNOWN /\
  existsb is_teardown_event (events out) = false.
Proof. vm_compute. repeat split. Qed.


(* ================================================================== *)
(** ** Claims about vCPU placement without thread ids and about tap descriptors *)
(* ================================================================== *)

(** C8 (as amended).  When no vCPU thread id is known and the bandwidth
    precondition holds (period and quota are zero, or the cgroup has the CPU
    controller), virCHProcessSetupVcpus makes no placement call and changes
    nothing: it returns 0, unless some online vCPU has a cpumask that
    differs from the VM-wide mask, in which case it reports OperationInvalid
    and returns -1.  When that error is reported during virCHProcessStart,
    Start returns -1 after running virCHProcessStop with reason Failed. *)
Theorem virCHProcessSetupVcpus_without_thread_ids env w :
  virCHDomainHasVcpuPids (w_vm w) = false ->
  (ct_period (def_cputune (vm_def (w_vm w))) = 0 /\
   ct_quota (def_cputune (vm_def (w_vm w))) = 0) \/
  virCgroupHasController (priv_cgroup (w_vm w)) VIR_CGROUP_CONTROLLER_CPU = true ->
  virCHProcessSetupVcpus env w
  = (if has_custom_vcpu_affinity (w_vm w) then (-1, w, [affinity_error])
     else (0, w, [])) /\
  (forall driver reason w0,
     let out := virCHProcessStart env driver reason w0 in
     In affinity_error (events out) ->
     result out = -1 /\
     vm_state (w_vm (world out)) = VIR_DOMAIN_SHUTOFF VIR_DOMAIN_SHUTOFF_FAILED /\
     exists pre w1,
       events out
       = pre ++ events (virCHProcessStop env VIR_DOMAIN_SHUTOFF_FAILED w1) /\
       world out = world (virCHProcessStop env VIR_DOMAIN_SHUTOFF_FAILED w1)).
Proof.
  intros Hnopids Hbw. split; [now apply setup_vcpus_without_pids|].
  intros driver reason w0. cbv zeta. intros Hin.
  pose proof (start_outcomes env driver reason w0) as Hout. cbv zeta in Hout.
  destruct Hout as [(H & Hst & _ & pre & w1 & Hev & Hcls & Hsd)
                   | [(H & Hcls & Hwhy)
                   | (H & _ & pre & w1 & Hev & Hw & Hcls & Hsd)]].
  - rewrite Hev in Hin. apply in_app_or in Hin as [Hin|Hin].
    + apply (proj1 (forallb_forall _ _) Hcls) in Hin. discriminate Hin.
    + apply (emits_only_In _ _ _ _ (emits_virCHProcessUpdateInfo env)) in Hin.
      discriminate Hin.
  - apply (proj1 (forallb_forall _ _) Hcls) in Hin. discriminate Hin.
  - split; [exact H|].
    destruct (stop_leaves_shutoff env VIR_DOMAIN_SHUTOFF_FAILED w1) as (Hst & _).
    rewrite Hw. split; [exact Hst|]. exists pre, w1. auto.
Qed.

Lemma virCHProcessSetupVcpus_without_thread_ids_witness :
  virCHDomainHasVcpuPids vm_pinned = false /\
  has_custom_vcpu_affinity vm_pinned = true /\
  virCHProcessSetupVcpus env_no_vcpu_threads world_pinned
  = (-1, world_pinned, [affinity_error]) /\
  In affinity_error
     (events (virCHProcessStart env_no_vcpu_threads driver_ok
                VIR_DOMAIN_RUNNING_BOOTED world_pinned)) /\
  result (virCHProcessStart env_no_vcpu_threads driver_ok
            VIR_DOMAIN_RUNNING_BOOTED world_pinned) = -1 /\
  vm_state (w_vm (world (virCHProcessStart env_no_vcpu_threads driver_ok
                           VIR_DOMAIN_RUNNING_BOOTED world_pinned)))
  = VIR_DOMAIN_SHUTOFF VIR_DOMAIN_SHUTOFF_FAILED.
Proof.
  assert (Hnopids : virCHDomainHasVcpuPids (w_vm world_pinned) = false)
    by reflexivity.
  assert (Hbw : (ct_period (def_cputune (vm_def (w_vm world_pinned))) = 0 /\
                 ct_quota (def_cputune (vm_def (w_vm world_pinned))) = 0) \/
                virCgroupHasController (priv_cgroup (w_vm world_pinned))
                  VIR_CGROUP_CONTROLLER_CPU = true)
    by (left; split; reflexivity).
  destruct (virCHProcessSetupVcpus_without_thread_ids env_no_vcpu_threads
              world_pinned Hnopids Hbw) as [Hrun Hstart].
  assert (Hin : In affinity_error
                  (events (virCHProcessStart env_no_vcpu_threads driver_ok
                             VIR_DOMAIN_RUNNING_BOOTED world_pinned))).
  { vm_compute. repeat (first [left; reflexivity | right]). }
  destruct (Hstart driver_ok VIR_DOMAIN_RUNNING_BOOTED world_pinned Hin)
    as (Hres & Hst & _).
  split; [reflexivity|]. split; [reflexivity|]. split; [exact Hrun|].
  split; [exact Hin|]. split; [exact Hres | exact Hst].
Defined.

(** C8 as stated fails: with no vCPU thread id known and no vCPU pinned,
    virCHProcessSetupVcpus still fails, with ConfigUnsupported, when a
    period is set and the cgroup lacks the CPU controller. *)
Lemma setup_vcpus_fails_without_custom_affinity :
  virCHDomainHasVcpuPids (w_vm world_period_no_cpu) = false /\
  has_custom_vcpu_affinity (w_vm world_period_no_cpu) = false /\
  virCHProcessSetupVcpus env_ok world_period_no_cpu
  = (-1, world_period_no_cpu, [bandwidth_error]).
Proof. vm_compute. repeat split. Qed.

(** C5: the failing path.  The interface asks for two queue pairs, the
    collaborator opens the tap descriptors 7 and 8, and building the request
    body fails: the function returns -1 with both descriptors still open;
    only the control socket has been closed. *)
Theorem tap_fds_leak_when_request_body_fails :
  let out :=
    chProcessAddNetworkDevices env_json_fails driver_ok monitor_vm1 world_vm1 in
  fst (result out) = -1 /\
  w_fds (world out) = [7; 8] /\
  events out
  = [EvSocket 5; EvConnect 5 "/run/ch/vm1.sock" 0;
     EvConnectNetworkInterfaces (mkNet "tap0" 2) true;
     EvReportError VIR_ERR_INTERNAL_ERROR "Failed to build net json";
     EvClose 5].
Proof. vm_compute. repeat split. Qed.

(** On the path the claim describes, where the request is sent, the two
    descriptors are transferred and closed, whatever the send returns. *)
Example tap_fds_closed_after_send :
  let out :=
    chProcessAddNetworkDevices env_ok driver_ok monitor_vm1 world_vm1 in
  fst (result out) = 0 /\
  w_fds (world out) = [] /\
  filter (fun e => match e with
                   | EvSendMsgWithFDs _ _ _ _ | EvClose _ => true
                   | _ => false
                   end) (events out)
  = [EvSendMsgWithFDs 5
       ("PUT /api/v1/vm.add-net HTTP/1.1" ++ CRLF ++ "Host: localhost" ++ CRLF
        ++ "Content-Type: application/json" ++ CRLF
        ++ "Content-Length: 2" ++ CRLF ++ CRLF ++ "{}")%string
       [7; 8] 10;
     EvClose 7; EvClose 8; EvClose 5].
Proof. vm_compute. repeat split. Qed.
(* ================================================================== *)
(** ** The info query and the console paths *)
(* ================================================================== *)

Lemma with_consoles_same w : with_consoles (def_consoles (vm_def (w_vm w))) w = w.
Proof. destruct w as [[? [] ? ? ? ? ? ?] ? ? ?]; reflexivity. Qed.

Lemma with_serials_same w : with_serials (def_serials (vm_def (w_vm w))) w = w.
Proof. destruct w as [[? [] ? ? ? ? ? ?] ? ? ?]; reflexivity. Qed.

Lemma set_first_chr_path_differs path chrs :
  only_first_path_differs chrs (set_first_chr_path path chrs).
Proof.
  destruct chrs as [|chr rest]; [now left|]. cbn.
  destruct (chr_source chr) as [src|] eqn:E; [|now left].
  right. now exists chr, src, path, rest.
Qed.

(** The console branch: the path is stored when the document gives one,
    and one error is reported when it does not. *)
Lemma update_console_run config w :
  virCHProcessUpdateConsoleDevice (Some config) "console" w
  = match device_path config "console" with
    | Some path =>
        (Some tt,
         with_consoles (set_first_chr_path path (def_consoles (vm_def (w_vm w)))) w,
         [])
    | None => (Some tt, w, [missing_path_error config "console"])
    end.
Proof.
  unfold virCHProcessUpdateConsoleDevice, device_path, missing_path_error.
  change (String.eqb "console" "serial") with false.
  change (String.eqb "console" "console") with true.
  cbv beta iota. unfold bind, get_vm, virReportError, emit, ret, modify_vm.
  cbn [result world events fst snd].
  destruct (virJSONValueObjectGet config "console") as [dev|]; [|reflexivity].
  destruct (virJSONValueObjectGet dev "file") as [file|]; [|reflexivity].
  destruct (virJSONValueGetString file) as [path|]; reflexivity.
Qed.

(** The serial branch: the read of the source comes first. *)
Lemma update_serial_run config w :
  virCHProcessUpdateConsoleDevice (Some config) "serial" w
  = match first_serial_is_unix (w_vm w) with
    | None => (None, w, [])
    | Some true => (Some tt, w, [])
    | Some false =>
        match device_path config "serial" with
        | Some path =>
            (Some tt,
             with_serials (set_first_chr_path path (def_serials (vm_def (w_vm w)))) w,
             [])
        | None => (Some tt, w, [missing_path_error config "serial"])
        end
    end.
Proof.
  unfold virCHProcessUpdateConsoleDevice, device_path, missing_path_error.
  change (String.eqb "serial" "serial") with true.
  change (String.eqb "serial" "console") with false.
  cbv beta iota. unfold bind, get_vm, virReportError, emit, ret, modify_vm.
  cbn [result world events fst snd].
  destruct (first_serial_is_unix (w_vm w)) as [[|]|]; [reflexivity| |reflexivity].
  destruct (virJSONValueObjectGet config "serial") as [dev|]; [|reflexivity].
  destruct (virJSONValueObjectGet dev "file") as [file|]; [|reflexivity].
  destruct (virJSONValueGetString file) as [path|]; reflexivity.
Qed.

Lemma first_serial_read vm :
  first_serial_is_unix vm = None <->
  def_serials (vm_def vm) = [] \/ first_serial_has_source vm = false.
Proof.
  unfold first_serial_is_unix, first_serial_has_source.
  destruct (def_serials (vm_def vm)) as [|chr rest]; [now split; auto|].
  destruct (chr_source chr); split; try discriminate; auto.
  intros [H|H]; discriminate H.
Qed.

(** The run of virCHProcessUpdateConsole on a document with a [config]
    member, in full. *)
Lemma update_console_run_config info config w :
  virJSONValueObjectGet info "config" = Some config ->
  let consoles := def_consoles (vm_def (w_vm w)) in
  let serials := def_serials (vm_def (w_vm w)) in
  let w1 :=
    with_consoles
      (match device_path config "console" with
       | Some path => set_first_chr_path path consoles
       | None => consoles
       end) w in
  let console_errs :=
    match consoles, device_path config "console" with
    | _ :: _, None => [missing_path_error config "console"]
    | _, _ => []
    end in
  virCHProcessUpdateConsole info w
  = match serials with
    | [] => (Some tt, w1, console_errs)
    | _ :: _ =>
        match first_serial_is_unix (w_vm w) with
        | None => (None, w1, console_errs)
        | Some true => (Some tt, w1, console_errs)
        | Some false =>
            match device_path config "serial" with
            | Some path =>
                (Some tt, with_serials (set_first_chr_path path serials) w1,
                 console_errs)
            | None =>
                (Some tt, w1, console_errs ++ [missing_path_error config "serial"])
            end
        end
    end.
Proof.
  intros Hcfg. cbv zeta. unfold virCHProcessUpdateConsole. rewrite Hcfg.
  unfold bind at 1. cbn [get_vm result world events fst snd app].
  unfold bind at 1.
  assert (Hc : (if Nat.ltb 0 (List.length (def_consoles (vm_def (w_vm w))))
                then virCHProcessUpdateConsoleDevice (Some config) "console"
                else ret (Some tt)) w
               = (Some tt,
                  with_consoles
                    (match device_path config "console" with
                     | Some path =>
                         set_first_chr_path path (def_consoles (vm_def (w_vm w)))
                     | None => def_consoles (vm_def (w_vm w))
                     end) w,
                  match def_consoles (vm_def (w_vm w)),
                        device_path config "console" with
                  | _ :: _, None => [missing_path_error config "console"]
                  | _, _ => []
                  end)).
  { destruct (def_consoles (vm_def (w_vm w))) as [|chr rest] eqn:Econs.
    - cbn. destruct (device_path config "console");
        cbn; rewrite <- Econs; now rewrite with_consoles_same.
    - change (Nat.ltb 0 (List.length (chr :: rest))) with true. cbv iota.
      rewrite update_console_run, Econs.
      destruct (device_path config "console"); [reflexivity|].
      rewrite <- Econs. now rewrite with_consoles_same. }
  rewrite Hc. clear Hc. cbn [result world events fst snd].
  set (w1 := with_consoles _ w).
  set (errs := match def_consoles _ with [] => _ | _ :: _ => _ end).
  assert (Hs : def_serials (vm_def (w_vm w1)) = def_serials (vm_def (w_vm w)))
    by reflexivity.
  assert (Hu : first_serial_is_unix (w_vm w1) = first_serial_is_unix (w_vm w))
    by reflexivity.
  clearbody errs.
  destruct (def_serials (vm_def (w_vm w))) as [|chr rest] eqn:Eser.
  - cbn. now rewrite app_nil_r.
  - change (Nat.ltb 0 (List.length (chr :: rest))) with true. cbv iota.
    rewrite update_serial_run, Hu, Hs.
    destruct (first_serial_is_unix (w_vm w)) as [[|]|];
      cbn [result world events fst snd]; rewrite ?app_nil_r; try reflexivity.
    destruct (device_path config "serial"); cbn [result world events fst snd];
      rewrite ?app_nil_r; reflexivity.
Qed.

Lemma update_console_no_config info w :
  virJSONValueObjectGet info "config" = None ->
  virCHProcessUpdateConsole info w
  = (Some tt, w,
     [EvReportError VIR_ERR_INTERNAL_ERROR
        "missing 'config' in info query result from cloud-hypervisor"]).
Proof.
  intros H. unfold virCHProcessUpdateConsole. rewrite H. reflexivity.
Qed.

(** The run ends in the read of the serial source exactly when the document
    has a [config] member and the first serial port has no source. *)
Lemma update_console_result info w :
  result (virCHProcessUpdateConsole info w)
  = match virJSONValueObjectGet info "config" with
    | Some _ => if first_serial_has_source (w_vm w) then Some tt else None
    | None => Some tt
    end.
Proof.
  destruct (virJSONValueObjectGet info "config") as [config|] eqn:Hcfg.
  - rewrite (update_console_run_config info config w Hcfg).
    unfold first_serial_has_source, first_serial_is_unix.
    destruct (def_serials (vm_def (w_vm w))) as [|chr rest]; [reflexivity|].
    destruct (chr_source chr) as [src|]; [|reflexivity].
    destruct (chr_type src); try reflexivity;
      destruct (device_path config "serial"); reflexivity.
  - now rewrite update_console_no_config.
Qed.

(** What virCHProcessUpdateConsole has done to the domain when it returns,
    or when the process ends. *)
Lemma update_console_world info w :
  virJSONValueObjectGet info "config" <> None ->
  let consoles := def_consoles (vm_def (w_vm w)) in
  let serials := def_serials (vm_def (w_vm w)) in
  world (virCHProcessUpdateConsole info w)
  = with_serials
      (match reported_path info "serial" with
       | Some path =>
           match first_serial_is_unix (w_vm w) with
           | Some false => set_first_chr_path path serials
           | _ => serials
           end
       | None => serials
       end)
      (with_consoles
         (match reported_path info "console" with
          | Some path => set_first_chr_path path consoles
          | None => consoles
          end) w).
Proof.
  intros Hcfg. cbv zeta. unfold reported_path.
  destruct (virJSONValueObjectGet info "config") as [config|] eqn:E;
    [|contradiction].
  rewrite (update_console_run_config info config w E).
  set (w1 := with_consoles _ w).
  assert (Hs : def_serials (vm_def (w_vm w1)) = def_serials (vm_def (w_vm w)))
    by reflexivity.
  rewrite <- Hs.
  assert (Hsame : w1 = with_serials (def_serials (vm_def (w_vm w1))) w1)
    by now rewrite with_serials_same.
  destruct (def_serials (vm_def (w_vm w1))) as [|chr rest] eqn:Eser.
  - cbn [world fst snd].
    destruct (device_path config "serial"); [|exact Hsame].
    destruct (first_serial_is_unix (w_vm w)) as [[|]|]; exact Hsame.
  - destruct (first_serial_is_unix (w_vm w)) as [[|]|]; cbn [world fst snd];
      destruct (device_path config "serial"); cbn [world fst snd];
      first [exact Hsame | reflexivity].
Qed.

Lemma update_console_errors info w :
  let errs := events (virCHProcessUpdateConsole info w) in
  forallb is_internal_error errs = true /\
  (List.length errs <= 2)%nat /\
  (forall pc ps, reported_path info "console" = Some pc ->
                 reported_path info "serial" = Some ps -> errs = []).
Proof.
  cbv zeta. unfold reported_path.
  destruct (virJSONValueObjectGet info "config") as [config|] eqn:Hcfg.
  - rewrite (update_console_run_config info config w Hcfg).
    destruct (def_consoles (vm_def (w_vm w))) as [|c cs];
      destruct (def_serials (vm_def (w_vm w))) as [|s ss];
      destruct (device_path config "console") as [pc|];
      try destruct (first_serial_is_unix (w_vm w)) as [[|]|];
      try destruct (device_path config "serial") as [ps|];
      cbn; repeat split; try lia; intros pc' ps' Hpc Hps;
      first [reflexivity | discriminate Hpc | discriminate Hps].
  - rewrite update_console_no_config by exact Hcfg. cbn.
    repeat split; [lia | discriminate].
Qed.

Lemma update_info_run env w :
  virCHProcessUpdateInfo env w
  = match monitor_get_info (e_mon env) with
    | None => (Some (-1), w, [EvMonitorGetInfo false])
    | Some info =>
        (match result (virCHProcessUpdateConsole info w) with
         | Some _ => Some 0
         | None => None
         end,
         world (virCHProcessUpdateConsole info w),
         EvMonitorGetInfo true :: events (virCHProcessUpdateConsole info w))
    end.
Proof.
  unfold virCHProcessUpdateInfo.
  destruct (monitor_get_info (e_mon env)) as [info|]; [|reflexivity].
  unfold bind, emit, ret.
  destruct (virCHProcessUpdateConsole info w) as [[[u|] w1] evs];
    cbn; now rewrite app_nil_r.
Qed.

Lemma update_info_world_shape env w :
  exists consoles' serials',
    world (virCHProcessUpdateInfo env w)
    = with_serials serials' (with_consoles consoles' w) /\
    only_first_path_differs (def_consoles (vm_def (w_vm w))) consoles' /\
    only_first_path_differs (def_serials (vm_def (w_vm w))) serials'.
Proof.
  rewrite update_info_run.
  assert (Hsame : exists consoles' serials',
             w = with_serials serials' (with_consoles consoles' w) /\
             only_first_path_differs (def_consoles (vm_def (w_vm w))) consoles' /\
             only_first_path_differs (def_serials (vm_def (w_vm w))) serials').
  { exists (def_consoles (vm_def (w_vm w))), (def_serials (vm_def (w_vm w))).
    rewrite with_consoles_same, with_serials_same.
    split; [reflexivity|]. split; now left. }
  destruct (monitor_get_info (e_mon env)) as [info|]; [|exact Hsame].
  cbn [world fst snd].
  destruct (virJSONValueObjectGet info "config") as [config|] eqn:Hcfg.
  - rewrite update_console_world by (rewrite Hcfg; discriminate).
    eexists. eexists. split; [reflexivity|]. split.
    + destruct (reported_path info "console");
        [apply set_first_chr_path_differs | now left].
    + destruct (reported_path info "serial"); [|now left].
      destruct (first_serial_is_unix (w_vm w)) as [[|]|];
        first [now left | apply set_first_chr_path_differs].
  - rewrite update_console_no_config by exact Hcfg. exact Hsame.
Qed.

(** With a source on the first serial port the update returns. *)
Lemma update_info_returns env w :
  first_serial_has_source (w_vm w) = true ->
  result (virCHProcessUpdateInfo env w)
  = match monitor_get_info (e_mon env) with Some _ => Some 0 | None => Some (-1) end.
Proof.
  intros Hsrc. rewrite update_info_run.
  destruct (monitor_get_info (e_mon env)) as [info|]; [|reflexivity].
  cbn [result fst]. rewrite update_console_result, Hsrc.
  now destruct (virJSONValueObjectGet info "config").
Qed.

(** X1.  Provided the first serial port, if there is one, has a source,
    virCHProcessUpdateInfo returns and has changed nothing in the domain
    object or the kernel state except, at most, the file path of the first
    console and of the first serial port; their number, their type and every
    further element stay as they were. *)
Theorem virCHProcessUpdateInfo_changes_only_chr_paths env w :
  first_serial_has_source (w_vm w) = true ->
  let out := virCHProcessUpdateInfo env w in
  result out <> None /\
  exists consoles' serials',
    world out = with_serials serials' (with_consoles consoles' w) /\
    only_first_path_differs (def_consoles (vm_def (w_vm w))) consoles' /\
    only_first_path_differs (def_serials (vm_def (w_vm w))) serials'.
Proof.
  intros Hsrc. cbv zeta. split.
  - rewrite (update_info_returns env w Hsrc).
    destruct (monitor_get_info (e_mon env)); discriminate.
  - exact (update_info_world_shape env w).
Qed.

Lemma virCHProcessUpdateInfo_changes_only_chr_paths_witness :
  first_serial_has_source (w_vm world_ptys) = true /\
  result (virCHProcessUpdateInfo env_info_ptys world_ptys) <> None /\
  exists consoles' serials',
    world (virCHProcessUpdateInfo env_info_ptys world_ptys)
    = with_serials serials' (with_consoles consoles' world_ptys) /\
    only_first_path_differs [chr_pty] consoles' /\
    only_first_path_differs [chr_pty] serials'.
Proof.
  split; [reflexivity|].
  exact (virCHProcessUpdateInfo_changes_only_chr_paths env_info_ptys world_ptys
           eq_refl).
Defined.

(** X2.  The three ways virCHProcessUpdateInfo ends.  It returns -1 exactly
    when the info query fails, and then it has changed nothing.  The process
    ends in the unchecked read of the serial source exactly when the query
    answers with a document that has a [config] member and the first serial
    port of the domain has no source.  In every other case it returns 0
    whatever the document holds: what is missing or ill-typed in it is
    reported, with at most one internal error per device, and not
    propagated. *)
Theorem virCHProcessUpdateInfo_swallows_errors env w :
  let out := virCHProcessUpdateInfo env w in
  (result out = Some (-1) <-> monitor_get_info (e_mon env) = None) /\
  (result out = None <->
   exists info config,
     monitor_get_info (e_mon env) = Some info /\
     virJSONValueObjectGet info "config" = Some config /\
     first_serial_has_source (w_vm w) = false) /\
  (monitor_get_info (e_mon env) = None ->
     out = (Some (-1), w, [EvMonitorGetInfo false])) /\
  (forall info, monitor_get_info (e_mon env) = Some info ->
     result out <> None ->
     result out = Some 0 /\
     exists errs,
       events out = EvMonitorGetInfo true :: errs /\
       forallb is_internal_error errs = true /\
       (List.length errs <= 2)%nat /\
       (forall pc ps, reported_path info "console" = Some pc ->
                      reported_path info "serial" = Some ps -> errs = [])).
Proof.
  cbv zeta. rewrite update_info_run.
  destruct (monitor_get_info (e_mon env)) as [info|]; cbn [result events fst snd].
  - rewrite update_console_result.
    split; [split; [|discriminate]|].
    { destruct (virJSONValueObjectGet info "config");
        [destruct (first_serial_has_source (w_vm w))|]; discriminate. }
    split; [split|].
    + destruct (virJSONValueObjectGet info "config") as [config|] eqn:Hcfg;
        [|discriminate].
      destruct (first_serial_has_source (w_vm w)) eqn:Hsrc; [discriminate|].
      intros _. now exists info, config.
    + intros (info' & config & [= <-] & -> & ->). reflexivity.
    + split; [discriminate|]. intros info' [= <-] Hret. split.
      * destruct (virJSONValueObjectGet info "config");
          [destruct (first_serial_has_source (w_vm w))|];
          first [reflexivity | now contradiction Hret].
      * exists (events (virCHProcessUpdateConsole info w)).
        split; [reflexivity|]. exact (update_console_errors info w).
  - split; [split; reflexivity|]. split; [split; [discriminate|]|].
    + intros (info & config & H & _). discriminate H.
    + split; [reflexivity|]. discriminate.
Qed.

(** X3.  Provided the first serial port, if there is one, has a source:
    when the info query answers, virCHProcessUpdateInfo returns 0, and
    when the document holds a string at [config.console.file] it stores
    that string as the path of the first console, when that console has a
    source; likewise [config.serial.file] for the first serial port, unless
    that port is backed by a UNIX socket.  The type of the device is kept. *)
Theorem virCHProcessUpdateInfo_records_paths env w info :
  monitor_get_info (e_mon env) = Some info ->
  first_serial_has_source (w_vm w) = true ->
  let out := virCHProcessUpdateInfo env w in
  let vm := w_vm w in
  let vm' := w_vm (world out) in
  result out = Some 0 /\
  (forall path chr src rest,
     reported_path info "console" = Some path ->
     def_consoles (vm_def vm) = chr :: rest ->
     chr_source chr = Some src ->
     def_consoles (vm_def vm')
     = mkChr (Some (mkChrSource (chr_type src) (Some path))) :: rest) /\
  (forall path chr src rest,
     reported_path info "serial" = Some path ->
     def_serials (vm_def vm) = chr :: rest ->
     chr_source chr = Some src ->
     chr_type src <> VIR_DOMAIN_CHR_TYPE_UNIX ->
     def_serials (vm_def vm')
     = mkChr (Some (mkChrSource (chr_type src) (Some path))) :: rest).
Proof.
  intros Hinfo Hsrc. cbv zeta. split.
  { rewrite (update_info_returns env w Hsrc), Hinfo. reflexivity. }
  rewrite update_info_run, Hinfo. cbn [result world fst snd]. split.
  - intros path chr src rest Hp Hc Hs.
    rewrite update_console_world
      by (unfold reported_path in Hp;
          destruct (virJSONValueObjectGet info "config"); discriminate).
    rewrite Hp. cbn. rewrite Hc. cbn. now rewrite Hs.
  - intros path chr src rest Hp Hc Hs Ht.
    rewrite update_console_world
      by (unfold reported_path in Hp;
          destruct (virJSONValueObjectGet info "config"); discriminate).
    rewrite Hp. cbn.
    assert (Hu : first_serial_is_unix (w_vm w) = Some false).
    { unfold first_serial_is_unix. rewrite Hc, Hs.
      destruct (chr_type src); [reflexivity..|contradiction]. }
    rewrite Hu, Hc. cbn. now rewrite Hs.
Qed.

Lemma virCHProcessUpdateInfo_records_paths_witness :
  monitor_get_info (e_mon env_info_ptys) = Some info_with_ptys /\
  first_serial_has_source (w_vm world_ptys) = true /\
  result (virCHProcessUpdateInfo env_info_ptys world_ptys) = Some 0 /\
  def_consoles (vm_def (w_vm (world (virCHProcessUpdateInfo env_info_ptys world_ptys))))
  = [mkChr (Some (mkChrSource VIR_DOMAIN_CHR_TYPE_PTY (Some "/dev/pts/3")))] /\
  def_serials (vm_def (w_vm (world (virCHProcessUpdateInfo env_info_ptys world_ptys))))
  = [mkChr (Some (mkChrSource VIR_DOMAIN_CHR_TYPE_PTY (Some "/dev/pts/4")))].
Proof.
  destruct (virCHProcessUpdateInfo_records_paths env_info_ptys world_ptys
              info_with_ptys eq_refl eq_refl) as (Hres & Hcons & Hser).
  split; [reflexivity|]. split; [reflexivity|]. split; [exact Hres|]. split.
  - exact (Hcons "/dev/pts/3" chr_pty
             (mkChrSource VIR_DOMAIN_CHR_TYPE_PTY None) [] eq_refl eq_refl eq_refl).
  - refine (Hser "/dev/pts/4" chr_pty
              (mkChrSource VIR_DOMAIN_CHR_TYPE_PTY None) [] eq_refl eq_refl eq_refl _).
    discriminate.
Defined.

(** X4.  A first serial port backed by a UNIX socket is never touched:
    whatever the info query answers, the serial ports are left as they
    were, and nothing is reported about [config.serial]. *)
Theorem virCHProcessUpdateInfo_skips_unix_serial env w chr src rest :
  def_serials (vm_def (w_vm w)) = chr :: rest ->
  chr_source chr = Some src ->
  chr_type src = VIR_DOMAIN_CHR_TYPE_UNIX ->
  let out := virCHProcessUpdateInfo env w in
  def_serials (vm_def (w_vm (world out))) = chr :: rest /\
  (forall info pc,
     monitor_get_info (e_mon env) = Some info ->
     reported_path info "console" = Some pc ->
     events out = [EvMonitorGetInfo true]).
Proof.
  intros Hc Hs Ht. cbv zeta.
  assert (Hu : first_serial_is_unix (w_vm w) = Some true).
  { unfold first_serial_is_unix. now rewrite Hc, Hs, Ht. }
  rewrite update_info_run.
  destruct (monitor_get_info (e_mon env)) as [info|];
    [|split; [exact Hc | discriminate]].
  cbn [world events fst snd]. split.
  - destruct (virJSONValueObjectGet info "config") as [config|] eqn:Hcfg.
    + rewrite update_console_world by (rewrite Hcfg; discriminate).
      rewrite Hu. cbn. destruct (reported_path info "serial"); exact Hc.
    + rewrite update_console_no_config by exact Hcfg. exact Hc.
  - intros info' pc [= <-] Hp. f_equal.
    unfold reported_path in Hp.
    destruct (virJSONValueObjectGet info "config") as [config|] eqn:Hcfg;
      [|discriminate].
    rewrite (update_console_run_config info config w Hcfg), Hc, Hu, Hp.
    cbn [events snd]. now destruct (def_consoles (vm_def (w_vm w))).
Qed.

Lemma virCHProcessUpdateInfo_skips_unix_serial_witness :
  def_serials (vm_def (w_vm (world (virCHProcessUpdateInfo env_info_ptys
                                       world_unix_serial))))
  = [chr_unix] /\
  events (virCHProcessUpdateInfo env_info_ptys world_unix_serial)
  = [EvMonitorGetInfo true].
Proof.
  destruct (virCHProcessUpdateInfo_skips_unix_serial env_info_ptys
              world_unix_serial chr_unix
              (mkChrSource VIR_DOMAIN_CHR_TYPE_UNIX (Some "/run/vm1.serial")) []
              eq_refl eq_refl eq_refl) as (Hser & Hev).
  split; [exact Hser|].
  exact (Hev info_with_ptys "/dev/pts/3" eq_refl eq_refl).
Defined.

(* ================================================================== *)
(** ** More on the receive path *)
(* ================================================================== *)

Lemma recv_retry_skip_err fd len rintrs errno rest :
  forallb recv_interrupted rintrs = true ->
  errno <> EINTR ->
  recv_retry fd len (rintrs ++ RecvErr errno :: rest)
  = ((-1, errno, []), rest, map (EvRecv fd len) (rintrs ++ [RecvErr errno])).
Proof.
  intros Hall Hne. induction rintrs as [|o tl IH]; simpl in *.
  - destruct (errno =? EINTR) eqn:E; [apply Z.eqb_eq in E; contradiction|].
    reflexivity.
  - apply andb_prop in Hall as [H0 Htl]. destruct o as [e|p]; simpl in H0.
    + rewrite H0, (IH Htl). reflexivity.
    + discriminate.
Qed.

Lemma no_error_recvs fd len l :
  existsb is_error_report (map (EvRecv fd len) l) = false.
Proof. induction l; [reflexivity | exact IHl]. Qed.

(** X5.  Once the socket is readable, a [recv] that fails with EINTR is
    issued again; the first failure with another error code ends the call:
    chSocketRecv reports that code as a system error and returns NULL, and
    the answers that were still to come stay queued. *)
Theorem chSocketRecv_recv_failure sock w eintrs r errno rest rintrs rerrno rrest :
  w_poll w = eintrs ++ (r, errno) :: rest ->
  forallb interrupted eintrs = true ->
  0 < r ->
  w_recv w = rintrs ++ RecvErr rerrno :: rrest ->
  forallb recv_interrupted rintrs = true ->
  rerrno <> EINTR ->
  let out := chSocketRecv sock w in
  result out = None /\
  events out
  = map (poll_event sock) (eintrs ++ [(r, errno)])
    ++ map (EvRecv sock 1023) (rintrs ++ [RecvErr rerrno])
    ++ [EvReportSystemError rerrno "recv on sock %1$d failed"] /\
  world out = mkWorld (w_vm w) (w_fds w) rest rrest.
Proof.
  intros Hp Hall Hr Hrecv Hrall Hne. cbv zeta.
  assert (Hni : interrupted (r, errno) = false).
  { unfold interrupted; cbn [fst snd].
    destruct (r <? 0) eqn:E; [apply Z.ltb_lt in E; lia | reflexivity]. }
  assert (Hrun : chSocketRecv sock w
                 = (None, mkWorld (w_vm w) (w_fds w) rest rrest,
                    map (poll_event sock) (eintrs ++ [(r, errno)])
                    ++ map (EvRecv sock 1023) (rintrs ++ [RecvErr rerrno])
                    ++ [EvReportSystemError rerrno "recv on sock %1$d failed"])).
  { unfold chSocketRecv, bind, poll_loop, recv_loop.
    rewrite Hp, (poll_retry_skip _ _ _ _ _ Hall Hni).
    destruct (r <=? 0) eqn:E; [apply Z.leb_le in E; lia|].
    cbn [w_recv]. change (1024 - 1)%nat with 1023%nat.
    rewrite Hrecv, (recv_retry_skip_err _ _ _ _ _ Hrall Hne).
    change (-1 <? 0) with true. cbv iota.
    cbn [virReportSystemError emit ret]. rewrite app_nil_r. reflexivity. }
  rewrite Hrun. repeat split.
Qed.

Lemma chSocketRecv_recv_failure_witness :
  result (chSocketRecv 5 world_recv_reset) = None /\
  events (chSocketRecv 5 world_recv_reset)
  = [EvPoll 5 500 1 0;
     EvRecv 5 1023 (RecvErr EINTR); EvRecv 5 1023 (RecvErr ECONNRESET);
     EvReportSystemError ECONNRESET "recv on sock %1$d failed"] /\
  w_recv (world (chSocketRecv 5 world_recv_reset)) = [RecvData response_204].
Proof.
  assert (Hr : 0 < 1) by lia.
  assert (Hne : ECONNRESET <> EINTR) by discriminate.
  destruct (chSocketRecv_recv_failure 5 world_recv_reset [] 1 0 []
              [RecvErr EINTR] ECONNRESET [RecvData response_204]
              eq_refl eq_refl Hr eq_refl eq_refl Hne) as (Hres & Hev & Hw).
  split; [exact Hres|]. split; [exact Hev|]. rewrite Hw. reflexivity.
Defined.

Lemma received_buffer_terminated pending :
  nth 1023 (received_buffer pending) NUL = NUL.
Proof.
  unfold received_buffer.
  pose proof (firstn_le_length 1023 pending) as Hle.
  rewrite app_nth2 by lia. apply nth_repeat.
Qed.

Lemma poll_retry_quiet fd script :
  existsb is_error_report (snd (poll_retry fd script)) = false.
Proof. exact (proj2 (poll_retry_no_recv fd script)). Qed.

Lemma recv_retry_quiet fd len script :
  existsb is_error_report (snd (recv_retry fd len script)) = false.
Proof.
  induction script as [|o tl IH]; [reflexivity|].
  destruct o as [errno|pending]; cbn; [|reflexivity].
  destruct (errno =? EINTR); [|reflexivity].
  destruct (recv_retry fd len tl) as [[res rest'] evs]. exact IH.
Qed.

(** X6.  The contract of chSocketRecv on every run.  It returns NULL exactly
    when it has reported a system error, and the report is the last thing it
    does.  A buffer it returns is 1024 bytes long and its last byte is NUL,
    so that it always holds a terminated string.  The domain object and the
    set of open descriptors are left as they were: the socket is not
    closed. *)
Theorem chSocketRecv_contract sock w :
  let out := chSocketRecv sock w in
  match result out with
  | None =>
      exists pre errno msg,
        events out = pre ++ [EvReportSystemError errno msg] /\
        existsb is_error_report pre = false
  | Some buf =>
      List.length buf = 1024%nat /\
      nth 1023 buf NUL = NUL /\
      existsb is_error_report (events out) = false
  end /\
  w_vm (world out) = w_vm w /\
  w_fds (world out) = w_fds w.
Proof.
  cbv zeta. unfold chSocketRecv, bind, poll_loop, recv_loop.
  pose proof (poll_retry_quiet sock (w_poll w)) as Hp.
  destruct (poll_retry sock (w_poll w)) as [[[r e] prest] pevs].
  cbn [snd] in Hp.
  destruct (r <=? 0).
  - destruct (r <? 0); cbn; (split; [|split; reflexivity]);
      exists pevs; eauto.
  - cbn [w_recv]. change (1024 - 1)%nat with 1023%nat.
    pose proof (recv_retry_quiet sock 1023 (w_recv w)) as Hq.
    pose proof (recv_retry_shape sock 1023 (w_recv w)) as Hs.
    destruct (recv_retry sock 1023 (w_recv w)) as [[[[r' e'] data] rrest] revs].
    cbn [snd] in Hq. destruct Hs as [Hok _].
    destruct (r' <? 0) eqn:E.
    + cbn. split; [|split; reflexivity].
      exists (pevs ++ revs), e', "recv on sock %1$d failed".
      rewrite ?app_nil_r, ?app_assoc. split; [reflexivity|].
      now rewrite existsb_app, Hp, Hq.
    + apply Z.ltb_ge in E. destruct (Hok E) as (pending & intr & _ & _ & -> & _).
      cbn [ret result world events fst snd w_vm w_fds].
      rewrite received_buffer_eq. split; [|split; reflexivity].
      split; [apply received_buffer_length|].
      split; [apply received_buffer_terminated|].
      now rewrite ?app_nil_r, existsb_app, Hp, Hq.
Qed.

(* ================================================================== *)
(** ** virCHProcessInitCpuAffinity *)
(* ================================================================== *)

(** The call once the mask has been chosen. *)
Lemma init_affinity_shape env w :
  WITH_SCHED_GETAFFINITY (e_host env) = true ->
  vm_pid (w_vm w) <> 0 ->
  exists rc cpumap,
    virCHProcessInitCpuAffinity env w
    = (if rc <? 0 then (-1, w, [])
       else
         match cpumap with
         | Some m =>
             let r := process_set_affinity (e_host env) (vm_pid (w_vm w)) m in
             (if r <? 0 then -1 else 0, w, [EvSetAffinity (vm_pid (w_vm w)) m r])
         | None => (0, w, [])
         end).
Proof.
  intros HW Hpid. unfold virCHProcessInitCpuAffinity. rewrite HW. cbn [negb].
  unfold bind, get_vm. cbv beta iota zeta.
  destruct (vm_pid (w_vm w) =? 0) eqn:E; [apply Z.eqb_eq in E; contradiction|].
  match goal with
  | |- context [match ?sel with (_, _) => _ end] =>
      match type of sel with
      | (Z * option _)%type =>
          match sel with
          | context [ct_emulatorpin] => destruct sel as [rc0 cpumap0]
          end
      end
  end.
  exists rc0, cpumap0. rename rc0 into rc, cpumap0 into cpumap. destruct (rc <? 0); [reflexivity|].
  destruct cpumap as [m|]; [|reflexivity].
  unfold virProcessSetAffinity, bind, emit, ret. cbv zeta.
  destruct (process_set_affinity (e_host env) (vm_pid (w_vm w)) m <? 0); reflexivity.
Qed.

(** X7.  virCHProcessInitCpuAffinity never changes the domain object.  In a
    build without affinity support it does nothing and succeeds.  Otherwise
    it refuses a domain whose pid is 0 with an internal error, and makes at
    most one affinity call, on the pid of the domain; when it makes the
    call, it succeeds exactly when the call does. *)
Theorem virCHProcessInitCpuAffinity_one_call_on_vm_pid env w :
  let out := virCHProcessInitCpuAffinity env w in
  world out = w /\
  (result out = 0 \/ result out = -1) /\
  (WITH_SCHED_GETAFFINITY (e_host env) = false -> out = (0, w, [])) /\
  (WITH_SCHED_GETAFFINITY (e_host env) = true -> vm_pid (w_vm w) = 0 ->
     out = (-1, w, [pid_required_error])) /\
  (events out = [] \/ events out = [pid_required_error] \/
   exists m rc,
     events out = [EvSetAffinity (vm_pid (w_vm w)) m rc] /\
     vm_pid (w_vm w) <> 0 /\
     rc = process_set_affinity (e_host env) (vm_pid (w_vm w)) m /\
     (result out = 0 <-> 0 <= rc)).
Proof.
  cbv zeta.
  destruct (WITH_SCHED_GETAFFINITY (e_host env)) eqn:HW.
  2:{ unfold virCHProcessInitCpuAffinity. rewrite HW. cbn.
      repeat split; auto; discriminate. }
  destruct (Z.eq_dec (vm_pid (w_vm w)) 0) as [Hpid|Hpid].
  { unfold virCHProcessInitCpuAffinity. rewrite HW. cbn [negb].
    unfold bind, get_vm. cbv beta iota zeta. rewrite Hpid. cbn.
    repeat split; auto; discriminate. }
  destruct (init_affinity_shape env w HW Hpid) as (rc & cpumap & ->).
  destruct (rc <? 0).
  { cbn. repeat split; auto; try discriminate. intros _ H; contradiction. }
  destruct cpumap as [m|].
  2:{ cbn. repeat split; auto; try discriminate. intros _ H; contradiction. }
  cbv zeta.
  destruct (process_set_affinity (e_host env) (vm_pid (w_vm w)) m <? 0) eqn:E;
    cbn [result world events fst snd].
  - apply Z.ltb_lt in E.
    split; [reflexivity|]. split; [now right|]. split; [discriminate|].
    split; [intros _ H; contradiction|]. right; right.
    exists m, (process_set_affinity (e_host env) (vm_pid (w_vm w)) m).
    repeat split; auto; [discriminate | lia].
  - apply Z.ltb_ge in E.
    split; [reflexivity|]. split; [now left|]. split; [discriminate|].
    split; [intros _ H; contradiction|]. right; right.
    exists m, (process_set_affinity (e_host env) (vm_pid (w_vm w)) m).
    repeat split; auto.
Qed.



(* ================================================================== *)
(** ** virCHProcessStartValidate and the order of the teardown *)
(* ================================================================== *)

(** X9.  virCHProcessStartValidate accepts a domain exactly when its
    virtualization type is KVM or Hyper-V and the host capabilities support
    that type.  It never changes the domain; a refusal is reported as one
    ConfigUnsupported error, an acceptance reports nothing. *)
Theorem virCHProcessStartValidate_supported_types env w :
  let out := virCHProcessStartValidate env w in
  let t := def_virtType (vm_def (w_vm w)) in
  world out = w /\
  (result out = 0 <->
   is_kvm_or_hyperv t = true /\ caps_domain_supported (e_host env) t = true) /\
  (result out = 0 -> events out = []) /\
  (result out <> 0 ->
   result out = -1 /\
   exists msg, events out = [EvReportError VIR_ERR_CONFIG_UNSUPPORTED msg]).
Proof.
  cbv zeta. unfold virCHProcessStartValidate, virReportError.
  unfold bind, get_vm, emit, ret. cbv beta iota zeta.
  destruct (def_virtType (vm_def (w_vm w))) eqn:Et; cbn [is_kvm_or_hyperv].
  all: match goal with
       | |- context [caps_domain_supported ?h ?t] =>
           destruct (caps_domain_supported h t)
       end.
  all: cbn [negb result world events fst snd app].
  all: split; [reflexivity|].
  all: split; [split; [try discriminate; auto | intros [? ?]; try discriminate; auto]|].
  all: split; [try discriminate; auto|].
  all: intros H;
    first [contradiction | split; [reflexivity | eexists; reflexivity]].
Qed.

Lemma cgroup_remove_retry_events env fuel : forall retries w,
  let evs := events (cgroup_remove_retry env fuel retries w) in
  forallb is_removal_event evs = true /\
  hd_error evs = Some (EvCgroupRemoveCgroup (cgroup_remove_cgroup (e_cg env) retries)).
Proof.
  induction fuel as [|fuel IH]; intros retries w; cbv zeta;
    rewrite cgroup_remove_retry_unfold;
    unfold virDomainCgroupRemoveCgroup, VIR_WARN, bind, emit, ret;
    cbv beta iota zeta;
    destruct (cgroup_remove_cgroup (e_cg env) retries <? 0);
    try destruct ((cgroup_remove_cgroup (e_cg env) retries =? - EBUSY)
                  && Nat.ltb retries 5);
    try (split; reflexivity).
  specialize (IH (S retries) w). cbv zeta in IH. destruct IH as [IH _].
  destruct (cgroup_remove_retry env fuel (S retries) w) as [[u w'] evs].
  cbn in *. now rewrite IH.
Qed.

(** X10.  The order of the teardown in virCHProcessStop: the monitor is
    closed when one is held, the host-side devices are stopped, the device
    of every interface is deleted in the order of the definition, and only
    then is the cgroup removed.  The status of stopping the devices is
    ignored.  Of the domain object only the pid, the id, the monitor, the
    machine name and the state change; the cgroup handle and the open
    descriptors are left as they were. *)
Theorem virCHProcessStop_teardown_order env reason w :
  let out := virCHProcessStop env reason w in
  let vm := w_vm w in
  (exists removal,
     events out
     = match priv_monitor vm with Some _ => [EvMonitorClose] | None => [] end
       ++ [EvInterfaceStopDevices (net_stop_devices (e_net env))]
       ++ map EvInterfaceDeleteDevice (def_nets (vm_def vm))
       ++ removal /\
     forallb is_removal_event removal = true /\
     hd_error removal
     = Some (EvCgroupRemoveCgroup (cgroup_remove_cgroup (e_cg env) 0))) /\
  world out = mkWorld (stopped reason vm) (w_fds w) (w_poll w) (w_recv w).
Proof.
  cbv zeta. rewrite virCHProcessStop_run. cbn [events world fst snd]. split.
  - exists (events (cgroup_remove_retry env 5 0 w)).
    split; [reflexivity|]. exact (cgroup_remove_retry_events env 5 0 w).
  - reflexivity.
Qed.

(* ================================================================== *)
(** ** virCHProcessSetupPid as the execution of a plan *)
(* ================================================================== *)

Lemma run_until_failure_app l1 l2 :
  run_until_failure (l1 ++ l2)
  = if forallb call_succeeded l1 then l1 ++ run_until_failure l2
    else run_until_failure l1.
Proof.
  induction l1 as [|e l1 IH]; [reflexivity|]. cbn.
  destruct (call_succeeded e); cbn; [|reflexivity].
  rewrite IH. destruct (forallb call_succeeded l1); reflexivity.
Qed.

Lemma run_until_failure_all l :
  forallb call_succeeded l = true -> run_until_failure l = l.
Proof.
  induction l as [|e l IH]; [reflexivity|]. cbn.
  destruct (call_succeeded e); [|discriminate]. cbn. intros H. now rewrite IH.
Qed.

Ltac plan_simpl :=
  cbv beta iota zeta;
  cbn [app forallb run_until_failure call_succeeded negb andb];
  change (-1 <? 0) with true; change (0 <? 0) with false;
  cbv beta iota zeta;
  cbn [app forallb run_until_failure call_succeeded negb andb].

Ltac plan_step :=
  plan_simpl;
  match goal with
  | |- context [?x <? 0] => is_atomic_test x; destruct (x <? 0) eqn:?
  | |- context [match ?x with _ => _ end] => is_atomic_test x; destruct x eqn:?
  end.

Ltac use_tests :=
  repeat match goal with
         | H : (_ <? 0) = _ |- _ => rewrite H in *; clear H
         | H : _ = Some _ |- _ => rewrite H in *; clear H
         | H : _ = None |- _ => rewrite H in *; clear H
         end.

Lemma setup_pid_cgroup_plan env vm pid nameval id use_cpumask period quota w :
  thread_cgroup_needed vm && mem_mask_fails env = false ->
  let plan := planned_cgroup_calls env vm pid nameval id use_cpumask period quota in
  setup_pid_cgroup env vm pid nameval id use_cpumask period quota w
  = ((if forallb call_succeeded plan then 0 else -1,
      thread_cgroup env vm nameval id),
     w, run_until_failure plan).
Proof.
  cbv zeta. unfold mem_mask_fails, setup_pid_cgroup, planned_cgroup_calls,
    thread_cgroup, thread_cgroup_needed, mem_mask_of, mem_mask_needed,
    virCgroupAddThread, virDomainCgroupSetupCpusetCpus, virCgroupSetCpusetMems,
    virDomainCgroupSetupVcpuBW.
  unfold bind, emit, ret. intros Hmm.
  destruct (virCgroupHasController (priv_cgroup vm) VIR_CGROUP_CONTROLLER_CPU
            || virCgroupHasController (priv_cgroup vm) VIR_CGROUP_CONTROLLER_CPUSET);
    [|reflexivity].
  cbn [andb] in Hmm.
  destruct (numatune_maybe_format_nodeset (e_host env)) as [frc mem_mask].
  cbn [fst snd] in *.
  repeat plan_step.
  all: cbn [fst snd andb] in Hmm; try discriminate Hmm.
  all: plan_simpl; try reflexivity.
  all: try match goal with
           | H : false = true |- _ => discriminate H
           | H : true = false |- _ => discriminate H
           | H : (0 <? 0) = true |- _ => discriminate H
           | H : (-1 <? 0) = false |- _ => discriminate H
           end.
Qed.

Lemma setup_pid_cgroup_mem_mask_fails env vm pid nameval id use_cpumask period quota w :
  thread_cgroup_needed vm && mem_mask_fails env = true ->
  setup_pid_cgroup env vm pid nameval id use_cpumask period quota w
  = ((-1, None), w, []).
Proof.
  unfold mem_mask_fails, mem_mask_needed, setup_pid_cgroup, thread_cgroup_needed.
  intros H. apply andb_prop in H as [-> H]. apply andb_prop in H as [Hm Hf].
  destruct (numatune_get_mode (e_host env)) as [[]|]; try discriminate Hm;
    destruct (numatune_maybe_format_nodeset (e_host env)) as [frc mem_mask];
    cbn [fst] in Hf; rewrite Hf; reflexivity.
Qed.

Lemma setup_pid_affinity_plan env pid nameval use_cpumask affinity_cpumask sched w :
  let mask :=
    match affinity_cpumask with None => use_cpumask | Some _ => affinity_cpumask end in
  let plan := planned_affinity_calls env pid nameval mask sched in
  setup_pid_affinity_sched env pid nameval use_cpumask affinity_cpumask sched w
  = (if forallb call_succeeded plan then 0 else -1, w, run_until_failure plan).
Proof.
  cbv zeta. unfold setup_pid_affinity_sched, planned_affinity_calls,
    virProcessSetAffinity, virProcessSetScheduler.
  unfold bind, emit, ret.
  destruct (is_emulator_thread nameval); cbn [negb].
  all: repeat plan_step.
  all: plan_simpl; try reflexivity.
  all: try match goal with
           | H : false = true |- _ => discriminate H
           | H : true = false |- _ => discriminate H
           | H : (0 <? 0) = true |- _ => discriminate H
           | H : (-1 <? 0) = false |- _ => discriminate H
           end.
Qed.

Lemma infer_cpumask_fails env vm cpumask :
  infer_cpumask env vm cpumask
  = (if falls_back_to_host vm cpumask && host_cpus_unavailable env then -1 else 0,
     mask_by_priority vm cpumask,
     if falls_back_to_host vm cpumask then all_online_cpus env else None).
Proof.
  unfold infer_cpumask, virCHProcessGetAllCpuAffinity, falls_back_to_host,
    host_cpus_unavailable, mask_by_priority, all_online_cpus.
  destruct cpumask as [m|]; [reflexivity|].
  destruct (is_placement_auto _); [reflexivity|].
  destruct (def_cpumask _); [reflexivity|]. cbn [negb andb].
  destruct (host_cpu_has_bitmap _); [|reflexivity]. cbn [negb andb].
  destruct (host_cpu_online_bitmap _); reflexivity.
Qed.

Lemma affinity_mask_resolved env vm cpumask :
  match (if falls_back_to_host vm cpumask then all_online_cpus env else None) with
  | None => mask_by_priority vm cpumask
  | Some _ => if falls_back_to_host vm cpumask then all_online_cpus env else None
  end = mask_by_priority_with_host env vm cpumask.
Proof.
  unfold mask_by_priority_with_host.
  destruct (falls_back_to_host vm cpumask) eqn:E; [|reflexivity].
  destruct (all_online_cpus env); [reflexivity|].
  unfold falls_back_to_host in E. unfold mask_by_priority.
  destruct cpumask; [discriminate|].
  destruct (is_placement_auto _); [discriminate|].
  destruct (def_cpumask _); [discriminate | reflexivity].
Qed.

(** Every run of virCHProcessSetupPid. *)
Lemma setup_pid_follows_plan env pid nameval id cpumask period quota sched w :
  let vm := w_vm w in
  let plan := planned_calls env vm pid nameval id cpumask period quota sched in
  virCHProcessSetupPid env pid nameval id cpumask period quota sched w
  = if bandwidth_unsupported vm period quota then (-1, w, [bandwidth_error])
    else if falls_back_to_host vm cpumask && host_cpus_unavailable env
    then (-1, w, [])
    else if thread_cgroup_needed vm && mem_mask_fails env then (-1, w, [])
    else if forallb call_succeeded plan then (0, w, plan)
    else (-1, w,
          run_until_failure plan ++ removal_of (thread_cgroup env vm nameval id)).
Proof.
  cbv zeta. unfold bandwidth_unsupported.
  destruct ((negb (period =? 0) || negb (quota =? 0))
            && negb (virCgroupHasController (priv_cgroup (w_vm w))
                       VIR_CGROUP_CONTROLLER_CPU)) eqn:Hbw.
  { now apply setup_pid_check_fails. }
  unfold virCHProcessSetupPid, bind. cbn [get_vm]. rewrite Hbw.
  rewrite infer_cpumask_fails.
  destruct (falls_back_to_host (w_vm w) cpumask && host_cpus_unavailable env);
    [reflexivity|].
  change (0 <? 0) with false. cbv iota.
  destruct (thread_cgroup_needed (w_vm w) && mem_mask_fails env) eqn:Hmm.
  { rewrite setup_pid_cgroup_mem_mask_fails by exact Hmm. reflexivity. }
  rewrite setup_pid_cgroup_plan by exact Hmm. cbv beta iota zeta.
  unfold planned_calls. rewrite forallb_app, run_until_failure_app.
  set (pc := planned_cgroup_calls _ _ _ _ _ _ _ _).
  assert (Hnone : thread_cgroup env (w_vm w) nameval id = None ->
                  forallb call_succeeded pc = true -> pc = []).
  { subst pc. unfold thread_cgroup, planned_cgroup_calls.
    destruct (thread_cgroup_needed (w_vm w)); [|reflexivity].
    intros ->. discriminate. }
  destruct (forallb call_succeeded pc) eqn:Hpc.
  - change (0 <? 0) with false. cbv beta iota zeta.
    rewrite setup_pid_affinity_plan, affinity_mask_resolved.
    set (pa := planned_affinity_calls _ _ _ _ _).
    rewrite (run_until_failure_all pc Hpc). cbn [andb].
    destruct (forallb call_succeeded pa) eqn:Hpa.
    + change (0 <? 0) with false. cbv beta iota zeta.
      rewrite (run_until_failure_all pa Hpa).
      destruct (thread_cgroup env (w_vm w) nameval id); cbn;
        now rewrite ?app_nil_r.
    + change (-1 <? 0) with true. cbv beta iota zeta.
      destruct (thread_cgroup env (w_vm w) nameval id); cbn;
        now rewrite <- ?app_assoc, ?app_nil_r.
  - change (-1 <? 0) with true. cbn [andb]. cbv beta iota zeta.
    destruct (thread_cgroup env (w_vm w) nameval id); cbn;
      now rewrite <- ?app_assoc, ?app_nil_r.
Qed.

(* ================================================================== *)
(** ** Consequences of the plan *)
(* ================================================================== *)

Lemma run_until_failure_In l e : In e (run_until_failure l) -> In e l.
Proof.
  induction l as [|x l IH]; [auto|]. cbn.
  destruct (call_succeeded x); cbn; intros [H|H]; auto. contradiction.
Qed.

Lemma run_until_failure_split l : forall pre e post,
  run_until_failure l = pre ++ e :: post ->
  forallb call_succeeded pre = true /\ exists rest, l = pre ++ e :: rest.
Proof.
  induction l as [|x l IH]; intros pre e post H; cbn in H.
  - destruct pre; discriminate H.
  - destruct (call_succeeded x) eqn:Ex.
    + destruct pre as [|p pre]; cbn in H.
      * injection H as <- _. split; [reflexivity|]. now exists l.
      * injection H as <- H. destruct (IH _ _ _ H) as (Hok & rest & ->).
        cbn. rewrite Ex. split; [exact Hok|]. now exists rest.
    + destruct pre as [|p pre]; cbn in H.
      * injection H as <- _. split; [reflexivity|]. now exists l.
      * injection H as _ H. destruct pre; discriminate H.
Qed.

Lemma run_until_failure_fails l :
  forallb call_succeeded l = false ->
  exists pre e,
    run_until_failure l = pre ++ [e] /\
    forallb call_succeeded pre = true /\ call_succeeded e = false.
Proof.
  induction l as [|x l IH]; [discriminate|]. cbn.
  destruct (call_succeeded x) eqn:Ex; cbn.
  - intros H. destruct (IH H) as (pre & e & -> & Hok & He).
    exists (x :: pre), e. cbn. rewrite Ex. auto.
  - intros _. exists [], x. auto.
Qed.

Lemma preceded_check_sound a b tr : forall seen,
  preceded_check a b seen tr = true ->
  forall pre e post, tr = pre ++ e :: post -> b e = true ->
    seen = true \/ existsb a pre = true.
Proof.
  induction tr as [|x tr IH]; intros seen Hc pre e post Heq Hb.
  - destruct pre; discriminate Heq.
  - cbn in Hc. apply andb_prop in Hc as [Hx Hrest].
    destruct pre as [|p pre]; cbn in Heq.
    + injection Heq as -> _. rewrite Hb in Hx. now left.
    + injection Heq as -> Heq.
      destruct (IH _ Hrest _ _ _ Heq Hb) as [H|H].
      * apply orb_prop in H as [H|H]; [now left|]. right. cbn. now rewrite H.
      * right. cbn. rewrite H. apply orb_true_r.
Qed.

Ltac in_cases H :=
  lazymatch type of H with
  | In _ (_ ++ _) => apply in_app_or in H; destruct H as [H|H]; in_cases H
  | In _ (_ :: _) => destruct H as [H|H]; [subst | in_cases H]
  | In _ [] => contradiction
  | In _ (if ?b then _ else _) => destruct b eqn:?; in_cases H
  | In _ (match ?x with _ => _ end) => destruct x eqn:?; in_cases H
  | _ => idtac
  end.

Lemma forallb_In {A} (p : A -> bool) l x :
  forallb p l = true -> In x l -> p x = true.
Proof. intros H. exact (proj1 (forallb_forall p l) H x). Qed.

(** What the plan is made of. *)
Lemma planned_calls_kinds env vm pid nameval id cpumask period quota sched e :
  In e (planned_calls env vm pid nameval id cpumask period quota sched) ->
  match e with
  | EvCgroupNewThread n i ok =>
      n = nameval /\ i = id /\ thread_cgroup_needed vm = true /\
      ok = match cgroup_new_thread (e_cg env) nameval id with
           | Some _ => true | None => false end
  | EvCgroupAddThread cg p rc =>
      thread_cgroup env vm nameval id = Some cg /\ p = pid /\
      rc = cgroup_add_thread (e_cg env) cg pid
  | EvCgroupSetupCpusetCpus cg m rc =>
      thread_cgroup env vm nameval id = Some cg /\
      virCgroupHasController (priv_cgroup vm) VIR_CGROUP_CONTROLLER_CPUSET = true /\
      mask_by_priority vm cpumask = Some m /\
      rc = cgroup_setup_cpuset_cpus (e_cg env) cg m
  | EvCgroupSetCpusetMems cg mems rc =>
      thread_cgroup env vm nameval id = Some cg /\
      virCgroupHasController (priv_cgroup vm) VIR_CGROUP_CONTROLLER_CPUSET = true /\
      mem_mask_of env = Some mems /\
      rc = cgroup_set_cpuset_mems (e_cg env) cg mems
  | EvCgroupSetupVcpuBW cg p q rc =>
      thread_cgroup env vm nameval id = Some cg /\ p = period /\ q = quota /\
      rc = cgroup_setup_vcpu_bw (e_cg env) cg period quota
  | EvSetAffinity p m rc =>
      p = pid /\ mask_by_priority_with_host env vm cpumask = Some m /\
      rc = process_set_affinity (e_host env) pid m
  | EvSetScheduler p pol prio rc =>
      p = pid /\ is_emulator_thread nameval = false /\
      sched = Some (mkSched pol prio) /\
      rc = process_set_scheduler (e_host env) pid pol prio
  | _ => False
  end.
Proof.
  unfold planned_calls, planned_cgroup_calls, planned_affinity_calls, thread_cgroup.
  intros H. destruct sched as [[pol prio]|]; in_cases H; auto 6.
Qed.

Lemma planned_calls_no_removal env vm pid nameval id cpumask period quota sched e :
  In e (planned_calls env vm pid nameval id cpumask period quota sched) ->
  is_cgroup_remove e = false /\ is_error_report e = false.
Proof.
  intros H. apply planned_calls_kinds in H. destruct e; try contradiction; auto.
Qed.

(** In the plan every cgroup setting comes after the thread has been moved
    into the thread cgroup. *)
Lemma planned_calls_add_thread_first env vm pid nameval id cpumask period quota sched :
  preceded_check is_add_thread is_cgroup_setting false
    (planned_calls env vm pid nameval id cpumask period quota sched) = true.
Proof.
  unfold planned_calls, planned_cgroup_calls, planned_affinity_calls.
  destruct (thread_cgroup_needed vm);
    [destruct (cgroup_new_thread (e_cg env) nameval id);
     [destruct (virCgroupHasController (priv_cgroup vm) VIR_CGROUP_CONTROLLER_CPUSET);
      [destruct (mask_by_priority vm cpumask); destruct (mem_mask_of env)|]|]|];
    destruct (mask_by_priority_with_host env vm cpumask);
    destruct sched; try destruct (is_emulator_thread nameval); reflexivity.
Qed.

(* ================================================================== *)
(** ** Properties of virCHProcessSetupPid *)
(* ================================================================== *)

Lemma setup_pid_events_in_plan env pid nameval id cpumask period quota sched w e :
  In e (events (virCHProcessSetupPid env pid nameval id cpumask period quota sched w)) ->
  In e (planned_calls env (w_vm w) pid nameval id cpumask period quota sched) \/
  e = bandwidth_error \/
  exists cg, e = EvCgroupRemove cg /\
             thread_cgroup env (w_vm w) nameval id = Some cg.
Proof.
  rewrite setup_pid_follows_plan.
  destruct (bandwidth_unsupported _ _ _); [intros [<-|[]]; auto|].
  destruct (falls_back_to_host _ _ && host_cpus_unavailable _); [intros []|].
  destruct (thread_cgroup_needed _ && mem_mask_fails _); [intros []|].
  destruct (forallb call_succeeded _); cbn [events snd]; [auto|].
  intros H. apply in_app_or in H as [H|H].
  - left. now apply run_until_failure_In.
  - right. right. destruct (thread_cgroup env (w_vm w) nameval id) as [cg|];
      [|contradiction].
    destruct H as [<-|[]]. now exists cg.
Qed.

(** X11.  virCHProcessSetupPid as the execution of a plan.  It fails at
    once, with ConfigUnsupported, when a period or a quota is given and the
    cgroup lacks the CPU controller; it fails silently when it needs the
    online host CPUs and the host gives none, or when the memory node mask
    cannot be formatted.  Otherwise it makes the planned calls in their
    order up to the first one that fails, returns 0 exactly when none
    fails, and after a failure removes the thread cgroup when it holds
    one.  The domain object is never changed. *)
Theorem virCHProcessSetupPid_runs_plan_until_failure
    env pid nameval id cpumask period quota sched w :
  let vm := w_vm w in
  let plan := planned_calls env vm pid nameval id cpumask period quota sched in
  virCHProcessSetupPid env pid nameval id cpumask period quota sched w
  = if bandwidth_unsupported vm period quota then (-1, w, [bandwidth_error])
    else if falls_back_to_host vm cpumask && host_cpus_unavailable env
    then (-1, w, [])
    else if thread_cgroup_needed vm && mem_mask_fails env then (-1, w, [])
    else if forallb call_succeeded plan then (0, w, plan)
    else (-1, w,
          run_until_failure plan ++ removal_of (thread_cgroup env vm nameval id)).
Proof. exact (setup_pid_follows_plan env pid nameval id cpumask period quota sched w). Qed.

Lemma plan_starts_with_new_thread env vm pid nameval id cpumask period quota sched cg :
  thread_cgroup env vm nameval id = Some cg ->
  exists rest,
    planned_calls env vm pid nameval id cpumask period quota sched
    = EvCgroupNewThread nameval id true :: rest /\
    cgroup_new_thread (e_cg env) nameval id = Some cg.
Proof.
  unfold thread_cgroup, planned_calls, planned_cgroup_calls.
  destruct (thread_cgroup_needed vm); [|discriminate].
  intros ->. eexists. split; reflexivity.
Qed.

Lemma no_removal_in_run env vm pid nameval id cpumask period quota sched cg :
  ~ In (EvCgroupRemove cg)
       (run_until_failure
          (planned_calls env vm pid nameval id cpumask period quota sched)).
Proof.
  intros H. apply run_until_failure_In, planned_calls_no_removal in H.
  destruct H as [H _]. discriminate H.
Qed.

(** X12.  The cleanup of virCHProcessSetupPid.  A thread cgroup is removed
    only by a run that fails, and then as the last thing it does; a run that
    fails after it has created the thread cgroup always removes it, and a
    run that succeeds never removes anything. *)
Theorem virCHProcessSetupPid_removes_thread_cgroup_on_failure
    env pid nameval id cpumask period quota sched w :
  let out := virCHProcessSetupPid env pid nameval id cpumask period quota sched w in
  world out = w /\
  (result out = 0 \/ result out = -1) /\
  (result out = 0 -> forall cg, ~ In (EvCgroupRemove cg) (events out)) /\
  (result out = -1 -> In (EvCgroupNewThread nameval id true) (events out) ->
     exists cg pre,
       cgroup_new_thread (e_cg env) nameval id = Some cg /\
       events out = pre ++ [EvCgroupRemove cg] /\
       forall cg', ~ In (EvCgroupRemove cg') pre) /\
  (forall cg, In (EvCgroupRemove cg) (events out) ->
     result out = -1 /\ In (EvCgroupNewThread nameval id true) (events out)).
Proof.
  cbv zeta. rewrite setup_pid_follows_plan.
  set (plan := planned_calls _ _ _ _ _ _ _ _ _).
  destruct (bandwidth_unsupported _ _ _).
  { cbn. split; [reflexivity|]. split; [now right|]. split; [discriminate|].
    split; [intros _ [H|[]]; discriminate H|].
    intros cg [H|[]]. discriminate H. }
  destruct (falls_back_to_host _ _ && host_cpus_unavailable _).
  { cbn. split; [reflexivity|]. split; [now right|]. split; [discriminate|].
    split; [intros _ []|]. intros cg []. }
  destruct (thread_cgroup_needed _ && mem_mask_fails _).
  { cbn. split; [reflexivity|]. split; [now right|]. split; [discriminate|].
    split; [intros _ []|]. intros cg []. }
  destruct (forallb call_succeeded plan) eqn:Hok; cbn [result world events fst snd].
  - split; [reflexivity|]. split; [now left|]. split.
    + intros _ cg H. apply planned_calls_no_removal in H as [H _]. discriminate H.
    + split; [discriminate|]. intros cg H.
      apply planned_calls_no_removal in H as [H _]. discriminate H.
  - split; [reflexivity|]. split; [now right|]. split; [discriminate|]. split.
    + intros _ H. apply in_app_or in H as [H|H].
      * apply run_until_failure_In in H.
        pose proof (planned_calls_kinds _ _ _ _ _ _ _ _ _ _ H) as (_ & _ & Hn & Hc).
        cbv beta iota in Hn, Hc.
        destruct (cgroup_new_thread (e_cg env) nameval id) as [cg|] eqn:Ecg;
          [|discriminate Hc].
        exists cg, (run_until_failure plan). split; [reflexivity|].
        unfold thread_cgroup. rewrite Hn, Ecg. split; [reflexivity|].
        intros cg'. apply no_removal_in_run.
      * destruct (thread_cgroup env (w_vm w) nameval id); [|contradiction].
        destruct H as [H|[]]. discriminate H.
    + intros cg H. split; [reflexivity|]. apply in_app_or in H as [H|H].
      * now apply no_removal_in_run in H.
      * destruct (thread_cgroup env (w_vm w) nameval id) as [cg'|] eqn:Etc;
          [|contradiction].
        destruct (plan_starts_with_new_thread env (w_vm w) pid nameval id cpumask
                    period quota sched cg' Etc) as (rest & Hplan & _).
        apply in_or_app. left. fold plan in Hplan. rewrite Hplan. cbn. now left.
Qed.

(** X13.  The scheduler in virCHProcessSetupPid.  A scheduler is set only
    for the thread being placed, only when the caller gives scheduler
    parameters, with exactly those parameters, and never for an emulator
    thread.  A successful run for another kind of thread that was given
    parameters has set them, and the call has succeeded. *)
Theorem virCHProcessSetupPid_scheduler_not_for_emulator
    env pid nameval id cpumask period quota sched w :
  let out := virCHProcessSetupPid env pid nameval id cpumask period quota sched w in
  (forall p policy priority rc,
     In (EvSetScheduler p policy priority rc) (events out) ->
     p = pid /\
     nameval <> VIR_CGROUP_THREAD_EMULATOR /\
     sched = Some (mkSched policy priority) /\
     rc = process_set_scheduler (e_host env) pid policy priority) /\
  (result out = 0 ->
   nameval <> VIR_CGROUP_THREAD_EMULATOR ->
   forall s, sched = Some s ->
     let rc := process_set_scheduler (e_host env) pid (sched_policy s)
                 (sched_priority s) in
     In (EvSetScheduler pid (sched_policy s) (sched_priority s) rc) (events out) /\
     0 <= rc).
Proof.
  cbv zeta. split.
  - intros p policy priority rc H.
    apply setup_pid_events_in_plan in H as [H|[H|(cg & H & _)]];
      [|discriminate H..].
    apply planned_calls_kinds in H. destruct H as (-> & He & -> & ->).
    repeat split. intros ->. discriminate He.
  - rewrite setup_pid_follows_plan.
    destruct (bandwidth_unsupported _ _ _); [discriminate|].
    destruct (falls_back_to_host _ _ && host_cpus_unavailable _); [discriminate|].
    destruct (thread_cgroup_needed _ && mem_mask_fails _); [discriminate|].
    destruct (forallb call_succeeded _) eqn:Hok; [|discriminate].
    cbn [result events fst snd]. intros _ Hne s ->.
    assert (Hin : In (EvSetScheduler pid (sched_policy s) (sched_priority s)
                        (process_set_scheduler (e_host env) pid (sched_policy s)
                           (sched_priority s)))
                     (planned_calls env (w_vm w) pid nameval id cpumask period
                        quota (Some s))).
    { unfold planned_calls, planned_affinity_calls.
      apply in_or_app. right. apply in_or_app. right.
      destruct nameval; [now left | contradiction | now left]. }
    split; [exact Hin|].
    pose proof (forallb_In _ _ _ Hok Hin) as Hs. cbn in Hs.
    apply negb_true_iff, Z.ltb_ge in Hs. exact Hs.
Qed.


Lemma existsb_In {A} (p : A -> bool) l :
  existsb p l = true -> exists x, In x l /\ p x = true.
Proof. intros H. now apply existsb_exists. Qed.

Lemma plan_prefix_add_thread env vm pid nameval id cpumask period quota sched
    pre e rest :
  planned_calls env vm pid nameval id cpumask period quota sched = pre ++ e :: rest ->
  forallb call_succeeded pre = true ->
  is_cgroup_setting e = true ->
  exists cg rc,
    thread_cgroup env vm nameval id = Some cg /\
    In (EvCgroupAddThread cg pid rc) pre /\ 0 <= rc.
Proof.
  intros Hplan Hok He.
  pose proof (planned_calls_add_thread_first env vm pid nameval id cpumask
                period quota sched) as Hc.
  destruct (preceded_check_sound _ _ _ _ Hc _ _ _ Hplan He) as [H|H];
    [discriminate H|].
  apply existsb_In in H as (x & Hx & Hadd).
  destruct x; try discriminate Hadd.
  assert (Hin : In (EvCgroupAddThread cg pid0 ret0)
                   (planned_calls env vm pid nameval id cpumask period quota sched)).
  { rewrite Hplan. apply in_or_app. now left. }
  apply planned_calls_kinds in Hin. destruct Hin as (Hcg & -> & _).
  exists cg, ret0. split; [exact Hcg|]. split; [exact Hx|].
  pose proof (forallb_In _ _ _ Hok Hx) as Hs. cbn in Hs.
  apply negb_true_iff, Z.ltb_ge in Hs. exact Hs.
Qed.

(** X14.  In every run of virCHProcessSetupPid a setting is written to the
    thread cgroup (CPU set, memory nodes, bandwidth) only after the thread
    has been moved into that cgroup, and the move has succeeded. *)
Theorem virCHProcessSetupPid_moves_thread_before_settings
    env pid nameval id cpumask period quota sched w pre e post :
  events (virCHProcessSetupPid env pid nameval id cpumask period quota sched w)
  = pre ++ e :: post ->
  is_cgroup_setting e = true ->
  exists cg rc,
    thread_cgroup env (w_vm w) nameval id = Some cg /\
    In (EvCgroupAddThread cg pid rc) pre /\ 0 <= rc.
Proof.
  rewrite setup_pid_follows_plan.
  destruct (bandwidth_unsupported _ _ _).
  { cbn. intros H He. destruct pre as [|x pre]; cbn in H.
    - injection H as <- _. discriminate He.
    - injection H as _ H. destruct pre; discriminate H. }
  destruct (falls_back_to_host _ _ && host_cpus_unavailable _).
  { cbn. intros H. destruct pre; discriminate H. }
  destruct (thread_cgroup_needed _ && mem_mask_fails _).
  { cbn. intros H. destruct pre; discriminate H. }
  destruct (forallb call_succeeded _) eqn:Hok; cbn [events snd]; intros H He.
  - apply (plan_prefix_add_thread _ _ _ _ _ _ _ _ _ _ _ _ H); [|exact He].
    rewrite H, forallb_app in Hok. now apply andb_prop in Hok as [Hok _].
  - apply app_eq_app in H as [l [[H1 H2]|[H1 H2]]].
    + destruct l as [|x l]; cbn in H2.
      * destruct (thread_cgroup env (w_vm w) nameval id); [|discriminate H2].
        injection H2 as -> _. discriminate He.
      * injection H2 as -> _.
        destruct (run_until_failure_split _ _ _ _ H1) as (Hpre & rest & Hplan).
        exact (plan_prefix_add_thread _ _ _ _ _ _ _ _ _ _ _ _ Hplan Hpre He).
    + destruct (thread_cgroup env (w_vm w) nameval id); cbn in H2.
      * destruct l as [|x l]; cbn in H2.
        -- injection H2 as <- _. discriminate He.
        -- injection H2 as _ H2. destruct l; discriminate H2.
      * destruct l; discriminate H2.
Qed.

Lemma virCHProcessSetupPid_moves_thread_before_settings_witness :
  events (virCHProcessSetupPid env_ok 4250 VIR_CGROUP_THREAD_VCPU 0 None 0 0 None
            world_running)
  = [EvCgroupNewThread VIR_CGROUP_THREAD_VCPU 0 true;
     EvCgroupAddThread cgroup_thread 4250 0]
    ++ EvCgroupSetupVcpuBW cgroup_thread 0 0 0 :: [EvSetAffinity 4250 15%N 0] /\
  exists cg rc,
    thread_cgroup env_ok (w_vm world_running) VIR_CGROUP_THREAD_VCPU 0 = Some cg /\
    In (EvCgroupAddThread cg 4250 rc)
       [EvCgroupNewThread VIR_CGROUP_THREAD_VCPU 0 true;
        EvCgroupAddThread cgroup_thread 4250 0] /\
    0 <= rc.
Proof.
  split; [reflexivity|].
  exact (virCHProcessSetupPid_moves_thread_before_settings env_ok 4250
           VIR_CGROUP_THREAD_VCPU 0 None 0 0 None world_running
           [EvCgroupNewThread VIR_CGROUP_THREAD_VCPU 0 true;
            EvCgroupAddThread cgroup_thread 4250 0]
           (EvCgroupSetupVcpuBW cgroup_thread 0 0 0)
           [EvSetAffinity 4250 15%N 0] eq_refl eq_refl).
Defined.

(** X15.  When the cgroup of the domain has neither the CPU nor the CPUSET
    controller (or the domain has no cgroup), virCHProcessSetupPid makes no
    cgroup call at all: apart from the bandwidth error it only sets the
    affinity and the scheduler of the thread. *)
Theorem virCHProcessSetupPid_without_controllers
    env pid nameval id cpumask period quota sched w :
  thread_cgroup_needed (w_vm w) = false ->
  let out := virCHProcessSetupPid env pid nameval id cpumask period quota sched w in
  forallb (fun e => negb (is_thread_cgroup_event e)) (events out) = true /\
  (forall e, In e (events out) ->
     e = bandwidth_error \/
     (exists m rc, e = EvSetAffinity pid m rc) \/
     (exists policy priority rc, e = EvSetScheduler pid policy priority rc)) /\
  (period = 0 -> quota = 0 ->
   falls_back_to_host (w_vm w) cpumask && host_cpus_unavailable env = false ->
   let calls :=
     planned_affinity_calls env pid nameval
       (mask_by_priority_with_host env (w_vm w) cpumask) sched in
   out = (if forallb call_succeeded calls then 0 else -1, w,
          run_until_failure calls)).
Proof.
  intros Hn. cbv zeta.
  assert (Hev : forall e,
            In e (events (virCHProcessSetupPid env pid nameval id cpumask period
                            quota sched w)) ->
            e = bandwidth_error \/
            (exists m rc, e = EvSetAffinity pid m rc) \/
            (exists policy priority rc, e = EvSetScheduler pid policy priority rc)).
  { intros e H. apply setup_pid_events_in_plan in H as [H|[H|(cg & _ & H)]].
    - pose proof (planned_calls_kinds _ _ _ _ _ _ _ _ _ _ H) as Hk.
      unfold thread_cgroup in Hk. rewrite Hn in Hk.
      destruct e; try contradiction; try (destruct Hk as [Hk _]; discriminate Hk).
      + destruct Hk as (-> & _). right. left. eauto.
      + destruct Hk as (-> & _). right. right. eauto.
      + destruct Hk as (_ & _ & Hk & _). discriminate Hk.
    - now left.
    - unfold thread_cgroup in H. rewrite Hn in H. discriminate H. }
  split; [|split; [exact Hev|]].
  - apply forallb_forall. intros e H.
    destruct (Hev e H) as [->|[(m & rc & ->)|(a & b & c & ->)]]; reflexivity.
  - intros -> -> Hhost. rewrite setup_pid_follows_plan.
    unfold bandwidth_unsupported. cbn [Z.eqb negb orb andb].
    rewrite Hhost, Hn. cbn [andb].
    unfold planned_calls, planned_cgroup_calls, thread_cgroup. rewrite Hn.
    cbn [app removal_of]. rewrite app_nil_r.
    set (calls := planned_affinity_calls _ _ _ _ _).
    destruct (forallb call_succeeded calls) eqn:E; [|reflexivity].
    now rewrite run_until_failure_all.
Qed.

Lemma virCHProcessSetupPid_without_controllers_witness :
  thread_cgroup_needed (w_vm world_vm1) = false /\
  virCHProcessSetupPid env_ok 4250 VIR_CGROUP_THREAD_VCPU 0 None 0 0
    (Some (mkSched 1 10)) world_vm1
  = (0, world_vm1, [EvSetAffinity 4250 15%N 0; EvSetScheduler 4250 1 10 0]).
Proof.
  destruct (virCHProcessSetupPid_without_controllers env_ok 4250
              VIR_CGROUP_THREAD_VCPU 0 None 0 0 (Some (mkSched 1 10)) world_vm1
              eq_refl) as (_ & _ & Hrun).
  split; [reflexivity|]. exact (Hrun eq_refl eq_refl eq_refl).
Defined.

(** X16.  virCHProcessSetupPid stops at the first failure and hides none.
    In a run that succeeds every call that was made has succeeded.  In a
    run that fails either nothing was done, or exactly one logged step has
    failed; everything before it has succeeded and nothing follows it but,
    at most once, the removal of the thread cgroup. *)
Theorem virCHProcessSetupPid_stops_at_first_failure
    env pid nameval id cpumask period quota sched w :
  let out := virCHProcessSetupPid env pid nameval id cpumask period quota sched w in
  (result out = 0 -> forallb call_succeeded (events out) = true) /\
  (result out = -1 ->
   events out = [] \/
   exists pre e removal,
     events out = pre ++ e :: removal /\
     forallb call_succeeded pre = true /\
     call_succeeded e = false /\
     forallb is_cgroup_remove removal = true /\
     (List.length removal <= 1)%nat).
Proof.
  cbv zeta. rewrite setup_pid_follows_plan.
  destruct (bandwidth_unsupported _ _ _).
  { split; [discriminate|]. intros _. right.
    exists [], bandwidth_error, []. cbn. repeat split; lia. }
  destruct (falls_back_to_host _ _ && host_cpus_unavailable _);
    [split; [discriminate | now left]|].
  destruct (thread_cgroup_needed _ && mem_mask_fails _);
    [split; [discriminate | now left]|].
  destruct (forallb call_succeeded _) eqn:Hok; cbn [result events fst snd].
  - split; [intros _; exact Hok | discriminate].
  - split; [discriminate|]. intros _. right.
    destruct (run_until_failure_fails _ Hok) as (pre & e & -> & Hpre & He).
    exists pre, e, (removal_of (thread_cgroup env (w_vm w) nameval id)).
    rewrite <- app_assoc. split; [reflexivity|]. split; [exact Hpre|].
    split; [exact He|].
    destruct (thread_cgroup env (w_vm w) nameval id); cbn; split; auto; lia.
Qed.

(* ================================================================== *)
(** ** The placement loops *)
(* ================================================================== *)

Lemma setup_pid_world env pid nameval id cpumask period quota sched w :
  world (virCHProcessSetupPid env pid nameval id cpumask period quota sched w) = w.
Proof.
  rewrite setup_pid_follows_plan.
  repeat match goal with |- context [if ?b then _ else _] => destruct b end;
    reflexivity.
Qed.

Lemma setup_pid_result env pid nameval id cpumask period quota sched w :
  let out := virCHProcessSetupPid env pid nameval id cpumask period quota sched w in
  result out = 0 \/ result out = -1.
Proof.
  cbv zeta. rewrite setup_pid_follows_plan.
  repeat match goal with |- context [if ?b then _ else _] => destruct b end;
    cbn; auto.
Qed.

Section Loops.

Variable w : World.

Lemma seq_until_failure_run steps :
  Forall (fun m => world (m w) = w) steps ->
  seq_until_failure steps w
  = (if forallb (fun m => negb (result (m w) <? 0)) steps then 0 else -1,
     w,
     flat_map (fun m => events (m w)) (steps_run w steps)).
Proof.
  induction steps as [|m rest IH]; intros Hall; [reflexivity|].
  inversion Hall as [|? ? Hm Hrest]; subst. cbn [seq_until_failure].
  unfold bind. cbv beta in Hm.
  destruct (m w) as [[rc w1] e1] eqn:Em. cbn [world fst snd] in Hm. subst w1.
  cbn [forallb steps_run]. rewrite Em. cbn [result fst].
  destruct (rc <? 0); cbn [negb andb flat_map].
  - rewrite Em. cbn. reflexivity.
  - rewrite (IH Hrest). cbn [flat_map]. rewrite Em. reflexivity.
Qed.

Lemma steps_run_In steps m : In m (steps_run w steps) -> In m steps.
Proof.
  induction steps as [|x rest IH]; [auto|]. cbn.
  destruct (result (x w) <? 0); cbn; intros [H|H]; auto. contradiction.
Qed.

(** When all steps succeed all of them are run. *)
Lemma steps_run_all steps :
  forallb (fun m => negb (result (m w) <? 0)) steps = true ->
  steps_run w steps = steps.
Proof.
  induction steps as [|x rest IH]; [reflexivity|]. cbn.
  destruct (result (x w) <? 0); [discriminate|]. cbn. intros H. now rewrite IH.
Qed.

(** The steps that are run: all but the last one have succeeded. *)
Lemma steps_run_split steps : forall pre m post,
  steps_run w steps = pre ++ m :: post ->
  (forall x, In x pre -> 0 <= result (x w)) /\
  (post <> [] -> 0 <= result (m w)).
Proof.
  induction steps as [|x rest IH]; intros pre m post H; cbn in H.
  - destruct pre; discriminate H.
  - destruct (result (x w) <? 0) eqn:Ex.
    + destruct pre as [|p pre]; cbn in H.
      * injection H as <- <-. split; [intros ? []|]. intros Hc. now contradiction Hc.
      * injection H as _ H. destruct pre; discriminate H.
    + apply Z.ltb_ge in Ex. destruct pre as [|p pre]; cbn in H.
      * injection H as <- _. split; [intros ? []|]. intros _. exact Ex.
      * injection H as <- H. destruct (IH _ _ _ H) as [Hpre Hm].
        split; [|exact Hm]. intros y [<-|Hy]; auto.
Qed.

End Loops.

Lemma setup_iothread_world env t w :
  world (virCHProcessSetupIOThread env t w) = w.
Proof.
  unfold virCHProcessSetupIOThread. rewrite world_bind. apply setup_pid_world.
Qed.

Lemma setup_emulator_thread_world env tid w :
  world (virCHProcessSetupEmulatorThread env tid w) = w.
Proof.
  unfold virCHProcessSetupEmulatorThread. rewrite world_bind. apply setup_pid_world.
Qed.

Lemma setup_vcpu_world env i vcpu w :
  world (virCHProcessSetupVcpu env i vcpu w) = w.
Proof.
  unfold virCHProcessSetupVcpu. rewrite world_bind. apply setup_pid_world.
Qed.

Lemma setup_iothreads_seq env iothreads : forall w,
  setup_iothreads env iothreads w
  = seq_until_failure (map (virCHProcessSetupIOThread env) iothreads) w.
Proof.
  induction iothreads as [|t rest IH]; intros w; [reflexivity|].
  cbn [setup_iothreads map seq_until_failure]. unfold bind.
  destruct (virCHProcessSetupIOThread env t w) as [[rc w1] e1].
  destruct (rc <? 0); [reflexivity|]. now rewrite IH.
Qed.

Lemma setup_emulator_threads_seq env threads : forall w,
  setup_emulator_threads env threads w
  = seq_until_failure
      (map (virCHProcessSetupEmulatorThread env) (emulator_tids threads)) w.
Proof.
  induction threads as [|t rest IH]; intros w; [reflexivity|].
  destruct t; cbn [setup_emulator_threads emulator_tids map seq_until_failure];
    try apply IH.
  unfold bind.
  destruct (virCHProcessSetupEmulatorThread env tid w) as [[rc w1] e1].
  destruct (rc <? 0); [reflexivity|]. now rewrite IH.
Qed.

Lemma setup_vcpus_seq env vcpus : forall i w,
  setup_vcpus env i vcpus w
  = seq_until_failure
      (map (fun iv => virCHProcessSetupVcpu env (fst iv) (snd iv))
           (online_vcpus i vcpus)) w.
Proof.
  induction vcpus as [|v rest IH]; intros i w; [reflexivity|].
  cbn [setup_vcpus online_vcpus].
  destruct (vcpu_online v); cbn [negb map seq_until_failure fst snd]; [|apply IH].
  unfold bind.
  destruct (virCHProcessSetupVcpu env i v w) as [[rc w1] e1].
  destruct (rc <? 0); [reflexivity|]. now rewrite IH.
Qed.

Lemma emulator_tids_In threads tid :
  In tid (emulator_tids threads) ->
  exists name, In (virCHThreadTypeEmulator tid name) threads.
Proof.
  induction threads as [|t rest IH]; [intros []|].
  destruct t; cbn [emulator_tids]; try (intros H; destruct (IH H) as [n Hn];
    exists n; now right).
  intros [<-|H]; [exists thrName; now left|].
  destruct (IH H) as [n Hn]. exists n. now right.
Qed.

Lemma online_vcpus_In vcpus : forall i j v,
  In (j, v) (online_vcpus i vcpus) ->
  (i <= j)%nat /\ nth_error vcpus (j - i) = Some v /\ vcpu_online v = true.
Proof.
  induction vcpus as [|x rest IH]; intros i j v H; [contradiction|].
  cbn [online_vcpus] in H.
  assert (Hrest : In (j, v) (online_vcpus (S i) rest) ->
                  (i <= j)%nat /\ nth_error (x :: rest) (j - i) = Some v /\
                  vcpu_online v = true).
  { intros Hin. destruct (IH _ _ _ Hin) as (Hle & Hn & Ho).
    split; [lia|]. split; [|exact Ho].
    replace (j - i)%nat with (S (j - S i)) by lia. exact Hn. }
  destruct (vcpu_online x) eqn:Ex; [|auto].
  destruct H as [[= <- <-]|H]; [|auto].
  rewrite Nat.sub_diag. auto.
Qed.

Lemma bind_get_vm {A} (f : virDomainObj -> M A) w :
  bind get_vm f w = f (w_vm w) w.
Proof.
  unfold bind, get_vm. destruct (f (w_vm w) w) as [[a w1] e1]. reflexivity.
Qed.

Section LoopFacts.

Variable w : World.
Variable p q : Event -> bool.

(** Events of kind [p] come from the failing step only, when steps that
    succeed log none and no step logs more than one. *)
Lemma seq_at_most_one steps :
  (forall m, In m steps ->
     (0 <= result (m w) -> filter p (events (m w)) = []) /\
     (List.length (filter p (events (m w))) <= 1)%nat) ->
  (List.length
     (filter p (flat_map (fun m => events (m w)) (steps_run w steps))) <= 1)%nat.
Proof.
  induction steps as [|x rest IH]; intros H; [cbn; lia|].
  cbn [steps_run]. destruct (H x (or_introl eq_refl)) as [Hok Hle].
  destruct (result (x w) <? 0) eqn:Ex; cbn [flat_map].
  - now rewrite app_nil_r.
  - apply Z.ltb_ge in Ex. rewrite filter_app, (Hok Ex). cbn [app].
    apply IH. intros m Hm. apply H. now right.
Qed.

(** When the loop succeeds, what holds of the events of every step that
    succeeds holds of all events. *)
Lemma seq_success_all steps :
  (forall m, In m steps ->
     0 <= result (m w) -> forallb q (events (m w)) = true) ->
  forallb (fun m => negb (result (m w) <? 0)) steps = true ->
  forallb q (flat_map (fun m => events (m w)) (steps_run w steps)) = true.
Proof.
  induction steps as [|x rest IH]; intros H Hall; [reflexivity|].
  cbn in Hall. apply andb_prop in Hall as [Hx Hrest].
  apply negb_true_iff in Hx. cbn [steps_run]. rewrite Hx. cbn [flat_map].
  rewrite forallb_app. apply Z.ltb_ge in Hx.
  rewrite (H x (or_introl eq_refl) Hx). cbn [andb].
  apply IH; [|exact Hrest]. intros m Hm. apply H. now right.
Qed.

End LoopFacts.

Lemma setup_pid_removals env pid nameval id cpumask period quota sched w :
  let out := virCHProcessSetupPid env pid nameval id cpumask period quota sched w in
  (0 <= result out -> filter is_cgroup_remove (events out) = []) /\
  (List.length (filter is_cgroup_remove (events out)) <= 1)%nat /\
  (0 <= result out -> forallb call_succeeded (events out) = true).
Proof.
  cbv zeta. rewrite setup_pid_follows_plan.
  set (plan := planned_calls _ _ _ _ _ _ _ _ _).
  assert (Hplan : forall l, (forall e, In e l -> In e plan) ->
                            filter is_cgroup_remove l = []).
  { intros l Hl. induction l as [|e l IH]; [reflexivity|]. cbn.
    destruct (planned_calls_no_removal _ _ _ _ _ _ _ _ _ _ (Hl e (or_introl eq_refl)))
      as [-> _].
    apply IH. intros x Hx. apply Hl. now right. }
  destruct (bandwidth_unsupported _ _ _); [cbn; repeat split; lia|].
  destruct (falls_back_to_host _ _ && host_cpus_unavailable _);
    [cbn; repeat split; lia|].
  destruct (thread_cgroup_needed _ && mem_mask_fails _); [cbn; repeat split; lia|].
  destruct (forallb call_succeeded plan) eqn:Hok; cbn [result events fst snd].
  - rewrite (Hplan plan) by auto. cbn. repeat split; auto; lia.
  - rewrite filter_app, (Hplan (run_until_failure plan))
      by (intros e; apply run_until_failure_In).
    split; [lia|]. split; [|lia].
    destruct (thread_cgroup _ _ _ _); cbn; lia.
Qed.

(** X17.  virCHProcessSetupEmulatorThreads places the emulator entries of
    the monitor's thread table and nothing else: every thread it moves or
    pins is one of them, all of them go to the emulator thread cgroup with
    id 0 and with the emulator period and quota, and a scheduler is never
    set, also when the domain configures one for the emulator.  With no
    emulator entry, or no monitor, it succeeds without doing anything. *)
Theorem virCHProcessSetupEmulatorThreads_places_emulator_entries env w :
  let out := virCHProcessSetupEmulatorThreads env w in
  let threads := monitor_threads (w_vm w) in
  let cputune := def_cputune (vm_def (w_vm w)) in
  world out = w /\
  (result out = 0 \/ result out = -1) /\
  (emulator_tids threads = [] -> out = (0, w, [])) /\
  (forall e, In e (events out) ->
     match e with
     | EvCgroupNewThread name id _ => name = VIR_CGROUP_THREAD_EMULATOR /\ id = 0
     | EvCgroupAddThread _ pid _ =>
         exists name, In (virCHThreadTypeEmulator pid name) threads
     | EvSetAffinity pid m _ =>
         (exists name, In (virCHThreadTypeEmulator pid name) threads) /\
         mask_by_priority_with_host env (w_vm w) (ct_emulatorpin cputune) = Some m
     | EvCgroupSetupVcpuBW _ period quota _ =>
         period = ct_emulator_period cputune /\ quota = ct_emulator_quota cputune
     | EvSetScheduler _ _ _ _ => False
     | _ => True
     end).
Proof.
  cbv zeta. unfold virCHProcessSetupEmulatorThreads. rewrite bind_get_vm.
  fold (monitor_threads (w_vm w)).
  rewrite setup_emulator_threads_seq, seq_until_failure_run
    by (apply Forall_forall; intros m Hm; apply in_map_iff in Hm as (tid & <- & _);
        apply setup_emulator_thread_world).
  cbn [result world events fst snd].
  split; [reflexivity|]. split; [destruct (forallb _ _); auto|]. split.
  { intros ->. reflexivity. }
  intros e He. apply in_flat_map in He as (m & Hm & He).
  apply steps_run_In, in_map_iff in Hm as (tid & <- & Htid).
  apply emulator_tids_In in Htid.
  unfold virCHProcessSetupEmulatorThread in He. rewrite bind_get_vm in He.
  apply setup_pid_events_in_plan in He as [He|[->|(cg & -> & _)]]; [|exact I..].
  apply planned_calls_kinds in He.
  destruct e; try exact I; try contradiction.
  - destruct He as (-> & Hm & _). auto.
  - destruct He as (-> & He & _). discriminate He.
  - destruct He as (-> & -> & _). auto.
  - destruct He as (_ & -> & _). exact Htid.
  - destruct He as (_ & -> & -> & _). auto.
Qed.

(** X18.  virCHProcessSetupIOThreads fails at once, without placing
    anything, when the monitor cannot list the I/O threads.  Otherwise it
    places the listed threads and nothing else: the pid moved and pinned,
    and the id of the iothread cgroup, are the unsigned id of a listed
    thread converted to [int]; the bandwidth is the iothread period and
    quota, the CPU set is resolved from the automatic node-local mask of
    the domain, and a scheduler is never set. *)
Theorem virCHProcessSetupIOThreads_places_listed_threads env w :
  let out := virCHProcessSetupIOThreads env w in
  let vm := w_vm w in
  let cputune := def_cputune (vm_def vm) in
  world out = w /\
  (result out = 0 \/ result out = -1) /\
  (monitor_get_iothreads (e_mon env) = None ->
     out = (-1, w, [EvMonitorGetIOThreads false])) /\
  (forall iothreads,
     monitor_get_iothreads (e_mon env) = Some iothreads ->
     hd_error (events out) = Some (EvMonitorGetIOThreads true) /\
     (iothreads = [] -> out = (0, w, [EvMonitorGetIOThreads true])) /\
     forall e, In e (events out) ->
       match e with
       | EvCgroupNewThread name id _ =>
           name = VIR_CGROUP_THREAD_IOTHREAD /\
           exists t, In t iothreads /\ id = int_of_unsigned (iothread_id t)
       | EvCgroupAddThread _ pid _ =>
           exists t, In t iothreads /\ pid = int_of_unsigned (iothread_id t)
       | EvSetAffinity pid m _ =>
           (exists t, In t iothreads /\ pid = int_of_unsigned (iothread_id t)) /\
           mask_by_priority_with_host env vm (priv_autoCpuset vm) = Some m
       | EvCgroupSetupCpusetCpus _ m _ =>
           mask_by_priority vm (priv_autoCpuset vm) = Some m
       | EvCgroupSetupVcpuBW _ period quota _ =>
           period = ct_iothread_period cputune /\ quota = ct_iothread_quota cputune
       | EvSetScheduler _ _ _ _ => False
       | _ => True
       end).
Proof.
  cbv zeta. unfold virCHProcessSetupIOThreads.
  destruct (monitor_get_iothreads (e_mon env)) as [iothreads|].
  2:{ cbn. split; [reflexivity|]. split; [now right|]. split; [reflexivity|].
      discriminate. }
  assert (Hrun : (emit (EvMonitorGetIOThreads true) ;;; setup_iothreads env iothreads) w
                 = (result (setup_iothreads env iothreads w),
                    world (setup_iothreads env iothreads w),
                    EvMonitorGetIOThreads true
                    :: events (setup_iothreads env iothreads w))).
  { unfold bind, emit. destruct (setup_iothreads env iothreads w) as [[r w1] e1].
    reflexivity. }
  rewrite Hrun. clear Hrun.
  rewrite setup_iothreads_seq, seq_until_failure_run
    by (apply Forall_forall; intros m Hm; apply in_map_iff in Hm as (t & <- & _);
        apply setup_iothread_world).
  cbn [result world events fst snd].
  split; [reflexivity|]. split; [destruct (forallb _ _); auto|].
  split; [discriminate|].
  intros ? [= <-]. split; [reflexivity|]. split; [intros ->; reflexivity|].
  intros e [<-|He]; [exact I|].
  apply in_flat_map in He as (m & Hm & He).
  apply steps_run_In, in_map_iff in Hm as (t & <- & Htid).
  unfold virCHProcessSetupIOThread in He. rewrite bind_get_vm in He.
  assert (Hlisted : exists t', In t' iothreads /\
            int_of_unsigned (iothread_id t) = int_of_unsigned (iothread_id t'))
    by (exists t; auto).
  apply setup_pid_events_in_plan in He as [He|[->|(cg & -> & _)]]; [|exact I..].
  apply planned_calls_kinds in He.
  destruct e; try exact I; try contradiction.
  - destruct He as (-> & Hm & _). auto.
  - destruct He as (_ & _ & He & _). discriminate He.
  - destruct He as (-> & -> & _). auto.
  - destruct He as (_ & -> & _). exact Hlisted.
  - destruct He as (_ & _ & Hm & _). exact Hm.
  - destruct He as (_ & -> & -> & _). auto.
Qed.

(** X19.  virCHProcessSetupVcpus places online vCPUs only.  Every thread
    cgroup it creates is a vcpu cgroup whose id is the index of an online
    vCPU; the thread moved, pinned and scheduled is the thread of an online
    vCPU, pinned by the mask resolved from that vCPU's own cpumask and
    scheduled with that vCPU's own parameters; the bandwidth is the
    domain's period and quota.  The domain object is not changed. *)
Theorem virCHProcessSetupVcpus_places_online_vcpus env w :
  let out := virCHProcessSetupVcpus env w in
  let vm := w_vm w in
  let vcpus := def_vcpus (vm_def vm) in
  let cputune := def_cputune (vm_def vm) in
  world out = w /\
  (result out = 0 \/ result out = -1) /\
  (forall e, In e (events out) ->
     match e with
     | EvCgroupNewThread name id _ =>
         name = VIR_CGROUP_THREAD_VCPU /\
         exists i v,
           id = Z.of_nat i /\ nth_error vcpus i = Some v /\ vcpu_online v = true
     | EvCgroupAddThread _ pid _ =>
         exists v, In v vcpus /\ vcpu_online v = true /\ pid = vcpu_tid v
     | EvSetAffinity pid m _ =>
         exists v,
           In v vcpus /\ vcpu_online v = true /\ pid = vcpu_tid v /\
           mask_by_priority_with_host env vm (vcpu_cpumask v) = Some m
     | EvSetScheduler pid policy priority _ =>
         exists v,
           In v vcpus /\ vcpu_online v = true /\ pid = vcpu_tid v /\
           vcpu_sched v = mkSched policy priority
     | EvCgroupSetupVcpuBW _ period quota _ =>
         period = ct_period cputune /\ quota = ct_quota cputune
     | _ => True
     end).
Proof.
  cbv zeta. unfold virCHProcessSetupVcpus. rewrite bind_get_vm. cbv zeta.
  destruct ((negb (ct_period (def_cputune (vm_def (w_vm w))) =? 0)
             || negb (ct_quota (def_cputune (vm_def (w_vm w))) =? 0))
            && negb (virCgroupHasController (priv_cgroup (w_vm w))
                       VIR_CGROUP_CONTROLLER_CPU)).
  { cbn. split; [reflexivity|]. split; [now right|]. intros e [<-|[]]. exact I. }
  destruct (virCHDomainHasVcpuPids (w_vm w)); cbn [negb].
  2:{ rewrite check_vcpu_affinity_run. cbv zeta.
      destruct (existsb _ _); cbn; (split; [reflexivity|]);
        (split; [auto|]); [intros e [<-|[]]; exact I | intros e []]. }
  rewrite setup_vcpus_seq, seq_until_failure_run
    by (apply Forall_forall; intros m Hm; apply in_map_iff in Hm as (t & <- & _);
        apply setup_vcpu_world).
  cbn [result world events fst snd].
  split; [reflexivity|]. split; [destruct (forallb _ _); auto|].
  intros e He. apply in_flat_map in He as (m & Hm & He).
  apply steps_run_In, in_map_iff in Hm as ([j v] & <- & Hjv).
  apply online_vcpus_In in Hjv as (_ & Hnth & Hon).
  rewrite Nat.sub_0_r in Hnth. pose proof (nth_error_In _ _ Hnth) as Hin.
  cbn [fst snd] in He.
  unfold virCHProcessSetupVcpu in He. rewrite bind_get_vm in He.
  apply setup_pid_events_in_plan in He as [He|[->|(cg & -> & _)]]; [|exact I..].
  apply planned_calls_kinds in He.
  destruct e; try exact I; try contradiction.
  - destruct He as (-> & Hm & _). exists v. auto.
  - destruct He as (-> & _ & [= Hs] & _). exists v. rewrite Hs. auto.
  - destruct He as (-> & -> & _). split; [reflexivity|]. exists j, v. auto.
  - destruct He as (_ & -> & _). exists v. auto.
  - destruct He as (_ & -> & -> & _). auto.
Qed.

(** X20.  The three placement loops stop at the first thread whose
    placement fails and do not undo what was done for the threads before
    it: in a run of any of them at most one thread cgroup is removed, that
    of the failing thread, and in a run that succeeds none is removed and
    every call that was made has succeeded. *)
Theorem placement_loops_stop_at_first_failure env w :
  let well_behaved (out : Z * World * list Event) :=
    (List.length (filter is_cgroup_remove (events out)) <= 1)%nat /\
    (result out = 0 ->
     forallb call_succeeded (events out) = true /\
     filter is_cgroup_remove (events out) = []) in
  well_behaved (virCHProcessSetupEmulatorThreads env w) /\
  well_behaved (virCHProcessSetupIOThreads env w) /\
  well_behaved (virCHProcessSetupVcpus env w).
Proof.
  cbv zeta.
  assert (Hseq : forall steps,
            Forall (fun m => world (m w) = w) steps ->
            (forall m, In m steps ->
               (0 <= result (m w) -> filter is_cgroup_remove (events (m w)) = []) /\
               (List.length (filter is_cgroup_remove (events (m w))) <= 1)%nat /\
               (0 <= result (m w) -> forallb call_succeeded (events (m w)) = true)) ->
            let out := seq_until_failure steps w in
            (List.length (filter is_cgroup_remove (events out)) <= 1)%nat /\
            (result out = 0 ->
             forallb call_succeeded (events out) = true /\
             forallb (fun e => negb (is_cgroup_remove e)) (events out) = true)).
  { intros steps Hw Hsteps. cbv zeta. rewrite seq_until_failure_run by exact Hw.
    cbn [result events fst snd]. split.
    - apply seq_at_most_one. intros m Hm. destruct (Hsteps m Hm) as (H1 & H2 & _).
      auto.
    - destruct (forallb (fun m => negb (result (m w) <? 0)) steps) eqn:Hall;
        [|discriminate].
      intros _. split.
      + apply seq_success_all; [|exact Hall]. intros m Hm.
        now destruct (Hsteps m Hm) as (_ & _ & H3).
      + apply seq_success_all; [|exact Hall]. intros m Hm Hr.
        destruct (Hsteps m Hm) as (H1 & _ & _). specialize (H1 Hr).
        clear - H1. induction (events (m w)) as [|e l IH]; [reflexivity|].
        cbn in *. destruct (is_cgroup_remove e); [discriminate H1|]. auto. }
  assert (Hnone : forall l,
            forallb (fun e => negb (is_cgroup_remove e)) l = true ->
            filter is_cgroup_remove l = []).
  { induction l as [|e l IH]; [reflexivity|]. cbn.
    destruct (is_cgroup_remove e); [discriminate|]. exact IH. }
  split; [|split].
  - unfold virCHProcessSetupEmulatorThreads. rewrite bind_get_vm.
    rewrite setup_emulator_threads_seq.
    destruct (Hseq (map (virCHProcessSetupEmulatorThread env)
                      (emulator_tids (monitor_threads (w_vm w))))) as [H1 H2].
    + apply Forall_forall. intros m Hm. apply in_map_iff in Hm as (t & <- & _).
      apply setup_emulator_thread_world.
    + intros m Hm. apply in_map_iff in Hm as (t & <- & _).
      unfold virCHProcessSetupEmulatorThread. rewrite bind_get_vm.
      apply setup_pid_removals.
    + split; [exact H1|]. intros Hr. destruct (H2 Hr) as [Ha Hb]. auto.
  - unfold virCHProcessSetupIOThreads.
    destruct (monitor_get_iothreads (e_mon env)) as [iothreads|];
      [|cbn; split; [lia | discriminate]].
    assert (Hrun : (emit (EvMonitorGetIOThreads true) ;;; setup_iothreads env iothreads) w
                   = (result (setup_iothreads env iothreads w),
                      world (setup_iothreads env iothreads w),
                      EvMonitorGetIOThreads true
                      :: events (setup_iothreads env iothreads w))).
    { unfold bind, emit. destruct (setup_iothreads env iothreads w) as [[r w1] e1].
      reflexivity. }
    rewrite Hrun. clear Hrun. cbn [result events fst snd filter is_cgroup_remove
                                     forallb call_succeeded andb].
    rewrite setup_iothreads_seq.
    destruct (Hseq (map (virCHProcessSetupIOThread env) iothreads)) as [H1 H2].
    + apply Forall_forall. intros m Hm. apply in_map_iff in Hm as (t & <- & _).
      apply setup_iothread_world.
    + intros m Hm. apply in_map_iff in Hm as (t & <- & _).
      unfold virCHProcessSetupIOThread. rewrite bind_get_vm.
      apply setup_pid_removals.
    + split; [exact H1|]. intros Hr. destruct (H2 Hr) as [Ha Hb]. auto.
  - unfold virCHProcessSetupVcpus. rewrite bind_get_vm. cbv zeta.
    destruct ((negb (ct_period (def_cputune (vm_def (w_vm w))) =? 0)
               || negb (ct_quota (def_cputune (vm_def (w_vm w))) =? 0))
              && negb (virCgroupHasController (priv_cgroup (w_vm w))
                         VIR_CGROUP_CONTROLLER_CPU));
      [cbn; split; [lia | discriminate]|].
    destruct (virCHDomainHasVcpuPids (w_vm w)); cbn [negb].
    2:{ rewrite check_vcpu_affinity_run. cbv zeta.
        destruct (existsb _ _); cbn; (split; [lia|]); [discriminate | auto]. }
    rewrite setup_vcpus_seq.
    destruct (Hseq (map (fun iv => virCHProcessSetupVcpu env (fst iv) (snd iv))
                      (online_vcpus 0 (def_vcpus (vm_def (w_vm w)))))) as [H1 H2].
    + apply Forall_forall. intros m Hm. apply in_map_iff in Hm as (t & <- & _).
      apply setup_vcpu_world.
    + intros m Hm. apply in_map_iff in Hm as (t & <- & _).
      unfold virCHProcessSetupVcpu. rewrite bind_get_vm.
      apply setup_pid_removals.
    + split; [exact H1|]. intros Hr. destruct (H2 Hr) as [Ha Hb]. auto.
Qed.

(* ================================================================== *)
(** ** More on chProcessAddNetworkDevices *)
(* ================================================================== *)

Lemma keeps_vm_ret {A} (a : A) : keeps_vm (ret a).
Proof. intros w. reflexivity. Qed.

Lemma keeps_vm_emit e : keeps_vm (emit e).
Proof. intros w. reflexivity. Qed.

Lemma keeps_vm_modify_fds f : keeps_vm (modify_fds f).
Proof. intros w. reflexivity. Qed.

Lemma keeps_vm_bind {A B} (m : M A) (f : A -> M B) :
  keeps_vm m -> (forall a, keeps_vm (f a)) -> keeps_vm (bind m f).
Proof. intros Hm Hf w. rewrite world_bind, Hf, Hm. reflexivity. Qed.

Ltac keeps_step :=
  match goal with
  | |- keeps_vm (bind _ _) => apply keeps_vm_bind; [| intros ?]
  | |- keeps_vm (ret _) => apply keeps_vm_ret
  | |- keeps_vm (emit _) => apply keeps_vm_emit
  | |- keeps_vm (modify_fds _) => apply keeps_vm_modify_fds
  | |- keeps_vm (if ?b then _ else _) => destruct b
  | |- keeps_vm (match ?x with _ => _ end) => destruct x
  | |- keeps_vm _ => assumption
  end.

Ltac keeps := repeat keeps_step.

Lemma keeps_vm_chSocketRecv sock : keeps_vm (chSocketRecv sock).
Proof.
  intros w. unfold chSocketRecv, bind, poll_loop, recv_loop, virReportSystemError.
  destruct (poll_retry sock (w_poll w)) as [[[r e] prest] pevs].
  destruct (r <=? 0); [destruct (r <? 0); reflexivity|].
  cbn [w_recv].
  destruct (recv_retry sock _ (w_recv w)) as [[[[r' e'] data] rrest] revs].
  destruct (r' <? 0); reflexivity.
Qed.

Lemma keeps_vm_VIR_FORCE_CLOSE fd : keeps_vm (VIR_FORCE_CLOSE fd).
Proof. unfold VIR_FORCE_CLOSE. keeps. Qed.

Lemma keeps_vm_close_tapfds fds : keeps_vm (close_tapfds fds).
Proof.
  induction fds as [|fd rest IH]; cbn [close_tapfds]; [apply keeps_vm_ret|].
  apply keeps_vm_bind; [apply keeps_vm_VIR_FORCE_CLOSE | intros _; exact IH].
Qed.

(** One iteration replaces the interface at its index by the normalised
    interface, and changes nothing else in the domain object. *)
Lemma add_network_device_vm env sock hdr i net nic w :
  w_vm (world (add_network_device env sock hdr i net nic w))
  = with_nets (list_set i (normalise_queues net) (def_nets (vm_def (w_vm w))))
      (w_vm w).
Proof.
  unfold add_network_device. fold (normalise_queues net).
  rewrite world_bind. cbn [modify_vm result world fst snd].
  set (w1 := mkWorld _ _ _ _).
  change (with_nets _ _) with (w_vm w1). generalize w1. clear w1.
  change (forall w1, w_vm (world (?m w1)) = w_vm w1) with (keeps_vm m).
  unfold virCHConnetNetworkInterfaces, virSocketSendMsgWithFDs, virReportError,
    virReportSystemError.
  repeat first [ apply keeps_vm_chSocketRecv | apply keeps_vm_close_tapfds
               | keeps_step ].
Qed.

Lemma list_set_length {A} (x : A) l : forall i,
  List.length (list_set i x l) = List.length l.
Proof.
  induction l as [|y l IH]; intros [|i]; cbn; auto.
Qed.

Lemma list_set_middle {A} (x y : A) pre post :
  list_set (List.length pre) x (pre ++ y :: post) = pre ++ x :: post.
Proof.
  induction pre as [|p pre IH]; [reflexivity|]. cbn. now rewrite IH.
Qed.

Lemma with_nets_nets nets vm : def_nets (vm_def (with_nets nets vm)) = nets.
Proof. reflexivity. Qed.

Lemma with_nets_twice nets nets' vm :
  with_nets nets' (with_nets nets vm) = with_nets nets' vm.
Proof. reflexivity. Qed.

(** The loop over the interfaces: those it has gone through are normalised,
    the others are as they were; on success it has gone through all. *)
Lemma add_network_devices_vm env sock hdr nets : forall pre nic w,
  def_nets (vm_def (w_vm w)) = pre ++ nets ->
  let out := add_network_devices env sock hdr (List.length pre) nets nic w in
  exists k,
    (k <= List.length nets)%nat /\
    w_vm (world out)
    = with_nets (pre ++ map normalise_queues (firstn k nets) ++ skipn k nets)
        (w_vm w) /\
    (fst (result out) = 0 -> k = List.length nets).
Proof.
  induction nets as [|net rest IH]; intros pre nic w Hnets; cbv zeta.
  - exists 0%nat. rewrite app_nil_r in Hnets. cbn. rewrite app_nil_r.
    split; [lia|]. split; [|auto]. rewrite <- Hnets.
    destruct w as [[? [] ? ? ? ? ? ?] ? ? ?]; reflexivity.
  - cbn [add_network_devices]. rewrite world_bind, result_bind.
    pose proof (add_network_device_vm env sock hdr (List.length pre) net nic w) as Hvm.
    destruct (add_network_device env sock hdr (List.length pre) net nic w)
      as [[[rc nic1] w1] e1].
    cbn [result world fst snd] in *.
    rewrite Hnets, list_set_middle in Hvm.
    destruct (rc <? 0) eqn:Hrc.
    + exists 1%nat. cbn [ret result world fst snd firstn skipn map app List.length].
      split; [lia|]. split; [exact Hvm|]. discriminate.
    + assert (Hnets1 : def_nets (vm_def (w_vm w1))
                       = (pre ++ [normalise_queues net]) ++ rest).
      { rewrite Hvm, with_nets_nets, <- app_assoc. reflexivity. }
      specialize (IH (pre ++ [normalise_queues net]) nic1 w1 Hnets1).
      cbv zeta in IH. rewrite length_app in IH. cbn [List.length] in IH.
      rewrite Nat.add_1_r in IH.
      destruct IH as (k & Hk & Hw & Hres).
      exists (S k). cbn [firstn skipn map List.length]. split; [lia|].
      split.
      * rewrite Hw, Hvm, with_nets_twice, <- app_assoc. reflexivity.
      * intros H. f_equal. auto.
Qed.

Lemma keeps_vm_add_network_devices_nil env sock hdr i nic :
  keeps_vm (add_network_devices env sock hdr i [] nic).
Proof. apply keeps_vm_ret. Qed.

(** The part of chProcessAddNetworkDevices that runs with the control
    socket open, followed by the closing of the socket. *)
Lemma with_control_socket {A} (body : M A) (fd : Z) w :
  0 <= fd ->
  let out := (r <- body ;; VIR_FORCE_CLOSE fd ;;; ret r) w in
  result out = result (body w) /\
  events out = events (body w) ++ [EvClose fd] /\
  w_vm (world out) = w_vm (world (body w)) /\
  ~ In fd (w_fds (world out)).
Proof.
  intros Hfd. cbv zeta. unfold bind, VIR_FORCE_CLOSE.
  destruct (body w) as [[r w1] e1].
  destruct (fd <? 0) eqn:E; [apply Z.ltb_lt in E; lia|].
  cbn. rewrite ?app_nil_r. repeat split.
  intros H. apply filter_In in H as [_ H]. rewrite Z.eqb_refl in H. discriminate H.
Qed.

Lemma emit_then {A} e (k : M A) w :
  (emit e ;;; k) w = (result (k w), world (k w), e :: events (k w)).
Proof. unfold bind, emit. destruct (k w) as [[r w1] e1]. reflexivity. Qed.

Lemma modify_fds_then {A} f (k : M A) w :
  (modify_fds f ;;; k) w
  = k (mkWorld (w_vm w) (f (w_fds w)) (w_poll w) (w_recv w)).
Proof.
  unfold bind, modify_fds.
  destruct (k (mkWorld (w_vm w) (f (w_fds w)) (w_poll w) (w_recv w)))
    as [[r w1] e1].
  reflexivity.
Qed.

(** X21.  The control socket of chProcessAddNetworkDevices.  Without the
    multi-descriptor capability no socket is opened, and a failure to open
    one ends the call.  Once the socket is open it is closed on every way
    out, as the last thing the function does, and it is no longer among the
    open descriptors afterwards.  A socket path that does not fit the
    address, or a failed connect, ends the call before any interface is
    touched. *)
Theorem chProcessAddNetworkDevices_closes_control_socket env driver mon w :
  let out := chProcessAddNetworkDevices env driver mon w in
  let host := e_host env in
  let fd := fst (sys_socket host) in
  let path := mon_socketpath mon in
  let capable := N.testbit (drv_chCaps driver) (CH_MULTIFD_IN_ADDNET host) in
  (capable = false ->
     out = ((-1, []), w,
            [EvReportError VIR_ERR_INTERNAL_ERROR
               "Guest networking is not supported by this version of ch"])) /\
  (capable = true -> fd < 0 ->
     out = ((-1, []), w,
            [EvSocket fd;
             EvReportSystemError (snd (sys_socket host))
               "Failed to open a UNIX socket"])) /\
  (capable = true -> 0 <= fd ->
     (exists body, events out = EvSocket fd :: body ++ [EvClose fd]) /\
     ~ In fd (w_fds (world out)) /\
     ((sun_path_size host <= String.length path)%nat ->
        result out = (-1, []) /\
        w_vm (world out) = w_vm w /\
        events out
        = [EvSocket fd;
           EvReportError VIR_ERR_INTERNAL_ERROR "UNIX socket path '%1$s' too long";
           EvClose fd]) /\
     ((String.length path < sun_path_size host)%nat ->
      fst (sys_connect host fd path) = -1 ->
        result out = (-1, []) /\
        w_vm (world out) = w_vm w /\
        events out
        = [EvSocket fd;
           EvConnect fd path (-1);
           EvReportSystemError (snd (sys_connect host fd path))
             "Failed to connect to mon socket";
           EvClose fd])).
Proof.
  cbv zeta. unfold chProcessAddNetworkDevices.
  destruct (N.testbit (drv_chCaps driver) (CH_MULTIFD_IN_ADDNET (e_host env))).
  2:{ cbn. split; [reflexivity|]. split; discriminate. }
  cbn [negb]. split; [discriminate|].
  destruct (sys_socket (e_host env)) as [fd errno]. cbn [fst snd].
  destruct (fd <? 0) eqn:Hfd.
  { apply Z.ltb_lt in Hfd. split; [reflexivity|]. intros _ H. lia. }
  apply Z.ltb_ge in Hfd. split; [intros _ H; lia|]. intros _ _.
  rewrite emit_then, modify_fds_then. cbn [result world events fst snd].
  set (w1 := mkWorld _ _ _ _).
  match goal with
  | |- context [bind ?body _ w1] =>
      destruct (with_control_socket body fd w1 Hfd) as (Hres & Hev & Hvm & Hfds)
  end.
  cbv zeta in Hres, Hev, Hvm, Hfds.
  rewrite ?Hres, ?Hev, ?Hvm.
  split; [eexists; reflexivity|]. split; [exact Hfds|]. split.
  - intros Hlong. apply Nat.leb_le in Hlong. rewrite Hlong. cbn. auto.
  - intros Hfit Hconn. apply Nat.leb_gt in Hfit. rewrite Hfit.
    destruct (sys_connect (e_host env) fd (mon_socketpath mon)) as [rc cerrno].
    cbn [fst snd] in *. subst rc. cbn. auto.
Qed.

Lemma add_net_vm_shape env driver mon w :
  let out := chProcessAddNetworkDevices env driver mon w in
  let nets := def_nets (vm_def (w_vm w)) in
  (exists k,
     (k <= List.length nets)%nat /\
     w_vm (world out)
     = with_nets (map normalise_queues (firstn k nets) ++ skipn k nets) (w_vm w)) /\
  (fst (result out) = 0 ->
     w_vm (world out) = with_nets (map normalise_queues nets) (w_vm w) /\
     Forall (fun net => net_queues net <> 0)
            (def_nets (vm_def (w_vm (world out))))).
Proof.
  cbv zeta.
  assert (Hsame : w_vm w = with_nets (def_nets (vm_def (w_vm w))) (w_vm w)).
  { destruct w as [[? [] ? ? ? ? ? ?] ? ? ?]; reflexivity. }
  assert (Hnorm : Forall (fun net => net_queues net <> 0)
                         (map normalise_queues (def_nets (vm_def (w_vm w))))).
  { apply Forall_forall. intros n Hn. apply in_map_iff in Hn as (n0 & <- & _).
    unfold normalise_queues. destruct (net_queues n0 =? 0) eqn:E; cbn.
    - discriminate.
    - now apply Z.eqb_neq in E. }
  assert (Hstay : forall out : (Z * list Z) * World * list Event,
            w_vm (world out) = w_vm w -> fst (result out) = -1 ->
            (exists k,
               (k <= List.length (def_nets (vm_def (w_vm w))))%nat /\
               w_vm (world out)
               = with_nets (map normalise_queues (firstn k (def_nets (vm_def (w_vm w))))
                            ++ skipn k (def_nets (vm_def (w_vm w)))) (w_vm w)) /\
            (fst (result out) = 0 ->
               w_vm (world out)
               = with_nets (map normalise_queues (def_nets (vm_def (w_vm w)))) (w_vm w) /\
               Forall (fun net => net_queues net <> 0)
                      (def_nets (vm_def (w_vm (world out)))))).
  { intros out Hw Hr. split.
    - exists 0%nat. split; [lia|]. rewrite Hw. exact Hsame.
    - rewrite Hr. discriminate. }
  unfold chProcessAddNetworkDevices.
  destruct (N.testbit (drv_chCaps driver) (CH_MULTIFD_IN_ADDNET (e_host env)));
    cbn [negb]; [|now apply Hstay].
  destruct (sys_socket (e_host env)) as [fd errno].
  destruct (fd <? 0) eqn:Hfd; [now apply Hstay|].
  apply Z.ltb_ge in Hfd.
  rewrite emit_then, modify_fds_then. cbn [result world events fst snd].
  set (w1 := mkWorld _ _ _ _).
  match goal with
  | |- context [bind ?body _ w1] =>
      destruct (with_control_socket body fd w1 Hfd) as (Hres & _ & Hvm & _);
      set (inner := body) in *
  end.
  cbv zeta in Hres, Hvm. rewrite Hres, Hvm. clear Hres Hvm.
  assert (Hinner : exists k,
             (k <= List.length (def_nets (vm_def (w_vm w))))%nat /\
             w_vm (world (inner w1))
             = with_nets (map normalise_queues (firstn k (def_nets (vm_def (w_vm w))))
                          ++ skipn k (def_nets (vm_def (w_vm w)))) (w_vm w) /\
             (fst (result (inner w1)) = 0 ->
              k = List.length (def_nets (vm_def (w_vm w))))).
  { subst inner.
    destruct (Nat.leb _ _).
    { exists 0%nat. split; [lia|]. split; [exact Hsame | discriminate]. }
    destruct (sys_connect _ _ _) as [rc cerrno].
    rewrite emit_then. cbn [result world fst snd].
    destruct (rc =? -1).
    { exists 0%nat. split; [lia|]. split; [exact Hsame | discriminate]. }
    rewrite bind_get_vm.
    exact (add_network_devices_vm env fd _ (def_nets (vm_def (w_vm w1))) [] [] w1
             eq_refl). }
  destruct Hinner as (k & Hk & Hw & Hall). split.
  - exists k. auto.
  - intros Hr. specialize (Hall Hr). subst k.
    rewrite firstn_all, skipn_all, app_nil_r in Hw. rewrite Hw.
    split; [reflexivity|]. exact Hnorm.
Qed.

(** X22.  chProcessAddNetworkDevices and the interface definitions.  Of
    the domain object it changes the interface array only, and there only
    the queue count: the interfaces it has gone through have 0 queue pairs
    replaced by 1, the others are as they were.  When it succeeds it has
    gone through all of them, so that no interface is left with 0 queue
    pairs. *)
Theorem chProcessAddNetworkDevices_normalises_queues env driver mon w :
  let out := chProcessAddNetworkDevices env driver mon w in
  let nets := def_nets (vm_def (w_vm w)) in
  (exists k,
     (k <= List.length nets)%nat /\
     w_vm (world out)
     = with_nets (map normalise_queues (firstn k nets) ++ skipn k nets) (w_vm w)) /\
  (fst (result out) = 0 ->
     w_vm (world out) = with_nets (map normalise_queues nets) (w_vm w) /\
     Forall (fun net => net_queues net <> 0)
            (def_nets (vm_def (w_vm (world out))))).
Proof. exact (add_net_vm_shape env driver mon w). Qed.


(** What one iteration sends. *)
Lemma add_network_device_request env sock hdr i net nic w s payload fds rc :
  let out := add_network_device env sock hdr i net nic w in
  In (EvSendMsgWithFDs s payload fds rc) (events out) ->
  s = sock /\
  (exists body,
     net_build_json (e_net env) (normalise_queues net) = Some body /\
     payload = (hdr ++ "Content-Length: " ++ format_ld (String.length body)
                ++ CRLF ++ CRLF ++ body)%string) /\
  List.length fds = Z.to_nat (net_queues (normalise_queues net)) /\
  forall fd, In fd fds -> 0 <= fd -> In (EvClose fd) (events out).
Proof.
  cbv zeta. unfold add_network_device. fold (normalise_queues net).
  set (net' := normalise_queues net). clearbody net'.
  rewrite events_bind. cbn [modify_vm events app snd].
  generalize (world (modify_vm
    (fun vm => set_vm_def (set_def_nets (list_set i net' (def_nets (vm_def vm)))
                             (vm_def vm)) vm) w)).
  generalize (result (modify_vm
    (fun vm => set_vm_def (set_def_nets (list_set i net' (def_nets (vm_def vm)))
                             (vm_def vm)) vm) w)).
  intros _ w1.
  destruct (net_validate_actual (e_net env) net' <? 0).
  { cbn. intros [H|[]]. discriminate H. }
  unfold virCHConnetNetworkInterfaces.
  destruct (net_connect_interfaces (e_net env) net') as [[got idx]|].
  2:{ cbn. intros [H|[]]. discriminate H. }
  rewrite repeat_length.
  set (filled := firstn _ _).
  assert (Hlen : List.length filled = Z.to_nat (net_queues net')).
  { subst filled. rewrite <- (repeat_length (-1) (Z.to_nat (net_queues net'))) at 1.
    rewrite filled_tapfds_length. apply repeat_length. }
  clearbody filled.
  rewrite events_bind.
  match goal with
  | |- context [result (?m w1)] =>
      change (m w1) with
        (0, filled, nic ++ idx,
         mkWorld (w_vm w1) (w_fds w1 ++ filter (fun fd => 0 <=? fd) filled)
           (w_poll w1) (w_recv w1),
         [EvConnectNetworkInterfaces net' true])
  end.
  cbn [result world events fst snd app].
  change (0 <? 0) with false. cbv iota.
  destruct (net_build_json (e_net env) net') as [body|].
  2:{ cbn. intros [H|[H|[]]]; discriminate H. }
  unfold virSocketSendMsgWithFDs.
  destruct (sys_sendmsg (e_host env) _ filled) as [rc1 errno].
  rewrite events_bind.
  match goal with
  | |- context [result (?m ?w2)] =>
      match m with
      | bind (emit ?e) _ => change (m w2) with (rc1, errno, w2, [e])
      end
  end.
  cbn [result world events fst snd app]. rewrite events_bind.
  intros [Hin|[Hin|Hin]]; [discriminate Hin | |].
  - injection Hin as <- <- <- <-. split; [reflexivity|].
    split; [exists body; split; reflexivity|]. split; [exact Hlen|].
    intros fd Hfd Hge. right. right. apply in_or_app. left.
    now apply close_tapfds_closes.
  - exfalso. apply in_app_or in Hin as [Hin|Hin].
    + apply (emits_only_In is_not_send) in Hin; [discriminate Hin|].
      now apply emits_close_tapfds.
    + apply (emits_only_In is_not_send) in Hin; [discriminate Hin|].
      unfold virReportSystemError, virReportError.
      destruct (rc1 <? 0); [emits|].
      apply emits_only_bind; [apply chSocketRecv_never_sends|]. intros ?. emits.
Qed.

Lemma add_network_devices_request env sock hdr nets : forall i nic w s payload fds rc,
  let out := add_network_devices env sock hdr i nets nic w in
  In (EvSendMsgWithFDs s payload fds rc) (events out) ->
  s = sock /\
  (exists net body,
     In net nets /\
     net_build_json (e_net env) (normalise_queues net) = Some body /\
     payload = (hdr ++ "Content-Length: " ++ format_ld (String.length body)
                ++ CRLF ++ CRLF ++ body)%string /\
     List.length fds = Z.to_nat (net_queues (normalise_queues net))) /\
  forall fd, In fd fds -> 0 <= fd -> In (EvClose fd) (events out).
Proof.
  induction nets as [|net rest IH]; intros i nic w s payload fds rc; cbv zeta.
  - intros [].
  - cbn [add_network_devices]. rewrite events_bind.
    pose proof (add_network_device_request env sock hdr i net nic w s payload fds rc)
      as Hdev. cbv zeta in Hdev.
    destruct (add_network_device env sock hdr i net nic w) as [[[rc1 nic1] w1] e1].
    cbn [result world events fst snd] in *.
    intros H. apply in_app_or in H as [H|H].
    + destruct (Hdev H) as (-> & (body & Hb & Hp) & Hl & Hc).
      split; [reflexivity|]. split.
      * exists net, body. split; [now left|]. auto.
      * intros fd Hfd Hge. apply in_or_app. left. auto.
    + destruct (rc1 <? 0); [destruct H|].
      destruct (IH _ _ _ _ _ _ _ H) as (-> & (n & body & Hn & Hb & Hp & Hl) & Hc).
      split; [reflexivity|]. split.
      * exists n, body. split; [now right|]. auto.
      * intros fd Hfd Hge. apply in_or_app. right. auto.
Qed.

(** X23.  The requests of chProcessAddNetworkDevices.  Every message it
    sends goes over the control socket, for one of the interfaces of the
    domain: a PUT of [/api/v1/vm.add-net] whose Content-Length is the length
    of the body built for that interface, followed by an empty line and the
    body.  It carries one descriptor per queue pair of the interface, and
    every valid descriptor it carries is closed in the same call. *)
Theorem chProcessAddNetworkDevices_requests env driver mon w s payload fds rc :
  let out := chProcessAddNetworkDevices env driver mon w in
  In (EvSendMsgWithFDs s payload fds rc) (events out) ->
  s = fst (sys_socket (e_host env)) /\
  (exists net body,
     In net (def_nets (vm_def (w_vm w))) /\
     net_build_json (e_net env) (normalise_queues net) = Some body /\
     payload = add_net_request body /\
     List.length fds = Z.to_nat (net_queues (normalise_queues net))) /\
  forall fd, In fd fds -> 0 <= fd -> In (EvClose fd) (events out).
Proof.
  cbv zeta. unfold chProcessAddNetworkDevices.
  destruct (N.testbit (drv_chCaps driver) (CH_MULTIFD_IN_ADDNET (e_host env)));
    cbn [negb]; [|intros [H|[]]; discriminate H].
  destruct (sys_socket (e_host env)) as [fd errno]. cbn [fst].
  destruct (fd <? 0) eqn:Hfd; [intros [H|[H|[]]]; discriminate H|].
  apply Z.ltb_ge in Hfd.
  rewrite emit_then, modify_fds_then. cbn [events snd].
  set (w1 := mkWorld _ _ _ _).
  match goal with
  | |- context [bind ?body _ w1] =>
      destruct (with_control_socket body fd w1 Hfd) as (_ & Hev & _);
      set (inner := body) in *
  end.
  cbv zeta in Hev. rewrite Hev. clear Hev.
  intros [H|H]; [discriminate H|].
  apply in_app_or in H as [H|[H|[]]]; [|discriminate H].
  assert (Hin : forall e, In e (events (inner w1)) ->
                          In e (EvSocket fd :: events (inner w1) ++ [EvClose fd])).
  { intros e He. right. apply in_or_app. now left. }
  subst inner.
  destruct (Nat.leb _ _); [destruct H as [H|[]]; discriminate H|].
  destruct (sys_connect _ _ _) as [crc cerrno].
  rewrite emit_then in *. cbn [events snd] in *.
  destruct H as [H|H]; [discriminate H|].
  destruct (crc =? -1); [destruct H as [H|[]]; discriminate H|].
  rewrite bind_get_vm in *.
  destruct (add_network_devices_request _ _ _ _ _ _ _ _ _ _ _ H)
    as (-> & (net & body & Hn & Hb & -> & Hl) & Hc).
  split; [reflexivity|]. split.
  - exists net, body. repeat split; auto.
  - intros x Hx Hge. apply Hin. right. auto.
Qed.

Lemma chProcessAddNetworkDevices_requests_witness :
  In (EvSendMsgWithFDs 5 request_vm1 [7; 8] 10)
     (events (chProcessAddNetworkDevices env_ok driver_ok monitor_vm1 world_vm1)) /\
  net_build_json (e_net env_ok) (normalise_queues (mkNet "tap0" 2)) = Some "{}" /\
  In (EvClose 7)
     (events (chProcessAddNetworkDevices env_ok driver_ok monitor_vm1 world_vm1)) /\
  In (EvClose 8)
     (events (chProcessAddNetworkDevices env_ok driver_ok monitor_vm1 world_vm1)).
Proof.
  assert (Hin : In (EvSendMsgWithFDs 5 request_vm1 [7; 8] 10)
                   (events (chProcessAddNetworkDevices env_ok driver_ok
                              monitor_vm1 world_vm1))).
  { vm_compute. right. right. right. left. reflexivity. }
  destruct (chProcessAddNetworkDevices_requests env_ok driver_ok monitor_vm1
              world_vm1 5 request_vm1 [7; 8] 10 Hin) as (_ & _ & Hclose).
  split; [exact Hin|]. split; [reflexivity|]. split.
  - apply (Hclose 7); [now left | lia].
  - apply (Hclose 8); [right; now left | lia].
Defined.

(* ================================================================== *)
(** ** Network attachment and the initial affinity place no thread *)
(* ================================================================== *)

Create HintDb no_placement.

#[local] Hint Resolve emits_only_ret emits_only_get_vm emits_only_modify_vm
  emits_only_modify_fds : no_placement.

Ltac no_placement_step :=
  lazymatch goal with
  | |- emits_only _ (bind _ _) => apply emits_only_bind; [| intros ?]
  | |- emits_only _ (emit _) => apply emits_only_emit; reflexivity
  | |- emits_only _ (if ?b then _ else _) => destruct b
  | |- emits_only _ (match ?x with _ => _ end) => destruct x
  | |- emits_only _ _ => solve [auto with no_placement]
  end.

Ltac no_placement := repeat no_placement_step.

Lemma no_placement_chSocketRecv sock :
  emits_only not_placement (chSocketRecv sock).
Proof.
  unfold chSocketRecv, virReportSystemError.
  apply emits_only_bind; [apply emits_poll_loop; reflexivity|]. intros [r e].
  destruct (r <=? 0); [no_placement|].
  apply emits_only_bind; [apply emits_recv_loop; reflexivity|]. intros [[r' e'] d].
  no_placement.
Qed.

Lemma no_placement_VIR_FORCE_CLOSE fd :
  emits_only not_placement (VIR_FORCE_CLOSE fd).
Proof. now apply emits_VIR_FORCE_CLOSE. Qed.

Lemma no_placement_close_tapfds fds :
  emits_only not_placement (close_tapfds fds).
Proof. now apply emits_close_tapfds. Qed.
#[local] Hint Resolve no_placement_chSocketRecv no_placement_VIR_FORCE_CLOSE
  no_placement_close_tapfds : no_placement.

Lemma no_placement_add_network_device env sock hdr i net nic :
  emits_only not_placement (add_network_device env sock hdr i net nic).
Proof.
  unfold add_network_device, virCHConnetNetworkInterfaces,
    virSocketSendMsgWithFDs, virReportError, virReportSystemError.
  no_placement.
Qed.
#[local] Hint Resolve no_placement_add_network_device : no_placement.

Lemma no_placement_add_network_devices env sock hdr nets : forall i nic,
  emits_only not_placement (add_network_devices env sock hdr i nets nic).
Proof.
  induction nets as [|net rest IH]; intros i nic; cbn [add_network_devices];
    no_placement.
Qed.
#[local] Hint Resolve no_placement_add_network_devices : no_placement.

Lemma no_placement_chProcessAddNetworkDevices env driver mon :
  emits_only not_placement (chProcessAddNetworkDevices env driver mon).
Proof.
  unfold chProcessAddNetworkDevices, virReportError, virReportSystemError.
  no_placement.
Qed.

Lemma no_placement_virCHProcessInitCpuAffinity env :
  emits_only not_placement (virCHProcessInitCpuAffinity env).
Proof.
  unfold virCHProcessInitCpuAffinity, virProcessSetAffinity, virReportError.
  no_placement.
Qed.

(* ================================================================== *)
(** ** Reading the status line *)
(* ================================================================== *)








(* ================================================================== *)
(** ** Walking through virCHProcessStart *)
(* ================================================================== *)

Lemma wp_ret {A} (a : A) Q tr w : Q a tr w -> wp (ret a) Q tr w.
Proof. unfold wp. cbn. now rewrite app_nil_r. Qed.

Lemma wp_bind {A B} (m : M A) (f : A -> M B) Q tr w :
  wp m (fun a tr' w' => wp (f a) Q tr' w') tr w -> wp (bind m f) Q tr w.
Proof.
  unfold wp. rewrite result_bind, world_bind, events_bind, app_assoc. auto.
Qed.

Lemma wp_emit e Q tr w : Q tt (tr ++ [e]) w -> wp (emit e) Q tr w.
Proof. auto. Qed.

Lemma wp_get_vm Q tr w : Q (w_vm w) tr w -> wp get_vm Q tr w.
Proof. unfold wp. cbn. now rewrite app_nil_r. Qed.

Lemma wp_modify_vm f Q tr w :
  Q tt tr (mkWorld (f (w_vm w)) (w_fds w) (w_poll w) (w_recv w)) ->
  wp (modify_vm f) Q tr w.
Proof. unfold wp. cbn. now rewrite app_nil_r. Qed.

(** Naming the outcome of a call. *)
Lemma wp_call {A} (m : M A) Q tr w :
  (forall a w' evs, m w = (a, w', evs) -> Q a (tr ++ evs) w') -> wp m Q tr w.
Proof.
  intros H. unfold wp. destruct (m w) as [[a w'] evs] eqn:E. now apply H.
Qed.

Lemma wp_run {A} (m : M A) (Q : A -> list Event -> World -> Prop) w :
  wp m Q [] w -> Q (result (m w)) (events (m w)) (world (m w)).
Proof. auto. Qed.

(** *** What the callees of virCHProcessStart do *)

Lemma validate_spec env w a w' evs :
  virCHProcessStartValidate env w = (a, w', evs) ->
  w' = w /\
  ((a <? 0) = false -> evs = []) /\
  forallb is_config_unsupported evs = true.
Proof.
  unfold virCHProcessStartValidate, virReportError.
  unfold bind, get_vm, emit, ret. cbv beta iota zeta.
  destruct (def_virtType (vm_def (w_vm w)));
    try destruct (caps_domain_supported (e_host env) _);
    cbn [negb app]; intros [= <- <- <-]; (split; [reflexivity|]);
    (split; [|reflexivity]); first [reflexivity | discriminate].
Qed.

Lemma add_net_spec env driver mon w a w' evs :
  chProcessAddNetworkDevices env driver mon w = (a, w', evs) ->
  (exists nets, w_vm w' = with_nets nets (w_vm w)) /\
  forallb is_setup_event evs = true /\
  forallb not_placement evs = true.
Proof.
  intros E. pose proof (add_net_vm_shape env driver mon w) as [(k & _ & Hk) _].
  pose proof (emits_chProcessAddNetworkDevices env driver mon w) as Hf.
  pose proof (no_placement_chProcessAddNetworkDevices env driver mon w) as Hn.
  rewrite E in *. cbn [world events fst snd] in *. eauto.
Qed.

Lemma init_affinity_spec env w a w' evs :
  virCHProcessInitCpuAffinity env w = (a, w', evs) ->
  w' = w /\ forallb is_setup_event evs = true /\
  forallb not_placement evs = true.
Proof.
  intros E. pose proof (emits_virCHProcessInitCpuAffinity env w) as Hf.
  pose proof (no_placement_virCHProcessInitCpuAffinity env w) as Hn.
  rewrite E in Hf, Hn. split; [|split; [exact Hf | exact Hn]].
  revert E. unfold virCHProcessInitCpuAffinity, virProcessSetAffinity.
  destruct (WITH_SCHED_GETAFFINITY (e_host env)); cbn [negb];
    [|intros [= _ <- _]; reflexivity].
  unfold bind, get_vm, virReportError, emit, ret. cbv beta iota zeta.
  destruct (vm_pid (w_vm w) =? 0); [intros [= _ <- _]; reflexivity|].
  match goal with
  | |- context [match ?sel with (_, _) => _ end] =>
      match type of sel with
      | (Z * option _)%type =>
          match sel with
          | context [ct_emulatorpin] => destruct sel as [rc0 cpumap0]
          end
      end
  end.
  destruct (rc0 <? 0); [intros [= _ <- _]; reflexivity|].
  destruct cpumap0; [|intros [= _ <- _]; reflexivity].
  destruct (process_set_affinity _ _ _ <? 0); intros [= _ <- _]; reflexivity.
Qed.

Lemma seq_world steps w :
  Forall (fun m => world (m w) = w) steps ->
  world (seq_until_failure steps w) = w.
Proof. intros H. now rewrite seq_until_failure_run. Qed.

Lemma setup_emulator_threads_spec env w a w' evs :
  virCHProcessSetupEmulatorThreads env w = (a, w', evs) ->
  w' = w /\ forallb is_setup_event evs = true.
Proof.
  intros E. pose proof (emits_virCHProcessSetupEmulatorThreads env w) as Hf.
  rewrite E in Hf. split; [|exact Hf].
  assert (Hw : world (virCHProcessSetupEmulatorThreads env w) = w).
  { unfold virCHProcessSetupEmulatorThreads. rewrite bind_get_vm.
    rewrite setup_emulator_threads_seq. apply seq_world.
    apply Forall_forall. intros m Hm. apply in_map_iff in Hm as (t & <- & _).
    apply setup_emulator_thread_world. }
  now rewrite E in Hw.
Qed.

Lemma setup_iothreads_spec env w a w' evs :
  virCHProcessSetupIOThreads env w = (a, w', evs) ->
  w' = w /\ forallb is_setup_event evs = true.
Proof.
  intros E. pose proof (emits_virCHProcessSetupIOThreads env w) as Hf.
  rewrite E in Hf. split; [|exact Hf].
  assert (Hw : world (virCHProcessSetupIOThreads env w) = w).
  { unfold virCHProcessSetupIOThreads.
    destruct (monitor_get_iothreads (e_mon env)); [|reflexivity].
    rewrite emit_then. cbn [world fst snd].
    rewrite setup_iothreads_seq. apply seq_world.
    apply Forall_forall. intros m Hm. apply in_map_iff in Hm as (t & <- & _).
    apply setup_iothread_world. }
  now rewrite E in Hw.
Qed.

Lemma setup_vcpus_spec env w a w' evs :
  virCHProcessSetupVcpus env w = (a, w', evs) ->
  w' = w /\
  forallb (fun e => is_setup_event e || is_affinity_error e) evs = true /\
  (0 <= a -> forallb is_setup_event evs = true).
Proof.
  intros E. pose proof (emits_virCHProcessSetupVcpus env w) as Hf.
  pose proof (setup_vcpus_success_events env w) as Hs.
  rewrite E in Hf, Hs. cbn [result events fst snd] in *.
  split; [|split; [exact Hf | exact Hs]].
  assert (Hw : world (virCHProcessSetupVcpus env w) = w).
  { unfold virCHProcessSetupVcpus. rewrite bind_get_vm. cbv zeta.
    destruct (_ && _); [reflexivity|].
    destruct (virCHDomainHasVcpuPids (w_vm w)); cbn [negb].
    - rewrite setup_vcpus_seq. apply seq_world.
      apply Forall_forall. intros m Hm. apply in_map_iff in Hm as (t & <- & _).
      apply setup_vcpu_world.
    - rewrite check_vcpu_affinity_run. cbv zeta. destruct (existsb _ _); reflexivity. }
  now rewrite E in Hw.
Qed.

Lemma update_info_spec env w a w' evs :
  virCHProcessUpdateInfo env w = (a, w', evs) ->
  (exists consoles serials, w' = with_serials serials (with_consoles consoles w)) /\
  forallb is_info_event evs = true.
Proof.
  intros E. pose proof (emits_virCHProcessUpdateInfo env w) as Hf.
  rewrite E in Hf. split; [|exact Hf].
  rewrite update_info_run in E.
  assert (Hsame : exists consoles serials,
             w = with_serials serials (with_consoles consoles w)).
  { exists (def_consoles (vm_def (w_vm w))), (def_serials (vm_def (w_vm w))).
    now rewrite with_consoles_same, with_serials_same. }
  destruct (monitor_get_info (e_mon env)) as [info|];
    [|injection E as _ <- _; exact Hsame].
  injection E as _ <- _.
  destruct (virJSONValueObjectGet info "config") as [config|] eqn:Hcfg.
  - rewrite update_console_world by (rewrite Hcfg; discriminate). eauto.
  - rewrite update_console_no_config by exact Hcfg. exact Hsame.
Qed.

Lemma stop_spec env reason w a w' evs :
  virCHProcessStop env reason w = (a, w', evs) ->
  a = 0 /\
  w' = mkWorld (stopped reason (w_vm w)) (w_fds w) (w_poll w) (w_recv w) /\
  forallb is_teardown_event evs = true.
Proof.
  intros E. pose proof (emits_virCHProcessStop env reason w) as Hf.
  rewrite E in Hf. rewrite virCHProcessStop_run in E.
  injection E as <- <- _. auto.
Qed.

Lemma wp_start_cleanup env (Q : Z -> list Event -> World -> Prop) tr w :
  (forall evs,
     forallb is_teardown_event evs = true ->
     Q (-1) (tr ++ evs)
       (mkWorld (stopped VIR_DOMAIN_SHUTOFF_FAILED (w_vm w))
          (w_fds w) (w_poll w) (w_recv w))) ->
  wp (start_cleanup env) Q tr w.
Proof.
  intros H. unfold wp. rewrite start_cleanup_run. cbn [result world events fst snd].
  destruct (virCHProcessStop env VIR_DOMAIN_SHUTOFF_FAILED w) as [[a w'] evs] eqn:E.
  apply stop_spec in E as (_ & -> & Hf). cbn [world events fst snd]. auto.
Qed.

(** One step of the walk: a rule of [wp], or the specification of the
    callee at hand. *)
Ltac wp_callee spec :=
  let a := fresh "rc" in
  let w' := fresh "w" in
  let evs := fresh "evs" in
  let H := fresh "Hcall" in
  apply wp_call; intros a w' evs H; apply spec in H.

Ltac wp_step_with info_spec :=
  cbv beta;
  lazymatch goal with
  | |- wp (bind _ _) _ _ _ => apply wp_bind
  | |- wp (ret _) _ _ _ => apply wp_ret
  | |- wp (emit _) _ _ _ => apply wp_emit
  | |- wp get_vm _ _ _ => apply wp_get_vm
  | |- wp (modify_vm _) _ _ _ => apply wp_modify_vm
  | |- wp (virReportError _ _) _ _ _ => unfold virReportError
  | |- wp (virDomainObjSetState _) _ _ _ => unfold virDomainObjSetState
  | |- wp (virCHDomainRefreshThreadInfo _) _ _ _ =>
      unfold virCHDomainRefreshThreadInfo
  | |- wp (start_cleanup _) _ _ _ =>
      let evs := fresh "stop_evs" in
      let H := fresh "Hstop" in
      apply wp_start_cleanup; intros evs H
  | |- wp (virCHProcessStartValidate _) _ _ _ =>
      wp_callee validate_spec
  | |- wp (chProcessAddNetworkDevices _ _ _) _ _ _ =>
      wp_callee add_net_spec
  | |- wp (virCHProcessInitCpuAffinity _) _ _ _ =>
      wp_callee init_affinity_spec
  | |- wp (virCHProcessSetupEmulatorThreads _) _ _ _ =>
      wp_callee setup_emulator_threads_spec
  | |- wp (virCHProcessSetupIOThreads _) _ _ _ =>
      wp_callee setup_iothreads_spec
  | |- wp (virCHProcessSetupVcpus _) _ _ _ =>
      wp_callee setup_vcpus_spec
  | |- wp (virCHProcessUpdateInfo _) _ _ _ =>
      wp_callee info_spec
  | |- wp (if ?b then _ else _) _ _ _ => destruct b eqn:?
  | |- wp (match ?x with _ => _ end) _ _ _ => destruct x eqn:?
  end.

Ltac wp_tidy :=
  cbn [w_vm w_fds w_poll w_recv];
  repeat match goal with
         | H : _ /\ _ |- _ => destruct H
         | H : exists _, _ |- _ => destruct H
         | H : ?w' = _ |- _ => is_var w'; subst w'
         end.

Ltac wp_walk_with info_spec :=
  repeat (wp_step_with info_spec; wp_tidy); cbv beta.

Ltac wp_walk := wp_walk_with update_info_spec.

Ltac wp_failed :=
  let Hr := fresh "Hr" in
  try (intros Hr; discriminate Hr).

Lemma start_success_state env driver reason w :
  let out := virCHProcessStart env driver reason w in
  result out = 0 ->
  let vm' := w_vm (world out) in
  exists mon,
    monitor_to_use env (w_vm w) = Some mon /\
    has_identity_of mon vm' /\
    priv_machineName vm' = machine_name (e_host env) /\
    priv_cgroup vm' = snd (cgroup_setup_cgroup (e_cg env)) /\
    vm_state vm' = VIR_DOMAIN_RUNNING reason.
Proof.
  cbv zeta.
  apply (wp_run (virCHProcessStart env driver reason)
           (fun r tr w' =>
              r = 0 ->
              exists mon,
                monitor_to_use env (w_vm w) = Some mon /\
                has_identity_of mon (w_vm w') /\
                priv_machineName (w_vm w') = machine_name (e_host env) /\
                priv_cgroup (w_vm w') = snd (cgroup_setup_cgroup (e_cg env)) /\
                vm_state (w_vm w') = VIR_DOMAIN_RUNNING reason)).
  unfold virCHProcessStart.
  wp_walk.
  all: wp_failed.
  all: intros _; unfold monitor_to_use, has_identity_of.
  all: repeat match goal with
              | H : w_vm _ = _ |- _ => rewrite H
              | H : priv_monitor _ = _ |- _ => rewrite H
              | H : monitor_new _ = _ |- _ => rewrite H
              | H : cgroup_setup_cgroup _ = _ |- _ => rewrite H
              end.
  all: cbn.
  all: repeat match goal with
              | H : priv_monitor _ = _ |- _ => rewrite H
              end.
  all: cbn.
  all: eexists; repeat split; reflexivity.
Qed.

(** X25.  What a successful virCHProcessStart leaves behind.  The domain
    carries the identity of the VMM process: its pid and its id are the pid
    of the monitor, which is the monitor the domain held before or else the
    one newly connected, and which the domain holds afterwards.  The machine
    name and the cgroup are those the collaborators gave, and the state is
    Running with the reason supplied. *)
Theorem virCHProcessStart_success_state env driver reason w :
  let out := virCHProcessStart env driver reason w in
  result out = 0 ->
  let vm' := w_vm (world out) in
  exists mon,
    monitor_to_use env (w_vm w) = Some mon /\
    has_identity_of mon vm' /\
    priv_machineName vm' = machine_name (e_host env) /\
    priv_cgroup vm' = snd (cgroup_setup_cgroup (e_cg env)) /\
    vm_state vm' = VIR_DOMAIN_RUNNING reason.
Proof. exact (start_success_state env driver reason w). Qed.

Lemma virCHProcessStart_success_state_witness :
  result (virCHProcessStart env_ok driver_ok VIR_DOMAIN_RUNNING_BOOTED world_vm1) = 0 /\
  let vm' :=
    w_vm (world (virCHProcessStart env_ok driver_ok VIR_DOMAIN_RUNNING_BOOTED
                   world_vm1)) in
  vm_pid vm' = 4242 /\
  def_id (vm_def vm') = 4242 /\
  option_map mon_pid (priv_monitor vm') = Some 4242 /\
  vm_state vm' = VIR_DOMAIN_RUNNING VIR_DOMAIN_RUNNING_BOOTED.
Proof.
  assert (Hres : result (virCHProcessStart env_ok driver_ok
                           VIR_DOMAIN_RUNNING_BOOTED world_vm1) = 0)
    by (vm_compute; reflexivity).
  destruct (virCHProcessStart_success_state env_ok driver_ok
              VIR_DOMAIN_RUNNING_BOOTED world_vm1 Hres)
    as (mon & Hmon & (Hpid & Hid & Hheld & _) & _ & _ & Hstate).
  injection Hmon as <-.
  split; [exact Hres|]. cbv zeta.
  split; [exact Hpid|]. split; [exact Hid|]. split; [exact Hheld | exact Hstate].
Defined.

Lemma forallb_weaken {A} (p q : A -> bool) l :
  (forall x, p x = true -> q x = true) ->
  forallb p l = true -> forallb q l = true.
Proof.
  intros Hpq H. apply forallb_forall. intros x Hx.
  apply Hpq. exact (proj1 (forallb_forall p l) H x Hx).
Qed.

Lemma forallb_not_existsb {A} (p : A -> bool) l :
  forallb (fun x => negb (p x)) l = true -> existsb p l = false.
Proof.
  induction l as [|x l IH]; [reflexivity|]. cbn.
  destruct (p x); cbn; [discriminate | exact IH].
Qed.

(** Events of one class belong to another. *)
Ltac class_implies :=
  let e := fresh "e" in
  let He := fresh "He" in
  intros e He; destruct e; cbn in He |- *;
  try reflexivity; try discriminate He;
  repeat match goal with c : virErrorNumber |- _ => destruct c end;
  try reflexivity; try discriminate He.

Ltac leaf_forallb :=
  first
    [ reflexivity
    | cbn; repeat match goal with H : (_ <? 0) = _ |- _ => rewrite H end;
      reflexivity
    | match goal with
      | H : forallb _ ?l = true |- forallb _ ?l = true =>
          apply (forallb_weaken _ _ l) with (2 := H); solve [class_implies]
      end ].

Ltac solve_forallb :=
  rewrite ?forallb_app; cbn [forallb];
  repeat (apply andb_true_intro; split);
  leaf_forallb.

Ltac wp_facts :=
  repeat match goal with
         | H : false = false -> _ |- _ => specialize (H eq_refl)
         | H : ?x = [] |- _ => is_var x; subst x
         | H : (?rc <? 0) = false, H' : 0 <= ?rc -> _ |- _ =>
             specialize (H' (proj1 (Z.ltb_ge rc 0) H))
         end.

(** X26.  A domain that already holds a monitor is started over that
    monitor: virCHProcessStart opens no new connection and does not create
    the VM again, however the run ends; a run that succeeds leaves the
    domain with the pid of the monitor it held. *)
Theorem virCHProcessStart_reuses_held_monitor env driver reason w mon :
  priv_monitor (w_vm w) = Some mon ->
  let out := virCHProcessStart env driver reason w in
  forallb (fun e => negb (is_monitor_creation e)) (events out) = true /\
  (result out = 0 -> vm_pid (w_vm (world out)) = mon_pid mon).
Proof.
  intros Hmon. cbv zeta. split.
  - apply (wp_run (virCHProcessStart env driver reason)
             (fun r tr w' =>
                forallb (fun e => negb (is_monitor_creation e)) tr = true)).
    unfold virCHProcessStart. wp_walk.
    all: try congruence.
    all: wp_facts.
    all: solve_forallb.
  - intros Hres.
    destruct (start_success_state env driver reason w Hres)
      as (mon' & Hm & (Hpid & _) & _).
    unfold monitor_to_use in Hm. rewrite Hmon in Hm. injection Hm as <-.
    exact Hpid.
Qed.

Lemma virCHProcessStart_reuses_held_monitor_witness :
  priv_monitor (w_vm world_monitor_held) = Some monitor_vm1 /\
  forallb (fun e => negb (is_monitor_creation e))
    (events (virCHProcessStart env_ok driver_ok VIR_DOMAIN_RUNNING_BOOTED
               world_monitor_held)) = true /\
  result (virCHProcessStart env_ok driver_ok VIR_DOMAIN_RUNNING_BOOTED
            world_monitor_held) = 0 /\
  vm_pid (w_vm (world (virCHProcessStart env_ok driver_ok
                         VIR_DOMAIN_RUNNING_BOOTED world_monitor_held))) = 4242.
Proof.
  assert (Hmon : priv_monitor (w_vm world_monitor_held) = Some monitor_vm1)
    by reflexivity.
  assert (Hres : result (virCHProcessStart env_ok driver_ok
                           VIR_DOMAIN_RUNNING_BOOTED world_monitor_held) = 0)
    by (vm_compute; reflexivity).
  destruct (virCHProcessStart_reuses_held_monitor env_ok driver_ok
              VIR_DOMAIN_RUNNING_BOOTED world_monitor_held monitor_vm1 Hmon)
    as [Hquiet Hpid].
  split; [exact Hmon|]. split; [exact Hquiet|]. split; [exact Hres|].
  exact (Hpid Hres).
Defined.

Lemma start_interface_failure_state env driver reason w :
  let out := virCHProcessStart env driver reason w in
  existsb start_devices_failed (events out) = true ->
  result out = -1 /\
  exists mon,
    monitor_to_use env (w_vm w) = Some mon /\
    has_identity_of mon (w_vm (world out)) /\
    priv_cgroup (w_vm (world out)) = snd (cgroup_setup_cgroup (e_cg env)) /\
    vm_state (w_vm (world out)) = vm_state (w_vm w).
Proof.
  cbv zeta.
  apply (wp_run (virCHProcessStart env driver reason)
           (fun r tr w' =>
              existsb start_devices_failed tr = true ->
              r = -1 /\
              exists mon,
                monitor_to_use env (w_vm w) = Some mon /\
                has_identity_of mon (w_vm w') /\
                priv_cgroup (w_vm w') = snd (cgroup_setup_cgroup (e_cg env)) /\
                vm_state (w_vm w') = vm_state (w_vm w))).
  unfold virCHProcessStart.
  wp_walk.
  all: wp_facts.
  all: intros Hex.
  all: try (exfalso; rewrite forallb_not_existsb in Hex;
            [discriminate Hex | solve_forallb]).
  all: split; [reflexivity|].
  all: unfold monitor_to_use, has_identity_of.
  all: repeat match goal with
              | H : w_vm _ = _ |- _ => rewrite H
              | H : priv_monitor _ = _ |- _ => rewrite H
              | H : monitor_new _ = _ |- _ => rewrite H
              | H : cgroup_setup_cgroup _ = _ |- _ => rewrite H
              end.
  all: cbn.
  all: repeat match goal with
              | H : priv_monitor _ = _ |- _ => rewrite H
              end.
  all: cbn.
  all: eexists; repeat split; reflexivity.
Qed.

(** X27.  When bringing up the host-side interfaces fails,
    virCHProcessStart returns -1 and leaves the domain half started: pid
    and id are those of the monitor, the monitor and the cgroup stay
    assigned and the state is the one before the call.  Unless the pid of
    the monitor is -1 the domain counts as active, so that every later
    virCHProcessStart on it is refused at once. *)
Theorem virCHProcessStart_failed_interface_start_leaves_domain_active
  env driver reason w rc :
  let out := virCHProcessStart env driver reason w in
  In (EvInterfaceStartDevices rc) (events out) ->
  rc < 0 ->
  result out = -1 /\
  exists mon,
    monitor_to_use env (w_vm w) = Some mon /\
    has_identity_of mon (w_vm (world out)) /\
    priv_cgroup (w_vm (world out)) = snd (cgroup_setup_cgroup (e_cg env)) /\
    vm_state (w_vm (world out)) = vm_state (w_vm w) /\
    (mon_pid mon <> -1 ->
     forall env' driver' reason',
       virCHProcessStart env' driver' reason' (world out)
       = (-1, world out, [already_active_error])).
Proof.
  cbv zeta. intros Hin Hrc.
  assert (Hex : existsb start_devices_failed
                  (events (virCHProcessStart env driver reason w)) = true).
  { apply existsb_exists. exists (EvInterfaceStartDevices rc).
    split; [exact Hin|]. apply Z.ltb_lt. exact Hrc. }
  destruct (start_interface_failure_state env driver reason w Hex)
    as (Hres & mon & Hmon & Hid & Hcg & Hst).
  split; [exact Hres|]. exists mon.
  split; [exact Hmon|]. split; [exact Hid|]. split; [exact Hcg|].
  split; [exact Hst|].
  intros Hpid env' driver' reason'. apply start_already_active.
  unfold virDomainObjIsActive. destruct Hid as (_ & -> & _).
  apply negb_true_iff. apply Z.eqb_neq. exact Hpid.
Qed.

Lemma virCHProcessStart_failed_interface_start_leaves_domain_active_witness :
  let out := virCHProcessStart env_start_devices_fail driver_ok
               VIR_DOMAIN_RUNNING_BOOTED world_vm1 in
  In (EvInterfaceStartDevices (-1)) (events out) /\
  -1 < 0 /\
  result out = -1 /\
  vm_pid (w_vm (world out)) = 4242 /\
  vm_state (w_vm (world out)) = VIR_DOMAIN_SHUTOFF VIR_DOMAIN_SHUTOFF_UNKNOWN /\
  virCHProcessStart env_ok driver_ok VIR_DOMAIN_RUNNING_BOOTED (world out)
  = (-1, world out, [already_active_error]).
Proof.
  cbv zeta.
  assert (Hin : In (EvInterfaceStartDevices (-1))
                  (events (virCHProcessStart env_start_devices_fail driver_ok
                             VIR_DOMAIN_RUNNING_BOOTED world_vm1))).
  { vm_compute. repeat (first [left; reflexivity | right]). }
  assert (Hrc : -1 < 0) by lia.
  destruct (virCHProcessStart_failed_interface_start_leaves_domain_active
              env_start_devices_fail driver_ok VIR_DOMAIN_RUNNING_BOOTED
              world_vm1 (-1) Hin Hrc)
    as (Hres & mon & Hmon & (Hpid & _) & _ & Hst & Hagain).
  injection Hmon as <-.
  split; [exact Hin|]. split; [exact Hrc|]. split; [exact Hres|].
  split; [exact Hpid|]. split; [exact Hst|].
  apply Hagain. cbn. lia.
Defined.

(** X28.  Start and Stop compose: after a successful virCHProcessStart,
    virCHProcessStop first closes the monitor Start worked with, returns 0
    and leaves the domain inactive, Shutoff with the reason given, with
    pid 0 and without monitor or machine name, while the cgroup handle
    Start stored is still in place. *)
Theorem virCHProcessStop_after_start env driver reason env' stop_reason w :
  let started := virCHProcessStart env driver reason w in
  result started = 0 ->
  let out := virCHProcessStop env' stop_reason (world started) in
  let vm' := w_vm (world out) in
  result out = 0 /\
  hd_error (events out) = Some EvMonitorClose /\
  virDomainObjIsActive vm' = false /\
  vm_pid vm' = 0 /\
  vm_state vm' = VIR_DOMAIN_SHUTOFF stop_reason /\
  priv_monitor vm' = None /\
  priv_machineName vm' = None /\
  priv_cgroup vm' = snd (cgroup_setup_cgroup (e_cg env)).
Proof.
  cbv zeta. intros Hres.
  destruct (start_success_state env driver reason w Hres)
    as (mon & _ & (_ & _ & Hheld & _) & _ & Hcg & _).
  rewrite virCHProcessStop_run. cbn [result events world fst snd w_vm].
  destruct (priv_monitor (w_vm (world (virCHProcessStart env driver reason w))))
    as [held|]; [|discriminate Hheld].
  repeat split; try reflexivity. exact Hcg.
Qed.

Lemma virCHProcessStop_after_start_witness :
  let started := virCHProcessStart env_ok driver_ok VIR_DOMAIN_RUNNING_BOOTED
                   world_vm1 in
  let out := virCHProcessStop env_ok VIR_DOMAIN_SHUTOFF_DESTROYED (world started) in
  result started = 0 /\
  hd_error (events out) = Some EvMonitorClose /\
  vm_state (w_vm (world out)) = VIR_DOMAIN_SHUTOFF VIR_DOMAIN_SHUTOFF_DESTROYED /\
  priv_cgroup (w_vm (world out)) = Some cgroup_vm1.
Proof.
  cbv zeta.
  assert (Hres : result (virCHProcessStart env_ok driver_ok
                           VIR_DOMAIN_RUNNING_BOOTED world_vm1) = 0)
    by (vm_compute; reflexivity).
  destruct (virCHProcessStop_after_start env_ok driver_ok
              VIR_DOMAIN_RUNNING_BOOTED env_ok VIR_DOMAIN_SHUTOFF_DESTROYED
              world_vm1 Hres)
    as (_ & Hhd & _ & _ & Hst & _ & _ & Hcg).
  split; [exact Hres|]. split; [exact Hhd|]. split; [exact Hst|]. exact Hcg.
Defined.

(* ================================================================== *)
(** ** The order of the steps of virCHProcessStart *)
(* ================================================================== *)

Lemma preceded_check_app a b l1 : forall seen l2,
  preceded_check a b seen (l1 ++ l2)
  = preceded_check a b seen l1 && preceded_check a b (seen || existsb a l1) l2.
Proof.
  induction l1 as [|x l1 IH]; intros seen l2; cbn.
  - now rewrite orb_false_r.
  - rewrite IH, andb_assoc, orb_assoc. reflexivity.
Qed.

Lemma preceded_check_seen a b l : preceded_check a b true l = true.
Proof. induction l as [|x l IH]; cbn; [reflexivity|]. now destruct (b x). Qed.

Lemma preceded_check_quiet a b l : forall seen,
  forallb (fun e => negb (b e)) l = true -> preceded_check a b seen l = true.
Proof.
  induction l as [|x l IH]; intros seen H; cbn in *; [reflexivity|].
  apply andb_prop in H as [Hx Hl]. apply negb_true_iff in Hx. rewrite Hx.
  now apply IH.
Qed.

Lemma preceded_check_then_quiet a b seen l p :
  forallb (fun e => negb (b e)) p = true ->
  preceded_check a b seen l = true ->
  preceded_check a b seen (l ++ p) = true.
Proof.
  intros Hp Hl. rewrite preceded_check_app, Hl. now apply preceded_check_quiet.
Qed.

Lemma preceded_check_then_seen a b seen l p :
  existsb a l = true ->
  preceded_check a b seen l = true ->
  preceded_check a b seen (l ++ p) = true.
Proof.
  intros Ha Hl. rewrite preceded_check_app, Hl, Ha, orb_true_r.
  apply preceded_check_seen.
Qed.

Ltac use_sign_tests :=
  repeat match goal with H : (_ <? 0) = _ |- _ => rewrite H end.

(** An event of the kind wanted is in the log so far. *)
Ltac find_seen :=
  lazymatch goal with
  | |- existsb _ (_ ++ _) = true =>
      rewrite existsb_app; apply orb_true_iff;
      first [ right; solve [cbn; use_sign_tests; reflexivity] | left; find_seen ]
  end.

Ltac quiet_piece :=
  first
    [ reflexivity
    | solve [cbn; use_sign_tests; reflexivity]
    | match goal with
      | H : forallb _ ?l = true |- forallb _ ?l = true =>
          apply (forallb_weaken _ _ l) with (2 := H); solve [class_implies]
      end ].

Ltac preceded :=
  lazymatch goal with
  | |- preceded_check _ _ _ [] = true => reflexivity
  | |- preceded_check _ _ _ (_ ++ _) = true =>
      first [ apply preceded_check_then_quiet; [solve [quiet_piece]|]
            | apply preceded_check_then_seen; [solve [find_seen]|] ];
      preceded
  end.

Lemma start_order_checked env driver reason w :
  let tr := events (virCHProcessStart env driver reason w) in
  preceded_check cgroup_set_up is_start_devices false tr = true /\
  preceded_check devices_started is_boot false tr = true /\
  preceded_check booted is_placement false tr = true.
Proof.
  cbv zeta.
  apply (wp_run (virCHProcessStart env driver reason)
           (fun r tr w' =>
              preceded_check cgroup_set_up is_start_devices false tr = true /\
              preceded_check devices_started is_boot false tr = true /\
              preceded_check booted is_placement false tr = true)).
  unfold virCHProcessStart. wp_walk.
  all: wp_facts.
  all: split; [preceded | split; preceded].
Qed.

(** X29.  The order of the steps of virCHProcessStart, in every run and
    however it ends: the host-side interfaces are brought up only after the
    cgroup of the domain has been set up, the guest is booted only after
    the interfaces have been brought up, and threads are placed (calls on
    thread cgroups, scheduler settings) only after the guest has booted;
    each time the earlier step has succeeded. *)
Theorem virCHProcessStart_order env driver reason w :
  let tr := events (virCHProcessStart env driver reason w) in
  always_preceded_by cgroup_set_up is_start_devices tr /\
  always_preceded_by devices_started is_boot tr /\
  always_preceded_by booted is_placement tr.
Proof.
  cbv zeta. unfold always_preceded_by.
  destruct (start_order_checked env driver reason w) as (H1 & H2 & H3).
  split; [|split]; intros pre e post Heq Hb.
  - destruct (preceded_check_sound _ _ _ _ H1 _ _ _ Heq Hb) as [H|H];
      [discriminate H | exact H].
  - destruct (preceded_check_sound _ _ _ _ H2 _ _ _ Heq Hb) as [H|H];
      [discriminate H | exact H].
  - destruct (preceded_check_sound _ _ _ _ H3 _ _ _ Heq Hb) as [H|H];
      [discriminate H | exact H].
Qed.

Lemma virCHProcessStart_order_witness :
  exists pre post,
    events (virCHProcessStart env_ok driver_ok VIR_DOMAIN_RUNNING_BOOTED world_vm1)
    = pre ++ EvMonitorBootVM 0 :: post /\
    existsb devices_started pre = true.
Proof.
  assert (Hin : In (EvMonitorBootVM 0)
                  (events (virCHProcessStart env_ok driver_ok
                             VIR_DOMAIN_RUNNING_BOOTED world_vm1))).
  { vm_compute. repeat (first [left; reflexivity | right]). }
  destruct (in_split _ _ Hin) as (pre & post & Heq).
  exists pre, post. split; [exact Heq|].
  destruct (virCHProcessStart_order env_ok driver_ok VIR_DOMAIN_RUNNING_BOOTED
              world_vm1) as (_ & Hboot & _).
  exact (Hboot pre (EvMonitorBootVM 0) post Heq eq_refl).
Defined.

(* ================================================================== *)
(** ** The info update at the end of virCHProcessStart *)
(* ================================================================== *)








(* ================================================================== *)
(** ** The status decision of chProcessAddNetworkDevices *)
(* ================================================================== *)









